(** * Denver Kabob: order materialisation from paid checkout sessions

    A shallow embedding of the three order routes of the repository:

    - [EnsureRoute.POST]   : src/app/api/orders/ensure/route.ts
    - [WebhookRoute.POST]  : src/unnamed/part_001 (the Stripe webhook)
    - [StatusRoute.PATCH]  : src/app/api/orders/[id]/route.ts

    The handlers talk to two collaborators, the Supabase store and the
    Stripe API.  Each handler is written as a program of calls ([Prog]);
    [run] executes a program against any implementation of the
    collaborators ([Collab]) and records the calls with their replies.
    JavaScript strings are byte strings, JavaScript numbers are binary64
    floats ([PrimFloat]), integers kept in the store are [Z]. *)

From Stdlib Require Import ZArith Bool List String Ascii Lia DecimalString.
From Stdlib Require Import Floats.PrimFloat Floats.FloatOps Floats.SpecFloat Floats.FloatAxioms.
From Stdlib Require QArith.
Import ListNotations.

Local Open Scope string_scope.
Local Open Scope Z_scope.

(* ================================================================= *)
(** ** JavaScript strings *)

(** Strings are sequences of bytes.  The functions below agree with
    their JavaScript namesakes on ASCII text; on other text they differ
    only in what counts as a letter or as white space ([toLowerCase],
    [trim]) and in how [slice] counts, none of which bears on the digits
    of a phone or on the ASCII phrases looked for in an error message. *)
Module Js.

(** Truthiness of a string: every string but the empty one. *)
Definition truthy (s : string) : bool :=
  match s with EmptyString => false | String _ _ => true end.

(** [a || b] on strings. *)
Definition or_else (a b : string) : string := if truthy a then a else b.

(** [a || b] where [a] may be [undefined] or [null]. *)
Definition opt_or (a : option string) (b : string) : string :=
  match a with Some s => or_else s b | None => b end.

Definition is_digit (c : ascii) : bool :=
  let n := N_of_ascii c in (48 <=? n)%N && (n <=? 57)%N.

(** [s.replace(/\D/g, '')] *)
Fixpoint replace_non_digits (s : string) : string :=
  match s with
  | EmptyString => EmptyString
  | String c r => if is_digit c then String c (replace_non_digits r)
                  else replace_non_digits r
  end.

Definition lower_char (c : ascii) : ascii :=
  let n := N_of_ascii c in
  if (65 <=? n)%N && (n <=? 90)%N then ascii_of_N (n + 32) else c.

(** [s.toLowerCase()]; only the letters A-Z change, which is all that
    matters for the ASCII phrases the code searches for. *)
Fixpoint toLowerCase (s : string) : string :=
  match s with
  | EmptyString => EmptyString
  | String c r => String (lower_char c) (toLowerCase r)
  end.

(** [s.includes(needle)] *)
Fixpoint includes (needle s : string) : bool :=
  prefix needle s ||
  match s with
  | EmptyString => false
  | String _ r => includes needle r
  end.

Definition is_space (c : ascii) : bool :=
  let n := N_of_ascii c in
  (n =? 32)%N || ((9 <=? n)%N && (n <=? 13)%N).

Fixpoint trim_start (s : string) : string :=
  match s with
  | EmptyString => EmptyString
  | String c r => if is_space c then trim_start r else s
  end.

(** Drops the white space at the end: a character is kept when it is
    not white space or when something is kept after it. *)
Fixpoint trim_end (s : string) : string :=
  match s with
  | EmptyString => EmptyString
  | String c r =>
      match trim_end r with
      | EmptyString => if is_space c then EmptyString else String c EmptyString
      | r' => String c r'
      end
  end.

(** [s.trim()] *)
Definition trim (s : string) : string := trim_end (trim_start s).

(** [s.slice(0, n)] *)
Definition slice0 (n : nat) (s : string) : string := substring 0 n s.

(** [s.split(' ')] *)
Fixpoint split_space_aux (cur : string) (s : string) : list string :=
  match s with
  | EmptyString => [cur]
  | String c r =>
      if Ascii.eqb c " "%char then cur :: split_space_aux EmptyString r
      else split_space_aux (cur ++ String c EmptyString) r
  end.

Definition split_space (s : string) : list string := split_space_aux EmptyString s.

(** [parts.join(sep)] *)
Fixpoint join (sep : string) (parts : list string) : string :=
  match parts with
  | [] => EmptyString
  | [p] => p
  | p :: rest => p ++ sep ++ join sep rest
  end.

End Js.

(* ================================================================= *)
(** ** JavaScript numbers *)

(** Numbers are IEEE 754 binary64 values, the primitive floats of the
    prover, so that the arithmetic of the handlers is computed as
    JavaScript computes it. *)
Module Num.

(** The double nearest to the rational [m / d] (ties to even), for
    [0 < m].  The quotient is taken with 64 bits or more and one more
    bit that records a non-zero remainder, then rounded once. *)
Definition nearest_pos (m : positive) (d : positive) : spec_float :=
  let s := Z.max 0 (Z.log2 (Zpos d) - Z.log2 (Zpos m) + 66) in
  let n := (Zpos m) * 2 ^ s in
  let q := n / Zpos d in
  let sticky := if (n mod Zpos d =? 0) then 0 else 1 in
  binary_normalize prec emax (2 * q + sticky) (- (s + 1)) false.

(** The double nearest to [m * 10 ^ e], with the sign given apart so
    that a zero keeps it. *)
Definition of_decimal (neg : bool) (m : Z) (e : Z) : float :=
  let r :=
    match m with
    | Zpos p =>
        if 0 <=? e then binary_normalize prec emax (Zpos p * 10 ^ e) 0 false
        else nearest_pos p (Z.to_pos (10 ^ (- e)))
    | _ => S754_zero false
    end in
  SF2Prim (if neg then SFopp r else r).

(** A JSON integer read as a number. *)
Definition of_Z (z : Z) : float :=
  of_decimal (z <? 0) (Z.abs z) 0.

Definition digit_val (c : ascii) : Z := Z.of_N (N_of_ascii c) - 48.

(** Reads the digits at the front of [s]: their value as a numeral
    continuing [acc], how many there are, and the rest. *)
Fixpoint read_digits (acc : Z) (count : Z) (s : string) : Z * Z * string :=
  match s with
  | String c r =>
      if Js.is_digit c then read_digits (10 * acc + digit_val c) (count + 1) r
      else (acc, count, s)
  | EmptyString => (acc, count, s)
  end.

(** An optional sign at the front of [s]; [true] for a minus. *)
Definition read_sign (s : string) : bool * string :=
  match s with
  | String "-" r => (true, r)
  | String "+" r => (false, r)
  | _ => (false, s)
  end.

(** The exponent part, taken only when it is complete ([e] or [E], an
    optional sign, one digit or more); 0 otherwise. *)
Definition read_exponent (s : string) : Z :=
  match s with
  | String c r =>
      if Ascii.eqb c "e" || Ascii.eqb c "E" then
        let (neg, r1) := read_sign r in
        let '(v, n, _) := read_digits 0 0 r1 in
        if n =? 0 then 0 else if neg then - v else v
      else 0
  | EmptyString => 0
  end.

(** [parseFloat(s)]: white space is skipped, then the longest prefix
    that is a decimal literal is read; [NaN] when there is none. *)
Definition parseFloat (s : string) : float :=
  let (neg, body) := read_sign (Js.trim_start s) in
  if prefix "Infinity" body then (if neg then neg_infinity else infinity)
  else
    let '(ip, ni, r1) := read_digits 0 0 body in
    let '(m, nf, r2) :=
      match r1 with
      | String "." r => read_digits ip 0 r
      | _ => (ip, 0, r1)
      end in
    if (ni =? 0) && (nf =? 0) then nan
    else
      let after := if (nf =? 0) then
                     match r1 with String "." r => r | _ => r1 end
                   else r2 in
      of_decimal neg m (read_exponent after - nf).

(** [Number.isFinite(x)] *)
Definition isFinite (x : float) : bool := is_finite x.

(** [Number(x.toFixed(2))].  [toFixed(2)] prints the integer [n] with
    [n / 100] nearest to [|x|] (the larger one on a tie) with two
    decimals and the sign of [x]; [Number] reads it back to the nearest
    double.  From 1e21 on, and for infinities and [NaN], [toFixed]
    prints the number itself, which reads back unchanged. *)
Definition toFixed2_Number (x : float) : float :=
  match Prim2SF x with
  | S754_finite neg m e =>
      if (PrimFloat.abs x <? 1e21)%float then
        let n := if 0 <=? e then Zpos m * 2 ^ e * 100
                 else (Zpos m * 200 + 2 ^ (- e)) / 2 ^ (- e + 1) in
        of_decimal neg n (-2)
      else x
  | S754_zero _ => zero
  | _ => x
  end.

(** The integer a number holds: its value when that is an integer, as
    for the sum of a whole number and 1; 0 when it is not finite. *)
Definition to_Z (x : float) : Z :=
  match Prim2SF x with
  | S754_finite s m e =>
      let v := if 0 <=? e then Zpos m * 2 ^ e else Zpos m / 2 ^ (- e) in
      if s then - v else v
  | _ => 0
  end.

(** The mantissa, of 53 bits, of the double that holds the integer [q]
    below 2^53. *)
Definition int_mantissa (q : positive) : positive :=
  Z.to_pos (Zpos q * 2 ^ (52 - Z.log2 (Zpos q))).

End Num.

(* ================================================================= *)
(** ** Data exchanged with the collaborators *)

(** A column value of a row or of a write. *)
Inductive JVal : Type :=
| JNull
| JStr (s : string)
| JNum (x : float)
| JInt (z : Z).

(** An object literal: its fields in the order they are written. *)
Definition Payload : Type := list (string * JVal).

Definition keys (p : Payload) : list string := map fst p.

Fixpoint field (k : string) (p : Payload) : option JVal :=
  match p with
  | [] => None
  | (k', v) :: r => if String.eqb k k' then Some v else field k r
  end.

(** [x || null] for a string bound for a column. *)
Definition str_or_null (s : string) : JVal :=
  if Js.truthy s then JStr s else JNull.

(** A row of [orders] as the store hands it back: the [id] the code
    reads, the columns, and the embedded [order_items] when selected. *)
Record Row : Type := mkRow {
  row_id : string;
  row_cols : Payload;
  row_items : list Payload
}.

(** The [error] of a store reply. *)
Record DbError : Type := mkDbError {
  message : string;
  code : string
}.

(** The [{ data, error }] pair of a store reply. *)
Inductive DbResult (A : Type) : Type :=
| DbOk (data : A)
| DbErr (error : DbError).
Arguments DbOk {A} data.
Arguments DbErr {A} error.

(** A call that may throw; the thrown error is kept by its message. *)
Inductive Thrown (A : Type) : Type :=
| Returned (a : A)
| Threw (msg : string).
Arguments Returned {A} a.
Arguments Threw {A} msg.

Record CustomerDetails : Type := mkCustomerDetails {
  cd_name : option string;
  cd_phone : option string;
  cd_email : option string
}.

(** The part of [Stripe.Checkout.Session] the handlers read.  An absent
    [payment_status] is the empty string. *)
Record Session : Type := mkSession {
  session_id : string;
  payment_status : string;
  metadata : option (list (string * string));
  customer_details : option CustomerDetails;
  amount_total : option Z
}.

Record LineItem : Type := mkLineItem {
  li_id : string;
  li_description : option string;
  li_unit_amount : option Z;
  li_quantity : option Z
}.

Record Addon : Type := mkAddon {
  addon_name : string;
  addon_price : float
}.

(** An entry of the cart kept as JSON in the [items] metadata. *)
Record CartItem : Type := mkCartItem {
  ci_id : string;
  ci_name : string;
  ci_price : float;
  ci_quantity : Z;
  ci_selectedOptions : list string;
  ci_selectedAddons : list Addon
}.

(** What [JSON.parse(items)] yields: an array of cart entries, or some
    other JSON value. *)
Inductive CartJson : Type :=
| CartArray (items : list CartItem)
| CartOther.

Record StripeEvent : Type := mkStripeEvent {
  event_type : string;
  event_session : Session
}.

(** [meta.key] on [session.metadata || {}]. *)
Fixpoint assoc (k : string) (m : list (string * string)) : option string :=
  match m with
  | [] => None
  | (k', v) :: r => if String.eqb k k' then Some v else assoc k r
  end.

Definition meta (s : Session) (k : string) : option string :=
  match metadata s with
  | Some m => assoc k m
  | None => None
  end.

(** Truthiness of a metadata value that may be absent. *)
Definition present (v : option string) : bool :=
  match v with Some s => Js.truthy s | None => false end.

(* ================================================================= *)
(** ** Calls, replies and programs *)

Inductive Columns : Type := AllWithItems | IdAndOrderNumber | IdOnly.
Inductive Cardinality : Type := Single | MaybeSingle.
Inductive Level : Type := LogInfo | LogWarn | LogError.

(** The calls a handler makes. *)
Inductive Call : Type :=
| CreateServerClient
| ConstructEvent (body signature secret : string)
| JsonParse (text : string)
| RetrieveSession (sid : string)
| ListLineItems (sid : string)
| SelectOrderBySession (cols : Columns) (sid : string) (card : Cardinality)
| SelectOrderById (cols : Columns) (id : string)
| SelectLastOrderNumber
| InsertOrder (p : Payload)
| InsertOrderItems (ps : list Payload)
| UpdateOrder (id : string) (p : Payload)
| Console (lvl : Level) (text : string) (detail : string).

Definition Reply (c : Call) : Type :=
  match c with
  | CreateServerClient => Thrown unit
  | ConstructEvent _ _ _ => Thrown StripeEvent
  | JsonParse _ => Thrown CartJson
  | RetrieveSession _ => Thrown Session
  | ListLineItems _ => Thrown (list LineItem)
  | SelectOrderBySession _ _ _ => DbResult (option Row)
  | SelectOrderById _ _ => DbResult (option Row)
  | SelectLastOrderNumber => DbResult (option (option Z))
  | InsertOrder _ => DbResult Row
  | InsertOrderItems _ => option DbError
  | UpdateOrder _ _ => DbResult Row
  | Console _ _ _ => unit
  end.

(** A handler: it ends with a result or makes a call and goes on with
    the reply. *)
Inductive Prog (R : Type) : Type :=
| Ret (r : R)
| Vis (c : Call) (k : Reply c -> Prog R).
Arguments Ret {R} r.
Arguments Vis {R} c k.

Notation "'let*' x ':=' c 'in' k" := (Vis c (fun x => k))
  (at level 10, x pattern, c at level 100, k at level 200).
Notation "'do' c 'in' k" := (Vis c (fun _ => k))
  (at level 10, c at level 100, k at level 200).

(** A call together with the reply it got. *)
Inductive Event : Type :=
| EvCreateServerClient (r : Thrown unit)
| EvConstructEvent (body signature secret : string) (r : Thrown StripeEvent)
| EvJsonParse (text : string) (r : Thrown CartJson)
| EvRetrieveSession (sid : string) (r : Thrown Session)
| EvListLineItems (sid : string) (r : Thrown (list LineItem))
| EvSelectOrderBySession (cols : Columns) (sid : string) (card : Cardinality)
    (r : DbResult (option Row))
| EvSelectOrderById (cols : Columns) (id : string) (r : DbResult (option Row))
| EvSelectLastOrderNumber (r : DbResult (option (option Z)))
| EvInsertOrder (p : Payload) (r : DbResult Row)
| EvInsertOrderItems (ps : list Payload) (r : option DbError)
| EvUpdateOrder (id : string) (p : Payload) (r : DbResult Row)
| EvConsole (lvl : Level) (text : string) (detail : string).

Definition event (c : Call) : Reply c -> Event :=
  match c with
  | CreateServerClient => EvCreateServerClient
  | ConstructEvent b s k => EvConstructEvent b s k
  | JsonParse t => EvJsonParse t
  | RetrieveSession sid => EvRetrieveSession sid
  | ListLineItems sid => EvListLineItems sid
  | SelectOrderBySession cols sid card => EvSelectOrderBySession cols sid card
  | SelectOrderById cols id => EvSelectOrderById cols id
  | SelectLastOrderNumber => EvSelectLastOrderNumber
  | InsertOrder p => EvInsertOrder p
  | InsertOrderItems ps => EvInsertOrderItems ps
  | UpdateOrder id p => EvUpdateOrder id p
  | Console lvl text detail => fun _ => EvConsole lvl text detail
  end.

(** The collaborators: a state and the reply to each call in it. *)
Record Collab (S : Type) : Type := mkCollab {
  answer : S -> forall c : Call, Reply c * S
}.
Arguments answer {S} _ _ _.

(** Running a handler: the calls made with their replies, the result,
    and the final state of the collaborators. *)
Fixpoint trace_of {S R : Type} (W : Collab S) (s : S) (p : Prog R) : list Event :=
  match p with
  | Ret _ => []
  | Vis c k => let (x, s1) := answer W s c in event c x :: trace_of W s1 (k x)
  end.

Fixpoint result_of {S R : Type} (W : Collab S) (s : S) (p : Prog R) : R :=
  match p with
  | Ret r => r
  | Vis c k => let (x, s1) := answer W s c in result_of W s1 (k x)
  end.

Fixpoint state_after {S R : Type} (W : Collab S) (s : S) (p : Prog R) : S :=
  match p with
  | Ret _ => s
  | Vis c k => let (x, s1) := answer W s c in state_after W s1 (k x)
  end.

Definition run {S R : Type} (W : Collab S) (s : S) (p : Prog R)
  : list Event * S * R :=
  (trace_of W s p, state_after W s p, result_of W s p).

(** The writes to the store. *)
Definition is_write (e : Event) : bool :=
  match e with
  | EvInsertOrder _ _ | EvInsertOrderItems _ _ | EvUpdateOrder _ _ _ => true
  | _ => false
  end.

Definition is_order_insert (e : Event) : bool :=
  match e with EvInsertOrder _ _ => true | _ => false end.

Definition is_items_insert (e : Event) : bool :=
  match e with EvInsertOrderItems _ _ => true | _ => false end.

(** The read that allocates the order number. *)
Definition is_number_read (e : Event) : bool :=
  match e with EvSelectLastOrderNumber _ => true | _ => false end.

(** The order inserts of a run, in order, each with its reply. *)
Fixpoint order_inserts (tr : list Event) : list (Payload * DbResult Row) :=
  match tr with
  | [] => []
  | EvInsertOrder p r :: rest => (p, r) :: order_inserts rest
  | _ :: rest => order_inserts rest
  end.

(** HTTP replies of the routes. *)
Inductive Body : Type :=
| BError (error : string)
| BEnsured (order : option Row) (created : bool) (subtotal : option float)
| BReceived (note : option string)
| BOrder (order : Row).

Record Response : Type := mkResponse {
  status : Z;
  body : Body
}.

Definition json (b : Body) (st : Z) : Response := mkResponse st b.

Record Config : Type := mkConfig {
  STRIPE_SECRET_KEY : string;
  STRIPE_WEBHOOK_SECRET : string
}.

(* ================================================================= *)
(** ** Code shared by the two order routes (written out in each) *)

(** [isMissingColumnError], ensure/route.ts lines 14-22 and the webhook
    lines 120-128. *)
Definition isMissingColumnError (msg : string) : bool :=
  if negb (Js.truthy msg) then false
  else
    let normalized := Js.toLowerCase msg in
    (Js.includes "column" normalized && Js.includes "does not exist" normalized)
    || Js.includes "could not find" normalized
    || Js.includes "schema cache" normalized.

(** [session.payment_status && session.payment_status !== 'paid' &&
    session.payment_status !== 'no_payment_required'] *)
Definition not_paid (s : Session) : bool :=
  Js.truthy (payment_status s)
  && negb (String.eqb (payment_status s) "paid")
  && negb (String.eqb (payment_status s) "no_payment_required").

(** [data?.order_number ? data.order_number + 1 : 1000].  The number
    read is a JavaScript number: the sum is the double nearest to it,
    exact below 2^53. *)
Definition next_order_number (data : option (option Z)) : Z :=
  match data with
  | Some (Some n) => if n =? 0 then 1000 else Num.to_Z (Num.of_Z n + 1)%float
  | _ => 1000
  end.

(** [typeof session.amount_total === 'number' ? session.amount_total / 100 : 0]
    followed by [Number(stripeTotalRaw.toFixed(2))] when finite. *)
Definition total_amount (s : Session) : float :=
  let stripeTotalRaw :=
    match amount_total s with
    | Some n => (Num.of_Z n / 100)%float
    | None => 0%float
    end in
  if Num.isFinite stripeTotalRaw then Num.toFixed2_Number stripeTotalRaw else 0%float.

(** The filter on the provider's line items. *)
Definition is_purchased (li : LineItem) : bool :=
  let name := Js.toLowerCase (Js.opt_or (li_description li) "") in
  negb (String.eqb name "sales tax") && negb (String.eqb name "tip").

Definition unit_price (li : LineItem) : float :=
  let unitAmount := match li_unit_amount li with Some n => Num.of_Z n | None => 0%float end in
  (unitAmount / 100)%float.

Definition quantity_of (li : LineItem) : Z :=
  match li_quantity li with Some q => q | None => 1 end.

(* ================================================================= *)
(** ** src/app/api/orders/ensure/route.ts *)

Module EnsureRoute.

(** The request body: [body?.sessionId] when it is a string. *)
Record Request : Type := mkRequest {
  sessionId : option string
}.

(** The values lines 55-89 derive from the session. *)
Record Draft : Type := mkDraft {
  customerName : string;
  customerPhoneDigits : string;
  customerEmail : string;
  customerFirstName : string;
  customerLastName : string;
  comments : string;
  taxAmount : float;
  tipAmount : float;
  tipPercent : float;
  totalAmount : float;
  subtotalAmount : float
}.

Inductive Drafted : Type :=
| Rejected (error : string)
| Accepted (d : Draft).

(** [meta.key ? parseFloat(String(meta.key)) : 0], kept when finite. *)
Definition amount_of (v : option string) : float :=
  let parsedRaw :=
    match v with
    | Some s => if Js.truthy s then Num.parseFloat s else 0%float
    | None => 0%float
    end in
  if Num.isFinite parsedRaw then parsedRaw else 0%float.

(** The phone the route works with, before normalisation (line 57). *)
Definition customerPhone (session : Session) : string :=
  Js.trim (Js.opt_or (meta session "customer_phone")
             (Js.opt_or (match customer_details session with
                         | Some cd => cd_phone cd | None => None end) "")).

(** Lines 55-89. *)
Definition draft (session : Session) : Drafted :=
  let details (f : CustomerDetails -> option string) :=
    match customer_details session with Some cd => f cd | None => None end in
  let customerName :=
    Js.trim (Js.opt_or (meta session "customer_name") (Js.opt_or (details cd_name) "")) in
  let customerPhoneDigits := Js.replace_non_digits (customerPhone session) in
  let customerEmail :=
    Js.trim (Js.opt_or (meta session "customer_email") (Js.opt_or (details cd_email) "")) in
  if negb (Js.truthy customerName) || negb (Js.truthy customerPhoneDigits) then
    Rejected "Missing customer_name/customer_phone on session"
  else if (String.length customerPhoneDigits <? 10)%nat then
    Rejected "Invalid customer_phone on session"
  else
    let customerFirstName := Js.trim (Js.opt_or (meta session "customer_first_name") "") in
    let customerLastName := Js.trim (Js.opt_or (meta session "customer_last_name") "") in
    let comments := Js.slice0 400 (Js.trim (Js.opt_or (meta session "comments") "")) in
    let taxAmount := amount_of (meta session "tax") in
    let tipAmount := amount_of (meta session "tip_amount") in
    let tipPercent := amount_of (meta session "tip_percent") in
    let totalAmount := total_amount session in
    let subtotalAmount :=
      Num.toFixed2_Number (totalAmount - taxAmount - tipAmount)%float in
    Accepted (mkDraft customerName customerPhoneDigits customerEmail
                customerFirstName customerLastName comments
                taxAmount tipAmount tipPercent totalAmount subtotalAmount).

(** Line 114. *)
Definition orderNumberPayload (orderNumberColumnMissing : bool)
  (nextOrderNumber : option Z) : Payload :=
  match nextOrderNumber with
  | Some n => if orderNumberColumnMissing then [] else [("order_number", JInt n)]
  | None => []
  end.

Definition finite_or_null (x : float) : JVal :=
  if Num.isFinite x then JNum x else JNull.

(** Lines 116-130. *)
Definition fullInsertPayload (sid : string) (d : Draft) (number : Payload) : Payload :=
  ([ ("customer_name", JStr (customerName d));
    ("customer_first_name", str_or_null (customerFirstName d));
    ("customer_last_name", str_or_null (customerLastName d));
    ("customer_phone", JStr (customerPhoneDigits d));
    ("customer_email", str_or_null (customerEmail d));
    ("tip_percent", finite_or_null (tipPercent d));
    ("tip_amount", finite_or_null (tipAmount d));
    ("comments", str_or_null (comments d));
    ("total_amount", JNum (totalAmount d));
    ("tax_amount", JNum (taxAmount d));
    ("status", JStr "pending");
    ("stripe_session_id", JStr sid) ] ++ number)%list.

(** Lines 132-141. *)
Definition minimalInsertPayload (sid : string) (d : Draft) (number : Payload) : Payload :=
  ([ ("customer_name", JStr (customerName d));
    ("customer_phone", JStr (customerPhoneDigits d));
    ("customer_email", str_or_null (customerEmail d));
    ("total_amount", JNum (totalAmount d));
    ("tax_amount", JNum (taxAmount d));
    ("status", JStr "pending");
    ("stripe_session_id", JStr sid) ] ++ number)%list.

(** Lines 165-180. *)
Definition orderItemsData (order : Row) (lineItems : list LineItem) : list Payload :=
  map (fun li =>
         [ ("order_id", JStr (row_id order));
           ("menu_item_id", JStr (li_id li));
           ("menu_item_name", JStr (Js.opt_or (li_description li) "Item"));
           ("quantity", JInt (quantity_of li));
           ("price", JNum (unit_price li)) ])
      (filter is_purchased lineItems).

(** The [catch] of lines 200-206. *)
Definition caught (msg : string) : Prog Response :=
  do Console LogError "Error ensuring order:" msg in
  Ret (json (BError (Js.or_else msg "Failed to ensure order")) 500).

(** Lines 190-199: the order is read again with its items. *)
Definition reread (order : Row) (subtotal : float) : Prog Response :=
  let* complete := SelectOrderById AllWithItems (row_id order) in
  match complete with
  | DbErr _ => Ret (json (BEnsured (Some order) true None) 200)
  | DbOk data => Ret (json (BEnsured data true (Some subtotal)) 200)
  end.

(** Lines 160-188: the items of the new order. *)
Definition insert_items (sid : string) (d : Draft) (order : Row) : Prog Response :=
  let* lineItemsResp := ListLineItems sid in
  match lineItemsResp with
  | Threw msg => caught msg
  | Returned lineItems =>
      let rows := orderItemsData order lineItems in
      if (0 <? List.length rows)%nat then
        let* itemsError := InsertOrderItems rows in
        match itemsError with
        | Some e =>
            do Console LogError "Error inserting order_items:" (message e) in
            reread order (subtotalAmount d)
        | None => reread order (subtotalAmount d)
        end
      else reread order (subtotalAmount d)
  end.

(** Lines 147-158: what follows the insert, with its final reply. *)
Definition after_insert (sid : string) (d : Draft) (insertResult : DbResult Row)
  : Prog Response :=
  match insertResult with
  | DbErr e =>
      let* retry := SelectOrderBySession AllWithItems sid MaybeSingle in
      match retry with
      | DbOk (Some o) => Ret (json (BEnsured (Some o) false None) 200)
      | _ => caught (message e)
      end
  | DbOk order => insert_items sid d order
  end.

(** Lines 114-146: the insert, full shape first. *)
Definition insert_order (sid : string) (d : Draft)
  (orderNumberColumnMissing : bool) (nextOrderNumber : option Z) : Prog Response :=
  let number := orderNumberPayload orderNumberColumnMissing nextOrderNumber in
  let* insertResult := InsertOrder (fullInsertPayload sid d number) in
  match insertResult with
  | DbErr e =>
      if isMissingColumnError (message e) then
        let* insertResult := InsertOrder (minimalInsertPayload sid d number) in
        after_insert sid d insertResult
      else after_insert sid d insertResult
  | DbOk _ => after_insert sid d insertResult
  end.

(** Lines 91-112: the order number. *)
Definition allocate_number (sid : string) (d : Draft) : Prog Response :=
  let* lastOrderResult := SelectLastOrderNumber in
  match lastOrderResult with
  | DbErr e =>
      if isMissingColumnError (message e) then insert_order sid d true None
      else
        do Console LogError "Error getting last order number:" (message e) in
        insert_order sid d false None
  | DbOk data => insert_order sid d false (Some (next_order_number data))
  end.

(** [POST], lines 24-207. *)
Definition POST (cfg : Config) (request : Request) : Prog Response :=
  if negb (Js.truthy (STRIPE_SECRET_KEY cfg)) then
    Ret (json (BError "Stripe is not configured") 500)
  else
    let sid := match sessionId request with Some s => s | None => "" end in
    if negb (Js.truthy sid) then
      Ret (json (BError "sessionId is required") 400)
    else
      let* supabase := CreateServerClient in
      match supabase with
      | Threw msg => caught msg
      | Returned _ =>
          let* existing := SelectOrderBySession AllWithItems sid MaybeSingle in
          match existing with
          | DbErr e => caught (message e)
          | DbOk (Some o) => Ret (json (BEnsured (Some o) false None) 200)
          | DbOk None =>
              let* session := RetrieveSession sid in
              match session with
              | Threw msg => caught msg
              | Returned session =>
                  if not_paid session then
                    Ret (json (BError "Session is not paid") 400)
                  else
                    match draft session with
                    | Rejected error => Ret (json (BError error) 400)
                    | Accepted d => allocate_number sid d
                    end
              end
          end
      end.

End EnsureRoute.

(* ================================================================= *)
(** ** src/unnamed/part_001: the Stripe webhook *)

Module WebhookRoute.

Record Request : Type := mkRequest {
  text : string;                 (* request.text() *)
  stripe_signature : option string  (* the stripe-signature header *)
}.

(** The values the handler derives from the session metadata alone:
    lines 62-87 (names, phone) and lines 185-210 (amounts). *)
Record Draft : Type := mkDraft {
  customer_name : string;
  normalizedCustomerPhone : string;
  derivedFirstName : string;
  derivedLastName : option string;
  customer_email : option string;
  comments : option string;
  taxAmount : float;
  tipAmount : float;
  tipPercent : float;
  normalizedTipAmount : float;
  totalAmount : float;
  subtotalAmount : float
}.

Inductive Drafted : Type :=
| Rejected (error : string)
| Accepted (d : Draft).

(** Lines 185-186. *)
Definition tax_of (tax : option string) : float :=
  let parsedTaxRaw :=
    match tax with
    | Some s => if Js.truthy s then Num.parseFloat s else 0%float
    | None => 0%float
    end in
  if Num.isFinite parsedTaxRaw then parsedTaxRaw else 0%float.

(** Lines 188-194 and 196-202. *)
Definition tip_of (tip : option string) : float :=
  let parsedRaw :=
    match tip with
    | Some s => if Js.truthy s then Num.parseFloat s else 0%float
    | None => 0%float
    end in
  if Num.isFinite parsedRaw && (0 <=? parsedRaw)%float then parsedRaw else 0%float.

(** [a || b] where [b] is a string that may be empty, the whole being
    a value that may be falsy. *)
Definition first_truthy (a : option string) (b : string) : option string :=
  if present a then a else if Js.truthy b then Some b else None.

Definition draft (session : Session) : Drafted :=
  match meta session "customer_name", meta session "customer_phone" with
  | Some customer_name, Some customer_phone =>
      if negb (Js.truthy customer_name) || negb (Js.truthy customer_phone) then
        Rejected "Missing required order metadata (customer_name/customer_phone)"
      else
        let normalizedCustomerPhone := Js.replace_non_digits customer_phone in
        if (String.length normalizedCustomerPhone <? 10)%nat then
          Rejected "Invalid customer phone in metadata"
        else
          let nameParts := filter Js.truthy (Js.split_space customer_name) in
          let derivedFirstName :=
            match first_truthy (meta session "customer_first_name")
                    (match nameParts with p :: _ => p | [] => "" end) with
            | Some s => s
            | None => customer_name
            end in
          let derivedLastName :=
            first_truthy (meta session "customer_last_name")
              (Js.join " " (tl nameParts)) in
          let customer_email :=
            if present (meta session "customer_email") then meta session "customer_email"
            else None in
          let comments :=
            match meta session "comments" with
            | Some c => if Js.truthy c then Some (Js.slice0 400 c) else None
            | None => None
            end in
          let taxAmount := tax_of (meta session "tax") in
          let tipAmount := tip_of (meta session "tip_amount") in
          let tipPercent := tip_of (meta session "tip_percent") in
          let normalizedTipAmount :=
            if (0 <? tipAmount)%float then tipAmount else 0%float in
          let totalAmount := total_amount session in
          let subtotalAmount :=
            Num.toFixed2_Number (totalAmount - taxAmount - normalizedTipAmount)%float in
          Accepted (mkDraft customer_name normalizedCustomerPhone derivedFirstName
                      derivedLastName customer_email comments taxAmount tipAmount
                      tipPercent normalizedTipAmount totalAmount subtotalAmount)
  | _, _ => Rejected "Missing required order metadata (customer_name/customer_phone)"
  end.

Definition opt_str (v : option string) : JVal :=
  match v with Some s => JStr s | None => JNull end.

Definition finite_or_null (x : float) : JVal :=
  if Num.isFinite x then JNum x else JNull.

(** Lines 212-225. *)
Definition fullInsertPayload (session : Session) (d : Draft) : Payload :=
  [ ("customer_name", JStr (customer_name d));
    ("customer_first_name", JStr (derivedFirstName d));
    ("customer_last_name", opt_str (derivedLastName d));
    ("customer_phone", JStr (normalizedCustomerPhone d));
    ("customer_email", opt_str (customer_email d));
    ("tip_percent", finite_or_null (tipPercent d));
    ("tip_amount", finite_or_null (normalizedTipAmount d));
    ("comments", opt_str (comments d));
    ("total_amount", JNum (totalAmount d));
    ("tax_amount", JNum (taxAmount d));
    ("status", JStr "pending");
    ("stripe_session_id", JStr (session_id session)) ].

(** Lines 231-239. *)
Definition minimalInsertPayload (session : Session) (d : Draft) : Payload :=
  [ ("customer_name", JStr (customer_name d));
    ("customer_phone", JStr (normalizedCustomerPhone d));
    ("customer_email", opt_str (customer_email d));
    ("total_amount", JNum (totalAmount d));
    ("tax_amount", JNum (taxAmount d));
    ("status", JStr "pending");
    ("stripe_session_id", JStr (session_id session)) ].

(** Lines 227-229: [!nextOrderNumber] also holds for the number 0. *)
Definition orderNumberPayload (orderNumberColumnMissing : bool)
  (nextOrderNumber : option Z) : Payload :=
  match nextOrderNumber with
  | Some n => if orderNumberColumnMissing || (n =? 0) then []
              else [("order_number", JInt n)]
  | None => []
  end.

(** Line 241. *)
Definition insertWithNumber (orderNumberColumnMissing : bool)
  (nextOrderNumber : option Z) : bool :=
  negb orderNumberColumnMissing
  && match nextOrderNumber with Some _ => true | None => false end.

(** Lines 245 and 253: the object handed to [insert]. *)
Definition with_number (base : Payload) (orderNumberColumnMissing : bool)
  (nextOrderNumber : option Z) : Payload :=
  if insertWithNumber orderNumberColumnMissing nextOrderNumber
  then (base ++ orderNumberPayload orderNumberColumnMissing nextOrderNumber)%list
  else base.

(** Lines 101-117: the cart rebuilt from the provider's line items. *)
Definition cart_of_line_items (lineItems : list LineItem) : list CartItem :=
  map (fun li =>
         mkCartItem (li_id li) (Js.opt_or (li_description li) "Item")
           (unit_price li) (quantity_of li) [] [])
      (filter is_purchased lineItems).

(** Lines 265-297, for one cart entry. *)
Definition item_rows (order : Row) (item : CartItem) : list Payload :=
  let itemName :=
    if (0 <? List.length (ci_selectedOptions item))%nat
    then ci_name item ++ " (" ++ Js.join ", " (ci_selectedOptions item) ++ ")"
    else ci_name item in
  [ ("order_id", JStr (row_id order));
    ("menu_item_id", JStr (ci_id item));
    ("menu_item_name", JStr itemName);
    ("quantity", JInt (ci_quantity item));
    ("price", JNum (ci_price item)) ]
  :: map (fun addon =>
            [ ("order_id", JStr (row_id order));
              ("menu_item_id", JStr (ci_id item ++ "-addon-" ++ addon_name addon));
              ("menu_item_name", JStr ("+ " ++ addon_name addon));
              ("quantity", JInt (ci_quantity item));
              ("price", JNum (addon_price addon)) ])
         (ci_selectedAddons item).

Definition orderItemsData (order : Row) (orderItems : list CartItem) : list Payload :=
  flat_map (item_rows order) orderItems.

(** The [catch] of lines 308-314. *)
Definition caught (msg : string) : Prog Response :=
  do Console LogError "Error processing webhook:" msg in
  Ret (json (BError "Failed to process order") 500).

(** Lines 299-307. *)
Definition insert_items (order : Row) (orderItems : list CartItem) : Prog Response :=
  let* itemsError := InsertOrderItems (orderItemsData order orderItems) in
  match itemsError with
  | Some e => caught (message e)
  | None =>
      do Console LogInfo "Order created successfully:" (row_id order) in
      Ret (json (BReceived None) 200)
  end.

(** Lines 258-262. *)
Definition after_insert (orderItems : list CartItem) (insertResult : DbResult Row)
  : Prog Response :=
  match insertResult with
  | DbErr orderError => caught (message orderError)
  | DbOk order => insert_items order orderItems
  end.

(** Lines 212-256. *)
Definition insert_order (session : Session) (d : Draft) (orderItems : list CartItem)
  (orderNumberColumnMissing : bool) (nextOrderNumber : option Z) : Prog Response :=
  let* insertResult :=
    InsertOrder (with_number (fullInsertPayload session d)
                   orderNumberColumnMissing nextOrderNumber) in
  match insertResult with
  | DbErr e =>
      if isMissingColumnError (message e) then
        do Console LogWarn "Webhook order insert retrying without new columns:"
             (message e) in
        let* insertResult :=
          InsertOrder (with_number (minimalInsertPayload session d)
                         orderNumberColumnMissing nextOrderNumber) in
        after_insert orderItems insertResult
      else after_insert orderItems insertResult
  | DbOk _ => after_insert orderItems insertResult
  end.

(** Lines 161-182. *)
Definition allocate_number (session : Session) (d : Draft) (orderItems : list CartItem)
  (orderNumberColumnMissing : bool) : Prog Response :=
  if negb orderNumberColumnMissing then
    let* lastOrderResult := SelectLastOrderNumber in
    match lastOrderResult with
    | DbErr e =>
        if isMissingColumnError (message e) then
          insert_order session d orderItems true None
        else
          do Console LogError "Error getting last order number:" (message e) in
          insert_order session d orderItems false None
    | DbOk data =>
        insert_order session d orderItems false (Some (next_order_number data))
    end
  else insert_order session d orderItems true None.

(** Lines 156-159. *)
Definition skip_existing (session : Session) (d : Draft) (orderItems : list CartItem)
  (orderNumberColumnMissing : bool) (existingOrder : option Row) : Prog Response :=
  match existingOrder with
  | Some _ =>
      do Console LogInfo "Order already exists for session:" (session_id session) in
      Ret (json (BReceived (Some "Order already processed")) 200)
  | None => allocate_number session d orderItems orderNumberColumnMissing
  end.

(** Lines 130-154. *)
Definition check_existing (session : Session) (d : Draft) (orderItems : list CartItem)
  : Prog Response :=
  let* existingOrderResult :=
    SelectOrderBySession IdAndOrderNumber (session_id session) Single in
  match existingOrderResult with
  | DbErr e =>
      if isMissingColumnError (message e) then
        let* fallbackExistingOrderResult :=
          SelectOrderBySession IdOnly (session_id session) MaybeSingle in
        skip_existing session d orderItems true
          (match fallbackExistingOrderResult with
           | DbOk data => data
           | DbErr _ => None
           end)
      else if negb (String.eqb (code e) "PGRST116") then
        do Console LogError "Error checking existing order:" (message e) in
        skip_existing session d orderItems false None
      else skip_existing session d orderItems false None
  | DbOk data => skip_existing session d orderItems false data
  end.

(** Lines 98-118. *)
Definition rebuild_items (session : Session) (d : Draft) : Prog Response :=
  let* lineItemsResp := ListLineItems (session_id session) in
  match lineItemsResp with
  | Threw msg => caught msg
  | Returned lineItems => check_existing session d (cart_of_line_items lineItems)
  end.

(** Lines 89-98. *)
Definition load_items (session : Session) (d : Draft) : Prog Response :=
  match meta session "items" with
  | Some items =>
      if Js.truthy items then
        let* parsed := JsonParse items in
        match parsed with
        | Returned (CartArray (i :: rest)) => check_existing session d (i :: rest)
        | _ => rebuild_items session d
        end
      else rebuild_items session d
  | None => rebuild_items session d
  end.

(** Lines 49-314: a [checkout.session.completed] event. *)
Definition completed (session : Session) : Prog Response :=
  if not_paid session then
    do Console LogWarn "Ignoring checkout.session.completed with non-paid status:"
         (session_id session) in
    Ret (json (BReceived None) 200)
  else
    let* supabase := CreateServerClient in
    match supabase with
    | Threw msg => caught msg
    | Returned _ =>
        match draft session with
        | Rejected error => caught error
        | Accepted d => load_items session d
        end
    end.

(** [POST], lines 21-318. *)
Definition POST (cfg : Config) (request : Request) : Prog Response :=
  if negb (Js.truthy (STRIPE_SECRET_KEY cfg))
     || negb (Js.truthy (STRIPE_WEBHOOK_SECRET cfg)) then
    do Console LogError "Stripe webhook not configured" "" in
    Ret (json (BError "Webhook not configured") 500)
  else if negb (present (stripe_signature request)) then
    Ret (json (BError "Missing signature") 400)
  else
    let signature := match stripe_signature request with Some s => s | None => "" end in
    let* event := ConstructEvent (text request) signature (STRIPE_WEBHOOK_SECRET cfg) in
    match event with
    | Threw msg =>
        do Console LogError "Webhook signature verification failed:" msg in
        Ret (json (BError "Invalid signature") 400)
    | Returned event =>
        if String.eqb (event_type event) "checkout.session.completed"
        then completed (event_session event)
        else Ret (json (BReceived None) 200)
    end.

End WebhookRoute.

(* ================================================================= *)
(** ** src/app/api/orders/[id]/route.ts *)

Module StatusRoute.

(** [status] as destructured from the JSON body: a string, nothing, or
    a value of another type (with its truthiness). *)
Inductive StatusField : Type :=
| StatusString (s : string)
| StatusAbsent
| StatusOther (truthy : bool).

(** [params.id] and [await request.json()]; a body that does not parse
    or cannot be destructured throws. *)
Record Request : Type := mkRequest {
  id : string;
  parsed : Thrown StatusField
}.

(** Line 7. *)
Definition VALID_STATUSES : list string :=
  ["pending"; "preparing"; "ready"; "completed"].

(** [VALID_STATUSES.includes(status)] *)
Definition is_valid (status : string) : bool :=
  existsb (String.eqb status) VALID_STATUSES.

(** The [catch] of lines 55-61. *)
Definition caught (msg : string) : Prog Response :=
  do Console LogError "Error updating order:" msg in
  Ret (json (BError (Js.or_else msg "Failed to update order")) 500).

Definition invalid : Response :=
  json (BError ("Invalid status. Must be one of: " ++ Js.join ", " VALID_STATUSES)) 400.

(** Lines 24-54, for a status that passed line 17. *)
Definition update (id : string) (status : string) : Prog Response :=
  let* supabase := CreateServerClient in
  match supabase with
  | Threw msg => caught msg
  | Returned _ =>
      let* existingOrder := SelectOrderById IdOnly id in
      match existingOrder with
      | DbOk (Some _) =>
          let* updated := UpdateOrder id [("status", JStr status)] in
          match updated with
          | DbErr error => caught (message error)
          | DbOk data => Ret (json (BOrder data) 200)
          end
      | _ => Ret (json (BError "Order not found") 404)
      end
  end.

(** [PATCH], lines 9-62. *)
Definition PATCH (request : Request) : Prog Response :=
  match parsed request with
  | Threw msg => caught msg
  | Returned (StatusString status) =>
      if negb (Js.truthy status) || negb (is_valid status) then Ret invalid
      else update (id request) status
  | Returned _ => Ret invalid
  end.

End StatusRoute.

(* ================================================================= *)
(** ** Two implementations of the collaborators *)

(** Replies read from a script: each call but [Console] takes the next
    entry; an entry of another kind, or none, makes the call fail. *)
Module Replay.

Definition unscripted : DbError := mkDbError "unscripted call" "".

Definition failing (c : Call) : Reply c :=
  match c with
  | CreateServerClient => Threw "unscripted call"
  | ConstructEvent _ _ _ => Threw "unscripted call"
  | JsonParse _ => Threw "unscripted call"
  | RetrieveSession _ => Threw "unscripted call"
  | ListLineItems _ => Threw "unscripted call"
  | SelectOrderBySession _ _ _ => DbErr unscripted
  | SelectOrderById _ _ => DbErr unscripted
  | SelectLastOrderNumber => DbErr unscripted
  | InsertOrder _ => DbErr unscripted
  | InsertOrderItems _ => Some unscripted
  | UpdateOrder _ _ => DbErr unscripted
  | Console _ _ _ => tt
  end.

Definition reply_of (c : Call) (e : Event) : option (Reply c) :=
  match c as c0 return option (Reply c0) with
  | CreateServerClient => match e with EvCreateServerClient r => Some r | _ => None end
  | ConstructEvent _ _ _ => match e with EvConstructEvent _ _ _ r => Some r | _ => None end
  | JsonParse _ => match e with EvJsonParse _ r => Some r | _ => None end
  | RetrieveSession _ => match e with EvRetrieveSession _ r => Some r | _ => None end
  | ListLineItems _ => match e with EvListLineItems _ r => Some r | _ => None end
  | SelectOrderBySession _ _ _ =>
      match e with EvSelectOrderBySession _ _ _ r => Some r | _ => None end
  | SelectOrderById _ _ => match e with EvSelectOrderById _ _ r => Some r | _ => None end
  | SelectLastOrderNumber => match e with EvSelectLastOrderNumber r => Some r | _ => None end
  | InsertOrder _ => match e with EvInsertOrder _ r => Some r | _ => None end
  | InsertOrderItems _ => match e with EvInsertOrderItems _ r => Some r | _ => None end
  | UpdateOrder _ _ => match e with EvUpdateOrder _ _ r => Some r | _ => None end
  | Console _ _ _ => Some tt
  end.

Definition is_console (c : Call) : bool :=
  match c with Console _ _ _ => true | _ => false end.

Definition next (script : list Event) (c : Call) : Reply c * list Event :=
  if is_console c then (failing c, script)
  else
    match script with
    | [] => (failing c, [])
    | e :: rest =>
        match reply_of c e with
        | Some r => (r, rest)
        | None => (failing c, rest)
        end
    end.

Definition collab : Collab (list Event) := mkCollab _ next.

End Replay.

(** An [orders] table and an [order_items] table in memory, behind the
    store calls; the other calls are replayed from a script. *)
Module Store.

Record Tables : Type := mkTables {
  orders : list Row;
  order_items : list Payload;
  next_id : Z;
  numbered : bool          (* the order_number column exists *)
}.

Definition State : Type := (Tables * list Event)%type.

Definition no_single_row : DbError :=
  mkDbError "JSON object requested, multiple (or no) rows returned" "PGRST116".
Definition no_number_column : DbError :=
  mkDbError "column orders.order_number does not exist" "42703".
Definition duplicate_session : DbError :=
  mkDbError "duplicate key value violates unique constraint" "23505".

Definition has_session (sid : string) (r : Row) : bool :=
  match field "stripe_session_id" (row_cols r) with
  | Some (JStr s) => String.eqb s sid
  | _ => false
  end.

Definition has_id (id : string) (r : Row) : bool := String.eqb (row_id r) id.

Definition order_number_of (r : Row) : option Z :=
  match field "order_number" (row_cols r) with
  | Some (JInt n) => Some n
  | _ => None
  end.

Definition status_of (r : Row) : option JVal := field "status" (row_cols r).

Definition belongs_to (id : string) (item : Payload) : bool :=
  match field "order_id" item with
  | Some (JStr s) => String.eqb s id
  | _ => false
  end.

(** The row as a select returns it. *)
Definition project (t : Tables) (cols : Columns) (r : Row) : Row :=
  match cols with
  | AllWithItems => mkRow (row_id r) (row_cols r) (filter (belongs_to (row_id r)) (order_items t))
  | _ => mkRow (row_id r) (row_cols r) []
  end.

(** [.single()] and [.maybeSingle()]. *)
Definition pick (card : Cardinality) (rows : list Row) : DbResult (option Row) :=
  match rows, card with
  | [r], _ => DbOk (Some r)
  | [], MaybeSingle => DbOk None
  | _, _ => DbErr no_single_row
  end.

Definition select (t : Tables) (cols : Columns) (card : Cardinality)
  (p : Row -> bool) : DbResult (option Row) :=
  match cols with
  | IdAndOrderNumber =>
      if numbered t then pick card (map (project t cols) (filter p (orders t)))
      else DbErr no_number_column
  | _ => pick card (map (project t cols) (filter p (orders t)))
  end.

(** The first row by [order_number] descending; a row without a number
    sorts before the numbered ones. *)
Fixpoint last_number (rows : list Row) : option (option Z) :=
  match rows with
  | [] => None
  | r :: rest =>
      match order_number_of r, last_number rest with
      | None, _ => Some None
      | Some n, None => Some (Some n)
      | Some n, Some None => Some None
      | Some n, Some (Some m) => Some (Some (Z.max n m))
      end
  end.

Fixpoint set_field (k : string) (v : JVal) (p : Payload) : Payload :=
  match p with
  | [] => [(k, v)]
  | (k', v') :: r => if String.eqb k k' then (k, v) :: r else (k', v') :: set_field k v r
  end.

Definition assign (changes : Payload) (r : Row) : Row :=
  mkRow (row_id r)
    (fold_left (fun cols kv => set_field (fst kv) (snd kv) cols) changes (row_cols r))
    (row_items r).

Definition new_id (t : Tables) : string :=
  "order-" ++ DecimalString.NilZero.string_of_int (Z.to_int (next_id t)).

Definition insert_order (t : Tables) (p : Payload) : DbResult Row * Tables :=
  match field "order_number" p, numbered t with
  | Some _, false => (DbErr no_number_column, t)
  | _, _ =>
      match field "stripe_session_id" p with
      | Some (JStr sid) =>
          if existsb (has_session sid) (orders t) then (DbErr duplicate_session, t)
          else
            let r := mkRow (new_id t) (("id", JStr (new_id t)) :: p) [] in
            (DbOk r, mkTables (orders t ++ [r]) (order_items t) (next_id t + 1) (numbered t))
      | _ =>
          let r := mkRow (new_id t) (("id", JStr (new_id t)) :: p) [] in
          (DbOk r, mkTables (orders t ++ [r]) (order_items t) (next_id t + 1) (numbered t))
      end
  end.

Definition update_order (t : Tables) (id : string) (changes : Payload)
  : DbResult Row * Tables :=
  match filter (has_id id) (orders t) with
  | [r] =>
      (DbOk (assign changes r),
       mkTables (map (fun o => if has_id id o then assign changes o else o) (orders t))
         (order_items t) (next_id t) (numbered t))
  | _ => (DbErr no_single_row, t)
  end.

Definition next (s : State) (c : Call) : Reply c * State :=
  let (t, script) := s in
  match c as c0 return Reply c0 * State with
  | SelectOrderBySession cols sid card => (select t cols card (has_session sid), s)
  | SelectOrderById cols id => (select t cols Single (has_id id), s)
  | SelectLastOrderNumber =>
      if numbered t then (DbOk (last_number (orders t)), s)
      else (DbErr no_number_column, s)
  | InsertOrder p => let (r, t') := insert_order t p in (r, (t', script))
  | InsertOrderItems ps =>
      (None, (mkTables (orders t) (order_items t ++ ps) (next_id t) (numbered t), script))
  | UpdateOrder id p => let (r, t') := update_order t id p in (r, (t', script))
  | CreateServerClient => (Returned tt, s)
  | c' => let (r, script') := Replay.next script c' in (r, (t, script'))
  end.

Definition collab : Collab State := mkCollab _ next.

End Store.

(* ================================================================= *)
(** ** Sample sessions, rows and requests *)

Module Sample.

Definition cfg : Config := mkConfig "sk_test_1" "whsec_1".

Definition session_with (state : string) (fields : list (string * string)) : Session :=
  mkSession "sess_123" state (Some fields) None (Some 2150).

(** The session of the scenario of the specification. *)
Definition paid : Session :=
  session_with "paid"
    [("customer_name", "Jo Lee"); ("customer_phone", "555-111-2222"); ("tax", "1.50")].

Definition unpaid : Session :=
  session_with "unpaid"
    [("customer_name", "Jo Lee"); ("customer_phone", "555-111-2222"); ("tax", "1.50")].

Definition negative_tax : Session :=
  session_with "paid"
    [("customer_name", "Jo Lee"); ("customer_phone", "555-111-2222"); ("tax", "-1.50")].

Definition short_phone : Session :=
  session_with "paid"
    [("customer_name", "Jo Lee"); ("customer_phone", "555-1212"); ("tax", "1.50")].

Definition kabob : LineItem := mkLineItem "li_1" (Some "Kabob") (Some 2000) (Some 1).
Definition sales_tax : LineItem := mkLineItem "li_2" (Some "Sales Tax") (Some 150) (Some 1).

(** An order already stored for the session, with the status given. *)
Definition stored (st : string) (number : Z) : Row :=
  mkRow "order-1"
    [ ("id", JStr "order-1"); ("customer_name", JStr "Jo Lee");
      ("customer_phone", JStr "5551112222"); ("status", JStr st);
      ("stripe_session_id", JStr "sess_123"); ("order_number", JInt number) ]
    [].

(** An older order of another session. *)
Definition earlier (number : Z) : Row :=
  mkRow "order-0"
    [ ("id", JStr "order-0"); ("customer_name", JStr "Al Poe");
      ("customer_phone", JStr "5550001111"); ("status", JStr "completed");
      ("stripe_session_id", JStr "sess_000"); ("order_number", JInt number) ]
    [].

Definition empty_tables (numbered : bool) : Store.Tables := Store.mkTables [] [] 1 numbered.

Definition tables_with (rows : list Row) : Store.Tables := Store.mkTables rows [] 2 true.

(** The provider delivers a verified [checkout.session.completed]. *)
Definition delivered (s : Session) : Event :=
  EvConstructEvent "" "" "" (Returned (mkStripeEvent "checkout.session.completed" s)).

Definition retrieved (s : Session) : Event := EvRetrieveSession "" (Returned s).

Definition listed (items : list LineItem) : Event := EvListLineItems "" (Returned items).

Definition ensure_request : EnsureRoute.Request := EnsureRoute.mkRequest (Some "sess_123").

Definition webhook_request : WebhookRoute.Request :=
  WebhookRoute.mkRequest "{}" (Some "t=1,v1=abc").

Definition no_row : DbError := Store.no_single_row.
Definition duplicate : DbError := Store.duplicate_session.
Definition timeout : DbError := mkDbError "upstream request timeout" "57014".
Definition stale_cache : DbError :=
  mkDbError "Could not find the 'comments' column of 'orders' in the schema cache" "PGRST204".


(** A missing column, reported in capitals. *)
Definition shouted : DbError :=
  mkDbError "COLUMN orders.comments DOES NOT EXIST" "42703".

End Sample.

(* ================================================================= *)
(** ** src/lib/supabase.ts *)

Module Supabase.

(** The environment variables [createServerClient] reads. *)
Record Env : Type := mkEnv {
  SUPABASE_SERVICE_ROLE_KEY : option string;
  SUPABASE_URL : option string;
  NEXT_PUBLIC_SUPABASE_URL : option string
}.

(** [process.env.SUPABASE_URL || process.env.NEXT_PUBLIC_SUPABASE_URL] *)
Definition supabaseUrl (env : Env) : option string :=
  if present (SUPABASE_URL env) then SUPABASE_URL env else NEXT_PUBLIC_SUPABASE_URL env.

(** [createServerClient], lines 4-25: the client is not modelled, only
    whether it is made. *)
Definition createServerClient (env : Env) : Thrown unit :=
  if negb (present (supabaseUrl env)) then
    Threw "Missing Supabase URL. Set SUPABASE_URL (recommended) or NEXT_PUBLIC_SUPABASE_URL."
  else if negb (present (SUPABASE_SERVICE_ROLE_KEY env)) then
    Threw ("SUPABASE_SERVICE_ROLE_KEY is required for server-side operations. "
           ++ "Please add it to your environment variables.")
  else Returned tt.

End Supabase.

(* ================================================================= *)
(** ** src/unnamed/part_002: the admin password check *)

Module AdminRoute.

(** The reply [{ ok }] with its HTTP status. *)
Record Verdict : Type := mkVerdict {
  ok : bool;
  http : Z
}.

(** [getAdminPassword], lines 7-14, on the value of [ADMIN_PASSWORD]. *)
Definition getAdminPassword (ADMIN_PASSWORD : option string) : Thrown string :=
  match ADMIN_PASSWORD with
  | Some pw =>
      if Js.truthy pw then Returned pw
      else Threw "Missing ADMIN_PASSWORD environment variable"
  | None => Threw "Missing ADMIN_PASSWORD environment variable"
  end.

(** [crypto.timingSafeEqual] on two buffers of one length. *)
Fixpoint timingSafeEqual (a b : string) : bool :=
  match a, b with
  | EmptyString, EmptyString => true
  | String x a', String y b' => Ascii.eqb x y && timingSafeEqual a' b'
  | _, _ => false
  end.

(** [safeEqual], lines 16-21. *)
Definition safeEqual (a b : string) : bool :=
  if negb (Nat.eqb (String.length a) (String.length b)) then false
  else timingSafeEqual a b.

(** [POST], lines 23-37; [password] is [body?.password] when it is a
    string. *)
Definition POST (ADMIN_PASSWORD : option string) (password : option string) : Verdict :=
  let password := match password with Some p => p | None => "" end in
  match getAdminPassword ADMIN_PASSWORD with
  | Threw _ => mkVerdict false 400
  | Returned expected =>
      if negb (Js.truthy password) || negb (safeEqual password expected)
      then mkVerdict false 401
      else mkVerdict true 200
  end.

End AdminRoute.

(* ================================================================= *)
(** ** src/unnamed/part_000: the order of a session *)

Module SessionRoute.

Inductive Answer : Type :=
| Found (order : option Row)              (* { order: order || null } *)
| Failed (error : string) (status : Z).

(** The [catch] of the handler. *)
Definition caught (msg : string) : Prog Answer :=
  do Console LogError "Error fetching order by session:" msg in
  Ret (Failed (Js.or_else msg "Failed to fetch order by session") 500).

(** [GET]; [sessionId] is [searchParams.get('sessionId')]. *)
Definition GET (sessionId : option string) : Prog Answer :=
  if negb (present sessionId) then Ret (Failed "sessionId is required" 400)
  else
    let sid := match sessionId with Some s => s | None => "" end in
    let* supabase := CreateServerClient in
    match supabase with
    | Threw msg => caught msg
    | Returned _ =>
        let* reply := SelectOrderBySession AllWithItems sid MaybeSingle in
        match reply with
        | DbErr e => caught (message e)
        | DbOk order => Ret (Found order)
        end
    end.

End SessionRoute.

(* ================================================================= *)
(** ** src/app/api/orders/lookup/route.ts *)

Module LookupRoute.

(** The three selects of the route; each asks for the orders with their
    items, newest first. *)
Inductive Query : Type :=
| ById (orderId : string)            (* .eq('id', orderId) *)
| ByPhone (digits : string)          (* .eq('customer_phone', digits) *)
| ByPhoneLike (digits : string).     (* .ilike('customer_phone', `%${digits}%`) *)

(** [searchParams.get('phone')] and [searchParams.get('orderId')]. *)
Record Request : Type := mkRequest {
  phone : option string;
  orderId : option string
}.

Inductive Answer : Type :=
| Orders (orders : list Row)
| Failed (error : string) (status : Z).

(** What the route runs against: the creation of the client, the
    store's reply to each select, and the test
    [new Date(order.created_at) >= thirtyDaysAgo] on a row. *)
Record World : Type := mkWorld {
  createServerClient : Thrown unit;
  reply : Query -> DbResult (list Row);
  recent : Row -> bool
}.

(** The [catch] of lines 83-89. *)
Definition caught (msg : string) : Answer :=
  Failed (Js.or_else msg "Failed to lookup orders") 500.

(** Lines 59-81: the reply once the selects are done. *)
Definition finish (w : World) (by_phone : bool) (result : DbResult (list Row)) : Answer :=
  match result with
  | DbErr e => caught (message e)
  | DbOk orders => if by_phone then Orders (filter (recent w) orders) else Orders orders
  end.

(** [GET], lines 7-90: the selects made, in order, and the reply. *)
Definition GET (w : World) (request : Request) : list Query * Answer :=
  let value (v : option string) := match v with Some s => s | None => "" end in
  if negb (present (phone request)) && negb (present (orderId request)) then
    ([], Failed "Phone number or Order ID is required" 400)
  else
    match createServerClient w with
    | Threw msg => ([], caught msg)
    | Returned _ =>
        if present (orderId request) then
          let query := ById (value (orderId request)) in
          ([query], finish w false (reply w query))
        else
          let normalizedPhone := Js.replace_non_digits (value (phone request)) in
          match reply w (ByPhone normalizedPhone) with
          | DbOk [] =>
              ([ByPhone normalizedPhone; ByPhoneLike normalizedPhone],
               finish w true (reply w (ByPhoneLike normalizedPhone)))
          | first => ([ByPhone normalizedPhone], finish w true first)
          end
    end.

(** The selects answered from the tables of [Store]; the rows come in
    the order of the table. *)
Definition phone_of (r : Row) : option string :=
  match field "customer_phone" (row_cols r) with
  | Some (JStr s) => Some s
  | _ => None
  end.

Definition matches (q : Query) (r : Row) : bool :=
  match q with
  | ById id => Store.has_id id r
  | ByPhone digits =>
      match phone_of r with Some s => String.eqb s digits | None => false end
  | ByPhoneLike digits =>
      match phone_of r with
      | Some s => Js.includes (Js.toLowerCase digits) (Js.toLowerCase s)
      | None => false
      end
  end.

Definition in_memory (t : Store.Tables) (q : Query) : DbResult (list Row) :=
  DbOk (map (Store.project t AllWithItems) (filter (matches q) (Store.orders t))).

End LookupRoute.

(* ================================================================= *)
(** ** Runs on the in-memory store *)

Module Scenario.

(** An empty store; the provider has the paid session and its lines. *)
Definition fresh : Store.State :=
  (Sample.empty_tables true,
   [Sample.retrieved Sample.paid; Sample.listed [Sample.kabob; Sample.sales_tax]]).

(** An empty store; the provider delivers the event of the paid session
    and lists its lines. *)
Definition delivery : Store.State :=
  (Sample.empty_tables true,
   [Sample.delivered Sample.paid; Sample.listed [Sample.kabob; Sample.sales_tax]]).

(** The store holds the order of the session and an older one. *)
Definition settled : Store.Tables :=
  Sample.tables_with [Sample.earlier 999; Sample.stored "pending" 1000].


(** The world of the lookup route over the tables, every order being
    recent. *)
Definition lookup_world (t : Store.Tables) : LookupRoute.World :=
  LookupRoute.mkWorld (Returned tt) (LookupRoute.in_memory t) (fun _ => true).

End Scenario.

(* ================================================================= *)
(** ** More of what a run shows *)

(** The calls to the store. *)
Definition is_store_call (e : Event) : bool :=
  match e with
  | EvSelectOrderBySession _ _ _ _ | EvSelectOrderById _ _ _
  | EvSelectLastOrderNumber _ | EvInsertOrder _ _ | EvInsertOrderItems _ _
  | EvUpdateOrder _ _ _ => true
  | _ => false
  end.

(** The calls to the provider for a session. *)
Definition is_provider_call (e : Event) : bool :=
  match e with
  | EvRetrieveSession _ _ | EvListLineItems _ _ => true
  | _ => false
  end.

Definition all_digits (s : string) : bool :=
  forallb Js.is_digit (list_ascii_of_string s).

(** The rows handed to the inserts of items, in order. *)
Fixpoint item_rows_inserted (tr : list Event) : list Payload :=
  match tr with
  | [] => []
  | EvInsertOrderItems rows _ :: rest => (rows ++ item_rows_inserted rest)%list
  | _ :: rest => item_rows_inserted rest
  end.

(** The orders the store confirmed as inserted, in order. *)
Fixpoint inserted_orders (tr : list Event) : list Row :=
  match tr with
  | [] => []
  | EvInsertOrder _ (DbOk order) :: rest => order :: inserted_orders rest
  | _ :: rest => inserted_orders rest
  end.

(** The outcomes of creating the store's client, in order. *)
Fixpoint clients (tr : list Event) : list (Thrown unit) :=
  match tr with
  | [] => []
  | EvCreateServerClient r :: rest => r :: clients rest
  | _ :: rest => clients rest
  end.

(** The [created] flag of an ensure reply, when it has one. *)
Definition created_flag (r : Response) : option bool :=
  match body r with
  | BEnsured _ created _ => Some created
  | _ => None
  end.

(* ================================================================= *)
(** ** The words of the specification *)

(** What the specification means by its words, written without the
    functions of the code, to compare them with. *)
Module Spec.

(** A capital letter, A to Z. *)
Definition capital (c : ascii) : bool :=
  ((65 <=? N_of_ascii c) && (N_of_ascii c <=? 90))%N.

(** The same letter in either case, or the same character. *)
Definition same_letter (c d : ascii) : Prop :=
  c = d
  \/ (capital c = true /\ N_of_ascii d = (N_of_ascii c + 32)%N)
  \/ (capital d = true /\ N_of_ascii c = (N_of_ascii d + 32)%N).

(** Two texts of one length whose characters are the same letters. *)
Fixpoint same_letters (a b : string) : Prop :=
  match a, b with
  | EmptyString, EmptyString => True
  | String c a', String d b' => same_letter c d /\ same_letters a' b'
  | _, _ => False
  end.

(** [msg] contains [phrase], letter case apart. *)
Definition contains_ignoring_case (phrase msg : string) : Prop :=
  exists before found after,
    msg = before ++ found ++ after /\ same_letters found phrase.

(** The heuristic for an unknown column, in the words of the
    specification. *)
Definition unknown_column (msg : string) : Prop :=
  (contains_ignoring_case "column" msg /\ contains_ignoring_case "does not exist" msg)
  \/ contains_ignoring_case "could not find" msg
  \/ contains_ignoring_case "schema cache" msg.

(** A phrase without capitals. *)
Fixpoint no_capital (s : string) : bool :=
  match s with
  | EmptyString => true
  | String c r => negb (capital c) && no_capital r
  end.

Section Rounding.

Import QArith.

(** The exact value [m * 2 ^ e] of a finite number. *)
Definition value (m : positive) (e : Z) : Q :=
  if (0 <=? e)%Z then inject_Z (Zpos m * 2 ^ e) else Zpos m # Z.to_pos (2 ^ (- e)).



End Rounding.

End Spec.

(* ================================================================= *)
(** ** What a run shows *)

(** The look-ups of an order by session, in order, with their replies. *)
Fixpoint lookups (tr : list Event) : list (DbResult (option Row)) :=
  match tr with
  | [] => []
  | EvSelectOrderBySession _ _ _ r :: rest => r :: lookups rest
  | _ :: rest => lookups rest
  end.

Definition writes (tr : list Event) : list Event := filter is_write tr.

(** No order number is allocated and nothing is inserted. *)
Definition nothing_created (tr : list Event) : bool :=
  forallb (fun e => negb (is_number_read e || is_order_insert e || is_items_insert e)) tr.

(** The events that follow the last order insert of a run. *)
Fixpoint after_last_insert (tr : list Event) : list Event :=
  match tr with
  | [] => []
  | e :: rest =>
      if existsb is_order_insert rest then after_last_insert rest
      else if is_order_insert e then rest else []
  end.

(** The events that follow the insert of the items. *)
Fixpoint after_items_insert (tr : list Event) : list Event :=
  match tr with
  | [] => []
  | e :: rest => if is_items_insert e then rest else after_items_insert rest
  end.

(** The reply to the last order insert of a run. *)
Definition last_insert (tr : list Event) : option (Payload * DbResult Row) :=
  last (map Some (order_inserts tr)) None.

(** Every field of [a] is a field of [b], and [b] has a column that [a]
    does not have. *)
Definition strict_subset (a b : Payload) : Prop :=
  incl a b /\ exists k, In k (keys b) /\ ~ In k (keys a).

(** [needle] occurs in [msg] whatever the case of the letters. *)
Definition mentions (needle msg : string) : bool :=
  Js.includes needle (Js.toLowerCase msg).

(** The shape of the order inserts of one run: none; or the full set
    alone, when it went through or failed with an error that is not a
    missing column; or the full set failing on a missing column and
    then the minimal set, once. *)
Definition insert_discipline (full minimal : Payload)
  (ins : list (Payload * DbResult Row)) : Prop :=
  match ins with
  | [] => True
  | [(p, DbOk _)] => p = full
  | [(p, DbErr e)] => p = full /\ isMissingColumnError (message e) = false
  | [(p, DbErr e); (q, _)] =>
      p = full /\ q = minimal /\ isMissingColumnError (message e) = true
  | _ => False
  end.

(** The replies to the verification of the webhook's signature. *)
Fixpoint verified (tr : list Event) : list (Thrown StripeEvent) :=
  match tr with
  | [] => []
  | EvConstructEvent _ _ _ r :: rest => r :: verified rest
  | _ :: rest => verified rest
  end.

(** The replies to the retrieval of the session. *)
Fixpoint retrieved (tr : list Event) : list (Thrown Session) :=
  match tr with
  | [] => []
  | EvRetrieveSession _ r :: rest => r :: retrieved rest
  | _ :: rest => retrieved rest
  end.

(** The replies to the reads of the last order number. *)
Fixpoint number_reads (tr : list Event) : list (DbResult (option (option Z))) :=
  match tr with
  | [] => []
  | EvSelectLastOrderNumber r :: rest => r :: number_reads rest
  | _ :: rest => number_reads rest
  end.

(** How the webhook comes to its insert: [orderNumberColumnMissing] and
    [nextOrderNumber] as the reads before it set them. *)
Definition allocation (pre : list Event) (orderNumberColumnMissing : bool)
  (nextOrderNumber : option Z) : Prop :=
  match number_reads pre with
  | [] => orderNumberColumnMissing = true /\ nextOrderNumber = None
  | [DbOk data] =>
      orderNumberColumnMissing = false
      /\ nextOrderNumber = Some (next_order_number data)
  | [DbErr e] =>
      orderNumberColumnMissing = isMissingColumnError (message e)
      /\ nextOrderNumber = None
  | _ => False
  end.

(** [typeof body?.sessionId === 'string' ? body.sessionId : ''] *)
Definition sessionId_of (req : EnsureRoute.Request) : string :=
  match EnsureRoute.sessionId req with Some sid => sid | None => "" end.

(** The webhook's reply when the order is there already. *)
Definition acknowledged : Response :=
  json (BReceived (Some "Order already processed")) 200.

(** The ensure route's reply when the order is there already. *)
Definition found (o : Row) : Response := json (BEnsured (Some o) false None) 200.

(** What the ensure route does once the re-query after a failed insert
    has replied: the events that follow and the reply. *)
Definition after_requery (e : DbError) (retry : DbResult (option Row))
  : list Event * Response :=
  match retry with
  | DbOk (Some o) => ([], found o)
  | _ => ([EvConsole LogError "Error ensuring order:" (message e)],
          json (BError (Js.or_else (message e) "Failed to ensure order")) 500)
  end.

(** The ensure route's reply once the new order has been read again. *)
Definition after_reread (subtotal : float) (order : Row)
  (complete : DbResult (option Row)) : Response :=
  match complete with
  | DbErr _ => json (BEnsured (Some order) true None) 200
  | DbOk data => json (BEnsured data true (Some subtotal)) 200
  end.

(** The number the webhook's insert carries: the allocated one, unless
    it is 0. *)
Definition webhook_number (missing : bool) (next : option Z) : option JVal :=
  match next with
  | Some n => if missing || (n =? 0) then None else Some (JInt n)
  | None => None
  end.

(** The stages of the handlers are opened one at a time. *)
Opaque EnsureRoute.POST EnsureRoute.allocate_number EnsureRoute.insert_order EnsureRoute.after_insert EnsureRoute.insert_items EnsureRoute.reread EnsureRoute.caught
  WebhookRoute.POST WebhookRoute.completed WebhookRoute.load_items WebhookRoute.rebuild_items WebhookRoute.check_existing WebhookRoute.skip_existing WebhookRoute.allocate_number
  WebhookRoute.insert_order WebhookRoute.after_insert WebhookRoute.insert_items WebhookRoute.caught StatusRoute.PATCH StatusRoute.update StatusRoute.caught.

Arguments isMissingColumnError : simpl never.
Arguments not_paid : simpl never.
Arguments next_order_number : simpl never.
Arguments EnsureRoute.draft : simpl never.
Arguments EnsureRoute.fullInsertPayload : simpl never.
Arguments EnsureRoute.minimalInsertPayload : simpl never.
Arguments EnsureRoute.orderItemsData : simpl never.
Arguments EnsureRoute.orderNumberPayload : simpl never.
Arguments WebhookRoute.draft : simpl never.
Arguments WebhookRoute.fullInsertPayload : simpl never.
Arguments WebhookRoute.minimalInsertPayload : simpl never.
Arguments WebhookRoute.with_number : simpl never.
Arguments WebhookRoute.orderItemsData : simpl never.
Arguments WebhookRoute.cart_of_line_items : simpl never.
Arguments Js.or_else : simpl never.
Arguments Js.truthy : simpl never.
Arguments String.eqb : simpl never.

(* ================================================================= *)
(** ** Running a handler step by step *)

(** One call of the handler: its reply is named and the handler goes
    on with it. *)
Ltac call_step :=
  match goal with
  | |- context [answer ?W ?s ?c] =>
      let x := fresh "reply" in
      let s' := fresh "s" in
      destruct (answer W s c) as [x s']; simpl in x; simpl
  end.

(** A branch of the handler on a reply or on a test. *)
Ltac branch_on x := destruct x eqn:?; simpl.

Ltac branch_step :=
  match goal with
  | |- context [trace_of _ _ (match ?x with _ => _ end)] => branch_on x
  | |- context [result_of _ _ (match ?x with _ => _ end)] => branch_on x
  | |- context [state_after _ _ (match ?x with _ => _ end)] => branch_on x
  | |- context [trace_of _ _ (if ?b then _ else _)] => branch_on b
  | |- context [result_of _ _ (if ?b then _ else _)] => branch_on b
  | |- context [state_after _ _ (if ?b then _ else _)] => branch_on b
  end.

Ltac walk := repeat (first [call_step | branch_step]).

(** Opens a stage of a handler. *)
Tactic Notation "open" constr(stage) :=
  with_strategy transparent [stage] (unfold stage); simpl.

(** The events of a trace that are written out, up to the run of the
    stage it ends with. *)
Ltac written_prefix l :=
  lazymatch l with
  | ?e :: ?r => let p := written_prefix r in constr:(e :: p)
  | _ => constr:(@nil Event)
  end.

(** Cases on the membership of an event in a written-out trace. *)
Ltac pick_event H :=
  simpl in H;
  repeat (destruct H as [H | H]; try discriminate H); try contradiction.

(* ================================================================= *)
(** ** The embedding at work *)

Example parseFloat_decimal :
  Num.parseFloat "1.50" = 1.5%float /\ Num.parseFloat " -5 dollars" = (-5)%float.
Proof. vm_compute. split; reflexivity. Qed.

Example parseFloat_not_a_number :
  Num.isFinite (Num.parseFloat "abc") = false
  /\ Num.isFinite (Num.parseFloat "Infinity") = false
  /\ Num.isFinite (Num.parseFloat "1e400") = false.
Proof. vm_compute. repeat split; reflexivity. Qed.

(** [(1.005).toFixed(2)] is "1.00", the double nearest to 1.005 being
    below it; [(0.125).toFixed(2)] is "0.13", a tie going up. *)
Example toFixed2_rounds_the_double :
  Num.toFixed2_Number (Num.parseFloat "1.005") = 1%float
  /\ Num.toFixed2_Number 0.125%float = Num.parseFloat "0.13"
  /\ Num.toFixed2_Number (Num.parseFloat "0.3" - Num.parseFloat "0.1")%float
     = Num.parseFloat "0.2".
Proof. vm_compute. repeat split; reflexivity. Qed.

Example isMissingColumnError_samples :
  isMissingColumnError "column orders.order_number does not exist" = true
  /\ isMissingColumnError "Could not find the 'comments' column of 'orders' in the schema cache" = true
  /\ isMissingColumnError "duplicate key value violates unique constraint" = false
  /\ isMissingColumnError "" = false.
Proof. vm_compute. repeat split; reflexivity. Qed.

(** The scenario of the specification: session [sess_123], paid, with
    [amount_total = 2150] and a tax of "1.50". *)
Example scenario_ensure_creates_the_order :
  let world :=
    (Sample.empty_tables true,
     [Sample.retrieved Sample.paid; Sample.listed [Sample.kabob; Sample.sales_tax]]) in
  let p := EnsureRoute.POST Sample.cfg Sample.ensure_request in
  map (fun ins => (field "customer_name" (fst ins), field "customer_phone" (fst ins),
                   field "total_amount" (fst ins), field "tax_amount" (fst ins),
                   field "order_number" (fst ins)))
      (order_inserts (trace_of Store.collab world p))
  = [(Some (JStr "Jo Lee"), Some (JStr "5551112222"), Some (JNum 21.5),
      Some (JNum 1.5), Some (JInt 1000))]
  /\ body (result_of Store.collab world p)
     = BEnsured (option_map (Store.project (fst (state_after Store.collab world p)) AllWithItems)
                   (hd_error (Store.orders (fst (state_after Store.collab world p)))))
         true (Some 20%float)
  /\ List.length (Store.order_items (fst (state_after Store.collab world p))) = 1%nat.
Proof. vm_compute. repeat split; reflexivity. Qed.

(** The webhook first and the ensure route after it, for one session:
    one order in the store, and the ensure route hands it back with
    [created = false]. *)
Example scenario_webhook_then_ensure :
  let world :=
    (Sample.empty_tables true, [Sample.delivered Sample.paid; Sample.listed [Sample.kabob]]) in
  let after_webhook :=
    state_after Store.collab world (WebhookRoute.POST Sample.cfg Sample.webhook_request) in
  let p := EnsureRoute.POST Sample.cfg Sample.ensure_request in
  List.length (Store.orders (fst (state_after Store.collab after_webhook p))) = 1%nat
  /\ exists o, result_of Store.collab after_webhook p = found o
              /\ row_id o = "order-1"
              /\ List.length (row_items o) = 1%nat.
Proof. vm_compute. split; [reflexivity|]. eexists. repeat split. Qed.

(* ================================================================= *)
(** ** Observations on traces put end to end *)

Lemma order_inserts_app (a b : list Event) :
  order_inserts (a ++ b) = (order_inserts a ++ order_inserts b)%list.
Proof.
  induction a as [|e a IH]; [reflexivity|].
  destruct e; simpl; rewrite IH; reflexivity.
Qed.

Lemma lookups_app (a b : list Event) :
  lookups (a ++ b) = (lookups a ++ lookups b)%list.
Proof.
  induction a as [|e a IH]; [reflexivity|].
  destruct e; simpl; rewrite IH; reflexivity.
Qed.

Lemma number_reads_app (a b : list Event) :
  number_reads (a ++ b) = (number_reads a ++ number_reads b)%list.
Proof.
  induction a as [|e a IH]; [reflexivity|].
  destruct e; simpl; rewrite IH; reflexivity.
Qed.

Lemma writes_app (a b : list Event) :
  writes (a ++ b) = (writes a ++ writes b)%list.
Proof. apply filter_app. Qed.

Lemma nothing_created_app (a b : list Event) :
  nothing_created (a ++ b) = nothing_created a && nothing_created b.
Proof. apply forallb_app. Qed.

Lemma lookup_in cols sid card r (tr : list Event) :
  In (EvSelectOrderBySession cols sid card r) tr -> In r (lookups tr).
Proof.
  induction tr as [|e tr IH]; simpl; [tauto|].
  intros [-> | H]; [left; reflexivity|].
  destruct e; simpl; auto.
Qed.

Lemma number_read_in r (tr : list Event) :
  In (EvSelectLastOrderNumber r) tr <-> In r (number_reads tr).
Proof.
  induction tr as [|e tr IH]; simpl; [tauto|].
  split.
  - intros [-> | H]; [left; reflexivity|].
    destruct e; simpl; try right; apply IH; exact H.
  - destruct e; simpl; try (intro H; right; apply IH; exact H).
    intros [-> | H]; [left; reflexivity | right; apply IH; exact H].
Qed.

Lemma writes_order_inserts (tr : list Event) :
  writes tr = [] -> order_inserts tr = [].
Proof.
  induction tr as [|e tr IH]; [reflexivity|].
  destruct e; simpl; auto; discriminate.
Qed.

Lemma no_insert_after (tr : list Event) :
  existsb is_order_insert tr = false -> after_last_insert tr = [].
Proof.
  induction tr as [|e tr IH]; [reflexivity|].
  simpl. intros H. apply orb_false_iff in H as [He Hr].
  rewrite Hr, He. reflexivity.
Qed.

Lemma after_last_insert_skip (e : Event) (tr : list Event) :
  is_order_insert e = false -> after_last_insert (e :: tr) = after_last_insert tr.
Proof.
  intros He. simpl. rewrite He.
  destruct (existsb is_order_insert tr) eqn:Hr; [reflexivity|].
  symmetry. apply no_insert_after. exact Hr.
Qed.

Lemma after_last_insert_app (a b : list Event) :
  order_inserts a = [] -> after_last_insert (a ++ b) = after_last_insert b.
Proof.
  induction a as [|e a IH]; [reflexivity|].
  intros H. change ((e :: a) ++ b)%list with (e :: (a ++ b))%list.
  destruct e; simpl in H; try discriminate H;
    (rewrite after_last_insert_skip by reflexivity; apply IH; exact H).
Qed.

Lemma after_items_insert_app (a b : list Event) :
  filter is_items_insert a = [] -> after_items_insert (a ++ b) = after_items_insert b.
Proof.
  induction a as [|e a IH]; [reflexivity|].
  destruct e; simpl; auto; discriminate.
Qed.

Lemma last_insert_app (a b : list Event) :
  order_inserts a = [] -> last_insert (a ++ b) = last_insert b.
Proof.
  unfold last_insert. intros H. rewrite order_inserts_app, H. reflexivity.
Qed.

(* ================================================================= *)
(** ** Numbers and texts, exactly *)

Lemma verified_app (a b : list Event) :
  verified (a ++ b) = (verified a ++ verified b)%list.
Proof.
  induction a as [|e a IH]; [reflexivity|].
  destruct e; simpl; rewrite IH; reflexivity.
Qed.

Lemma toLowerCase_app (a b : string) :
  Js.toLowerCase (a ++ b) = Js.toLowerCase a ++ Js.toLowerCase b.
Proof.
  induction a as [|c a IH]; [reflexivity|].
  simpl. rewrite IH. reflexivity.
Qed.

Lemma string_app_assoc (a b c : string) : (a ++ b) ++ c = a ++ b ++ c.
Proof. induction a as [|x a IH]; simpl; [reflexivity | rewrite IH; reflexivity]. Qed.

Lemma prefix_app (n s : string) : prefix n (n ++ s) = true.
Proof.
  induction n as [|c n IH]; simpl; [destruct s; reflexivity|].
  destruct (ascii_dec c c) as [_|Hne]; [exact IH | contradiction].
Qed.

Lemma includes_app (n a b : string) : Js.includes n (a ++ n ++ b) = true.
Proof.
  induction a as [|c a IH].
  - change ("" ++ n ++ b) with (n ++ b).
    assert (H := prefix_app n b).
    destruct (n ++ b); simpl in *; rewrite H; reflexivity.
  - simpl. rewrite IH. apply orb_true_r.
Qed.

Lemma digits2_log2 (m : positive) : Zpos (digits2_pos m) = Z.log2 (Zpos m) + 1.
Proof.
  assert (H : forall p, digits2_pos p = Pos.size p)
    by (induction p; simpl; congruence).
  rewrite H. destruct m; simpl; lia.
Qed.

Lemma iter_xO (q k : positive) : Zpos (Pos.iter xO q k) = Zpos q * 2 ^ Zpos k.
Proof.
  induction k as [|k IH] using Pos.peano_ind.
  - simpl. lia.
  - rewrite Pos.iter_succ, Pos2Z.inj_succ, Z.pow_succ_r by lia.
    rewrite Pos2Z.inj_xO, IH. lia.
Qed.

Lemma shl_align_spec (mx : positive) (ex ex' : Z) :
  ex' <= ex ->
  Zpos (fst (shl_align mx ex ex')) = Zpos mx * 2 ^ (ex - ex')
  /\ snd (shl_align mx ex ex') = ex'.
Proof.
  intros H. unfold shl_align.
  destruct (ex' - ex) as [|d|d] eqn:E; simpl.
  - replace (ex - ex') with 0 by lia. change (2 ^ 0) with 1. split; lia.
  - lia.
  - rewrite iter_xO. replace (ex - ex') with (Zpos d) by lia. split; reflexivity.
Qed.

Lemma iter_pos_nat {A : Type} (f : A -> A) (p : positive) (x : A) :
  iter_pos f p x = Nat.iter (Pos.to_nat p) f x.
Proof.
  assert (Hadd : forall a b y, Nat.iter (a + b) f y = Nat.iter a f (Nat.iter b f y)).
  { induction a as [|a IH]; intros b y; simpl; [reflexivity | rewrite IH; reflexivity]. }
  assert (Hcomm : forall a y, Nat.iter a f (f y) = f (Nat.iter a f y)).
  { induction a as [|a IH]; intros y; simpl; [reflexivity | rewrite IH; reflexivity]. }
  revert x. induction p as [p IH | p IH |]; intros x; cbn [iter_pos].
  - rewrite !IH, Pos2Nat.inj_xI.
    replace (Datatypes.S (2 * Pos.to_nat p)) with (Pos.to_nat p + Datatypes.S (Pos.to_nat p))%nat
      by lia.
    rewrite Hadd. simpl. rewrite Hcomm. reflexivity.
  - rewrite !IH, Pos2Nat.inj_xO.
    replace (2 * Pos.to_nat p)%nat with (Pos.to_nat p + Pos.to_nat p)%nat by lia.
    rewrite Hadd. reflexivity.
  - reflexivity.
Qed.

Lemma shr_exact (n : positive) (a : positive) :
  iter_pos shr_1 n (Build_shr_record (Zpos a * 2 ^ Zpos n) false false)
  = Build_shr_record (Zpos a) false false.
Proof.
  rewrite iter_pos_nat, <- (positive_nat_Z n).
  generalize (Pos.to_nat n). intros j. clear n. revert a.
  induction j as [|j IH]; intros a.
  - simpl. f_equal. lia.
  - replace (Zpos a * 2 ^ Z.of_nat (Datatypes.S j)) with (Zpos (xO a) * 2 ^ Z.of_nat j).
    + rewrite Nat.iter_succ, IH. reflexivity.
    + rewrite Nat2Z.inj_succ, Z.pow_succ_r by lia. lia.
Qed.

Lemma shr_fexp_exact (a m : positive) (n e : Z) :
  0 <= n -> Zpos m = Zpos a * 2 ^ n -> Z.log2 (Zpos a) = 52 ->
  -1074 <= e + n ->
  shr_fexp prec emax (Zpos m) e loc_Exact
  = (Build_shr_record (Zpos a) false false, e + n).
Proof.
  intros Hn Hm Ha He. unfold shr_fexp, Zdigits2.
  rewrite digits2_log2, Hm, Z.log2_mul_pow2 by lia.
  replace (fexp prec emax (n + Z.log2 (Zpos a) + 1 + e) - e) with n
    by (unfold fexp, SpecFloat.emin, prec, emax; lia).
  unfold shr, shr_record_of_loc.
  destruct n as [|k|k]; [| |lia].
  - change (2 ^ 0) with 1. rewrite Z.mul_1_r, Z.add_0_r. reflexivity.
  - rewrite shr_exact. reflexivity.
Qed.

Lemma binary_round_aux_exact (s : bool) (a m : positive) (n e : Z) :
  0 <= n -> Zpos m = Zpos a * 2 ^ n -> Z.log2 (Zpos a) = 52 ->
  -1074 <= e + n <= 971 ->
  binary_round_aux prec emax s (Zpos m) e loc_Exact = S754_finite s a (e + n).
Proof.
  intros Hn Hm Ha He. unfold binary_round_aux.
  rewrite (shr_fexp_exact a m n e) by lia. cbn [shr_m loc_of_shr_record round_nearest_even].
  rewrite (shr_fexp_exact a a 0 (e + n)) by (change (2 ^ 0) with 1; lia).
  cbn [shr_m]. rewrite Z.add_0_r.
  destruct (Z.leb_spec (e + n) (emax - prec)) as [_ | H]; [reflexivity|].
  unfold emax, prec in H. lia.
Qed.
Lemma int_mantissa_spec (q : positive) :
  Zpos q < 2 ^ 53 ->
  0 <= Z.log2 (Zpos q) <= 52
  /\ Zpos (Num.int_mantissa q) = Zpos q * 2 ^ (52 - Z.log2 (Zpos q))
  /\ Z.log2 (Zpos (Num.int_mantissa q)) = 52.
Proof.
  intros Hq.
  assert (HL : 0 <= Z.log2 (Zpos q) <= 52).
  { split; [apply Z.log2_nonneg|].
    assert (Z.log2 (Zpos q) < 53) by (apply Z.log2_lt_pow2; lia). lia. }
  assert (Hp : 0 < 2 ^ (52 - Z.log2 (Zpos q))) by (apply Z.pow_pos_nonneg; lia).
  assert (Hm : Zpos (Num.int_mantissa q) = Zpos q * 2 ^ (52 - Z.log2 (Zpos q))).
  { unfold Num.int_mantissa. apply Z2Pos.id. nia. }
  split; [exact HL|]. split; [exact Hm|].
  rewrite Hm, Z.log2_mul_pow2 by lia. lia.
Qed.

Lemma shl_align_ge (mx : positive) (ex ex' : Z) :
  ex <= ex' -> shl_align mx ex ex' = (mx, ex).
Proof.
  intros H. unfold shl_align. destruct (ex' - ex) eqn:E; try reflexivity. lia.
Qed.

Lemma binary_round_int (s : bool) (q mx : positive) (k : Z) :
  0 <= k -> Zpos mx = Zpos q * 2 ^ k -> Zpos q < 2 ^ 53 ->
  binary_round prec emax s mx (- k)
  = S754_finite s (Num.int_mantissa q) (Z.log2 (Zpos q) - 52).
Proof.
  intros Hk Hmx Hq.
  destruct (int_mantissa_spec q Hq) as (HL & Ha & Hlog).
  unfold binary_round.
  rewrite digits2_log2, Hmx, Z.log2_mul_pow2 by lia.
  replace (fexp prec emax (k + Z.log2 (Zpos q) + 1 + - k)) with (Z.log2 (Zpos q) - 52)
    by (unfold fexp, SpecFloat.emin, prec, emax; lia).
  destruct (Z.le_gt_cases (Z.log2 (Zpos q) - 52) (- k)) as [Hle | Hgt].
  - destruct (shl_align_spec mx (- k) (Z.log2 (Zpos q) - 52) Hle) as [Hf Hs].
    destruct (shl_align mx (- k) (Z.log2 (Zpos q) - 52)) as [mz ez].
    cbn [fst snd] in Hf, Hs. subst ez. cbv beta iota.
    rewrite (binary_round_aux_exact s (Num.int_mantissa q) mz 0 (Z.log2 (Zpos q) - 52));
      try lia.
    + rewrite Z.add_0_r. reflexivity.
    + change (2 ^ 0) with 1. rewrite Z.mul_1_r, Hf, Hmx, Ha, <- Z.mul_assoc, <- Z.pow_add_r by lia.
      f_equal. f_equal. lia.
  - rewrite shl_align_ge by lia. cbv beta iota.
    rewrite (binary_round_aux_exact s (Num.int_mantissa q) mx (k + Z.log2 (Zpos q) - 52) (- k));
      try lia.
    + f_equal. lia.
    + rewrite Hmx, Ha, <- Z.mul_assoc, <- Z.pow_add_r by lia. f_equal. f_equal. lia.
Qed.

Lemma int_double_valid (s : bool) (q : positive) :
  Zpos q < 2 ^ 53 ->
  valid_binary (S754_finite s (Num.int_mantissa q) (Z.log2 (Zpos q) - 52)) = true.
Proof.
  intros Hq. destruct (int_mantissa_spec q Hq) as (HL & _ & Hlog).
  unfold SpecFloat.valid_binary, bounded, canonical_mantissa.
  rewrite digits2_log2, Hlog.
  apply andb_true_iff. split.
  - apply Z.eqb_eq. unfold fexp, SpecFloat.emin, prec, emax. lia.
  - apply Z.leb_le. unfold prec, emax. lia.
Qed.

Lemma of_Z_exact (n : Z) :
  n <> 0 -> Z.abs n < 2 ^ 53 ->
  Prim2SF (Num.of_Z n)
  = S754_finite (n <? 0) (Num.int_mantissa (Z.to_pos (Z.abs n)))
      (Z.log2 (Z.abs n) - 52).
Proof.
  intros Hn Hb. unfold Num.of_Z, Num.of_decimal.
  destruct (Z.abs n) as [|p|p] eqn:E; [lia | | lia].
  change (0 <=? 0) with true. cbv iota.
  change (10 ^ 0) with 1. rewrite Z.mul_1_r.
  change (binary_normalize prec emax (Zpos p) 0 false)
    with (binary_round prec emax false p (- 0)).
  rewrite (binary_round_int false p p 0) by (change (2 ^ 0) with 1; lia).
  change (Z.to_pos (Zpos p)) with p.
  destruct (n <? 0); cbn [SFopp negb];
    apply Prim2SF_SF2Prim, int_double_valid; exact Hb.
Qed.

Lemma one_exact : Prim2SF 1%float = S754_finite false 4503599627370496 (-52).
Proof. reflexivity. Qed.

Lemma to_Z_int (s : bool) (q : positive) (x : float) :
  Zpos q < 2 ^ 53 ->
  Prim2SF x = S754_finite s (Num.int_mantissa q) (Z.log2 (Zpos q) - 52) ->
  Num.to_Z x = if s then - Zpos q else Zpos q.
Proof.
  intros Hq Hx. destruct (int_mantissa_spec q Hq) as (HL & Ha & _).
  unfold Num.to_Z. rewrite Hx, Ha.
  set (L := Z.log2 (Zpos q)) in *. clearbody L.
  assert (Hv : (if 0 <=? L - 52
                then Zpos q * 2 ^ (52 - L) * 2 ^ (L - 52)
                else Zpos q * 2 ^ (52 - L) / 2 ^ (- (L - 52))) = Zpos q).
  { destruct (Z.leb_spec 0 (L - 52)).
    - replace L with 52 by lia. change (2 ^ (52 - 52)) with 1. lia.
    - replace (- (L - 52)) with (52 - L) by lia.
      apply Z.div_mul. apply Z.pow_nonzero; lia. }
  cbv zeta. rewrite Hv. reflexivity.
Qed.

Lemma add_one_exact (n : Z) :
  n <> 0 -> - 2 ^ 53 < n < 2 ^ 53 ->
  Num.to_Z (Num.of_Z n + 1)%float = n + 1.
Proof.
  intros Hn Hb.
  destruct (Z.eq_dec n (2 ^ 53 - 1)) as [-> | Hmax]; [vm_compute; reflexivity|].
  assert (Habs : Z.abs n < 2 ^ 53) by lia.
  pose proof (of_Z_exact n Hn Habs) as Hx.
  assert (Hq : Zpos (Z.to_pos (Z.abs n)) = Z.abs n) by (apply Z2Pos.id; lia).
  assert (Hq' : Zpos (Z.to_pos (Z.abs n)) < 2 ^ 53) by lia.
  destruct (int_mantissa_spec _ Hq') as (HL & Ha & _).
  rewrite Hq in HL, Ha.
  set (L := Z.log2 (Z.abs n)) in *. clearbody L.
  set (a := Num.int_mantissa (Z.to_pos (Z.abs n))) in *. clearbody a.
  pose proof (add_spec (Num.of_Z n) 1) as Hadd.
  rewrite Hx, one_exact in Hadd. unfold SF64add, SFadd in Hadd.
  replace (Z.min (L - 52) (-52)) with (-52) in Hadd by lia.
  destruct (shl_align_spec a (L - 52) (-52) ltac:(lia)) as [Hf _].
  rewrite (shl_align_ge 4503599627370496 (-52) (-52)) in Hadd by lia.
  cbn [fst cond_Zopp] in Hadd.
  assert (HM : cond_Zopp (n <? 0) (Zpos (fst (shl_align a (L - 52) (-52))))
               + 4503599627370496 = (n + 1) * 2 ^ 52).
  { rewrite Hf, Ha, <- Z.mul_assoc, <- Z.pow_add_r by lia.
    replace (52 - L + (L - 52 - -52)) with 52 by lia.
    change 4503599627370496 with (2 ^ 52).
    unfold cond_Zopp. destruct (Z.ltb_spec n 0); lia. }
  rewrite HM in Hadd.
  destruct (n + 1) as [|p|p] eqn:E.
  - unfold Num.to_Z. rewrite Hadd. reflexivity.
  - assert (Hmx : exists mx, Zpos p * 2 ^ 52 = Zpos mx) by (eexists; reflexivity).
    destruct Hmx as [mx Hmx]. rewrite Hmx in Hadd.
    change (binary_normalize prec emax (Zpos mx) (-52) false)
      with (binary_round prec emax false mx (Z.opp 52)) in Hadd.
    rewrite (binary_round_int false p mx 52) in Hadd by lia.
    rewrite (to_Z_int false p _ ltac:(lia) Hadd). reflexivity.
  - assert (Hmx : exists mx, Zneg p * 2 ^ 52 = Zneg mx) by (eexists; reflexivity).
    destruct Hmx as [mx Hmx]. rewrite Hmx in Hadd.
    change (binary_normalize prec emax (Zneg mx) (-52) false)
      with (binary_round prec emax true mx (Z.opp 52)) in Hadd.
    rewrite (binary_round_int true p mx 52) in Hadd by lia.
    rewrite (to_Z_int true p _ ltac:(lia) Hadd). reflexivity.
Qed.



Lemma lower_char_same_letter (c d : ascii) :
  Spec.capital d = false ->
  (Js.lower_char c = d <-> Spec.same_letter c d).
Proof.
  intros Hd. unfold Js.lower_char, Spec.same_letter.
  change ((65 <=? N_of_ascii c)%N && (N_of_ascii c <=? 90)%N) with (Spec.capital c).
  destruct (Spec.capital c) eqn:Hc; split.
  - intros <-. right. left. split; [reflexivity|].
    apply N_ascii_embedding.
    unfold Spec.capital in Hc. apply andb_true_iff in Hc as [_ Hc].
    apply N.leb_le in Hc. lia.
  - intros [-> | [[_ H] | [H _]]].
    + congruence.
    + rewrite <- H. apply ascii_N_embedding.
    + congruence.
  - intros <-. left. reflexivity.
  - intros [-> | [[H _] | [H _]]]; congruence.
Qed.

Lemma toLowerCase_same_letters (w phrase : string) :
  Spec.no_capital phrase = true ->
  (Js.toLowerCase w = phrase <-> Spec.same_letters w phrase).
Proof.
  revert phrase. induction w as [|c w IH]; intros [|d phrase]; simpl;
    try (intros _; split; [discriminate | contradiction]).
  - intros _. tauto.
  - intros H. apply andb_true_iff in H as [Hd Hp]. apply negb_true_iff in Hd.
    rewrite <- (lower_char_same_letter c d Hd), <- (IH phrase Hp).
    split; [intros E; injection E; auto | intros [-> ->]; reflexivity].
Qed.

Lemma prefix_split (n s : string) :
  prefix n s = true -> exists b, s = n ++ b.
Proof.
  revert s. induction n as [|c n IH]; intros s.
  - intros _. exists s. reflexivity.
  - destruct s as [|d s]; simpl; [discriminate|].
    destruct (ascii_dec c d) as [<- | _]; [|discriminate].
    intros H. destruct (IH s H) as [b ->]. exists b. reflexivity.
Qed.

Lemma includes_split (n s : string) :
  Js.includes n s = true -> exists a b, s = a ++ n ++ b.
Proof.
  induction s as [|c s IH].
  - cbn [Js.includes]. rewrite orb_false_r. intros H.
    destruct (prefix_split _ _ H) as [b E]. exists "", b. exact E.
  - cbn [Js.includes]. intros H. apply orb_true_iff in H as [H | H].
    + destruct (prefix_split _ _ H) as [b E]. exists "", b. exact E.
    + destruct (IH H) as (a & b & ->). exists (String c a), b. reflexivity.
Qed.

Lemma toLowerCase_split (s x y : string) :
  Js.toLowerCase s = x ++ y ->
  exists s1 s2, s = s1 ++ s2 /\ Js.toLowerCase s1 = x /\ Js.toLowerCase s2 = y.
Proof.
  revert s. induction x as [|c x IH]; intros s; simpl.
  - intros H. exists "", s. repeat split. exact H.
  - destruct s as [|d s]; simpl; [discriminate|].
    intros H. injection H as Hc H.
    destruct (IH s H) as (s1 & s2 & -> & H1 & H2).
    exists (String d s1), s2. simpl. rewrite Hc, H1. repeat split. exact H2.
Qed.
Lemma includes_contains (phrase msg : string) :
  Spec.no_capital phrase = true ->
  (Js.includes phrase (Js.toLowerCase msg) = true
   <-> Spec.contains_ignoring_case phrase msg).
Proof.
  intros Hp. unfold Spec.contains_ignoring_case. split.
  - intros H. destruct (includes_split _ _ H) as (a & b & E).
    destruct (toLowerCase_split _ _ _ E) as (s1 & s2 & -> & _ & E2).
    destruct (toLowerCase_split _ _ _ E2) as (w & s3 & -> & Hw & _).
    exists s1, w, s3. split; [reflexivity|].
    apply toLowerCase_same_letters; assumption.
  - intros (a & w & b & -> & Hw).
    apply (toLowerCase_same_letters _ _ Hp) in Hw.
    rewrite !toLowerCase_app, Hw. apply includes_app.
Qed.

Lemma contains_not_empty (phrase : string) :
  phrase <> "" -> ~ Spec.contains_ignoring_case phrase "".
Proof.
  intros Hne (a & w & b & E & Hw).
  destruct a; [|discriminate E]. destruct w; [|discriminate E].
  destruct phrase; [contradiction | exact Hw].
Qed.

Lemma isMissingColumnError_unknown_column (msg : string) :
  isMissingColumnError msg = true <-> Spec.unknown_column msg.
Proof.
  unfold isMissingColumnError, Spec.unknown_column.
  destruct msg as [|c msg].
  - simpl. split; [discriminate|].
    intros [[H _] | [H | H]]; exfalso; revert H; apply contains_not_empty; discriminate.
  - change (negb (Js.truthy (String c msg))) with false. cbv iota.
    rewrite !orb_true_iff, andb_true_iff.
    rewrite !includes_contains by reflexivity. tauto.
Qed.

(* ================================================================= *)
(** ** The webhook, stage by stage *)

Section Webhook.

Context {S : Type} (W : Collab S).

Lemma webhook_allocate_number_run s session d items missing :
  exists pre s' missing' next,
    trace_of W s (WebhookRoute.allocate_number session d items missing)
    = (pre ++ trace_of W s' (WebhookRoute.insert_order session d items missing' next))%list
    /\ result_of W s (WebhookRoute.allocate_number session d items missing)
       = result_of W s' (WebhookRoute.insert_order session d items missing' next)
    /\ writes pre = [] /\ lookups pre = [] /\ allocation pre missing' next.
Proof.
  open WebhookRoute.allocate_number.
  destruct missing; simpl.
  - exists [], s, true, None. repeat split.
  - walk.
    all: match goal with
         | |- exists pre s' missing' next, ?l = _ /\ _ =>
             match l with context [trace_of _ ?s0 (?f _ _ _ ?m ?n)] =>
             let p := written_prefix l in exists p, s0, m, n end
         end.
    all: unfold allocation; simpl; repeat split; auto.
Qed.

Lemma webhook_check_existing_run s session d items :
  let tr := trace_of W s (WebhookRoute.check_existing session d items) in
  let r := result_of W s (WebhookRoute.check_existing session d items) in
  (r = acknowledged /\ writes tr = [] /\ number_reads tr = []
   /\ exists o, In (DbOk (Some o)) (lookups tr))
  \/ exists pre s' missing next,
       tr = (pre ++ trace_of W s' (WebhookRoute.insert_order session d items missing next))%list
       /\ r = result_of W s' (WebhookRoute.insert_order session d items missing next)
       /\ writes pre = [] /\ allocation pre missing next
       /\ (forall o, ~ In (DbOk (Some o)) (lookups pre)).
Proof.
  open WebhookRoute.check_existing; open WebhookRoute.skip_existing.
  walk.
  all: repeat match goal with
         | H : match ?x with _ => _ end = _ |- _ => destruct x; simpl in H
         end; subst; try discriminate.
  all: try (left; repeat split; try reflexivity; eexists; simpl; eauto; fail).
  all: right.
  all: match goal with
       | |- context [trace_of W ?s0 (WebhookRoute.allocate_number ?a ?b ?c ?m)] =>
           destruct (webhook_allocate_number_run s0 a b c m)
             as (pre & s' & m' & n & -> & -> & Hw & Hl & Ha)
       end.
  all: match goal with
       | |- exists pre0 s0 m0 n0, ?l = _ /\ _ =>
           match l with context [(?p0 ++ trace_of _ ?s1 (_ _ _ _ ?m ?n))%list] =>
           let p := written_prefix l in exists (p ++ p0)%list, s1, m, n end
       end.
  all: simpl; repeat split; auto.
  all: try (unfold allocation in *; simpl; exact Ha).
  all: rewrite ?Hl; simpl; intros o0 H;
    repeat (destruct H as [H | H]; try discriminate H); try contradiction.
Qed.

Lemma webhook_POST_run s cfg req :
  let tr := trace_of W s (WebhookRoute.POST cfg req) in
  let r := result_of W s (WebhookRoute.POST cfg req) in
  (writes tr = [] /\ number_reads tr = []
   /\ (forall o, In (DbOk (Some o)) (lookups tr) -> r = acknowledged))
  \/ exists pre s' session d items missing next,
       tr = (pre ++ trace_of W s' (WebhookRoute.insert_order session d items missing next))%list
       /\ r = result_of W s' (WebhookRoute.insert_order session d items missing next)
       /\ writes pre = [] /\ allocation pre missing next
       /\ (forall o, ~ In (DbOk (Some o)) (lookups pre))
       /\ WebhookRoute.draft session = WebhookRoute.Accepted d
       /\ not_paid session = false.
Proof.
  open WebhookRoute.POST; open WebhookRoute.completed;
    open WebhookRoute.load_items; open WebhookRoute.rebuild_items;
    open WebhookRoute.caught.
  walk.
  all: try (left; repeat split; simpl; tauto).
  all: match goal with
       | |- context [trace_of W ?s0 (WebhookRoute.check_existing ?a ?b ?c)] =>
           destruct (webhook_check_existing_run s0 a b c)
             as [(Hr & Hw & Hn & _) | (pre & s' & m & n & Ht & Hr & Hw & Ha & Hl)]
       end.
  all: try (left; rewrite Hr; simpl; repeat split; auto; fail).
  all: right; rewrite Ht, Hr.
  all: match goal with
       | |- exists pre0 s0 ss0 d0 i0 m0 n0, ?l = _ /\ _ =>
           match l with
           | context [(?p0 ++ trace_of _ ?s1 (_ ?ss ?dd ?ii ?m ?n))%list] =>
               let p := written_prefix l in exists (p ++ p0)%list, s1, ss, dd, ii, m, n
           end
       end.
  all: simpl; repeat split; auto.
Qed.

Ltac open_webhook_insert :=
  open WebhookRoute.insert_order; open WebhookRoute.after_insert;
  open WebhookRoute.insert_items; open WebhookRoute.caught.

Lemma webhook_insert_order_reads s session d items missing next :
  let tr := trace_of W s (WebhookRoute.insert_order session d items missing next) in
  lookups tr = [] /\ number_reads tr = [].
Proof. open_webhook_insert. walk. all: split; reflexivity. Qed.

Lemma webhook_insert_order_discipline s session d items missing next :
  let tr := trace_of W s (WebhookRoute.insert_order session d items missing next) in
  order_inserts tr <> []
  /\ insert_discipline
       (WebhookRoute.with_number (WebhookRoute.fullInsertPayload session d) missing next)
       (WebhookRoute.with_number (WebhookRoute.minimalInsertPayload session d) missing next)
       (order_inserts tr).
Proof.
  open_webhook_insert. walk.
  all: split; [discriminate | simpl; auto].
Qed.

Lemma webhook_insert_failure s session d items missing next p e :
  let tr := trace_of W s (WebhookRoute.insert_order session d items missing next) in
  let r := result_of W s (WebhookRoute.insert_order session d items missing next) in
  last_insert tr = Some (p, DbErr e) ->
  r = json (BError "Failed to process order") 500
  /\ after_last_insert tr = [EvConsole LogError "Error processing webhook:" (message e)].
Proof.
  open_webhook_insert. walk.
  all: unfold last_insert; simpl; intros H; inversion H; subst; split; reflexivity.
Qed.

Lemma webhook_items_failure s session d items missing next rows e :
  let tr := trace_of W s (WebhookRoute.insert_order session d items missing next) in
  let r := result_of W s (WebhookRoute.insert_order session d items missing next) in
  In (EvInsertOrderItems rows (Some e)) tr ->
  r = json (BError "Failed to process order") 500
  /\ after_items_insert tr = [EvConsole LogError "Error processing webhook:" (message e)]
  /\ writes (after_items_insert tr) = []
  /\ exists p order, last_insert tr = Some (p, DbOk order).
Proof.
  open_webhook_insert. walk.
  all: simpl; intros H;
    repeat (destruct H as [H | H]; try discriminate H); try contradiction.
  all: inversion H; subst; repeat split; unfold last_insert; simpl; eauto.
Qed.

End Webhook.

(* ================================================================= *)
(** ** The ensure route, stage by stage *)

Section Ensure.

Context {S : Type} (W : Collab S).

Lemma ensure_allocate_number_run s sid d :
  exists pre s' missing next,
    trace_of W s (EnsureRoute.allocate_number sid d)
    = (pre ++ trace_of W s' (EnsureRoute.insert_order sid d missing next))%list
    /\ result_of W s (EnsureRoute.allocate_number sid d)
       = result_of W s' (EnsureRoute.insert_order sid d missing next)
    /\ writes pre = [] /\ lookups pre = [] /\ allocation pre missing next
    /\ number_reads pre <> [].
Proof.
  open EnsureRoute.allocate_number. walk.
  all: match goal with
       | |- exists pre s' missing' next, ?l = _ /\ _ =>
           match l with context [trace_of _ ?s0 (_ _ _ ?m ?n)] =>
           let p := written_prefix l in exists p, s0, m, n end
       end.
  all: unfold allocation; simpl; repeat split; auto; discriminate.
Qed.

Lemma ensure_POST_run s cfg req :
  let tr := trace_of W s (EnsureRoute.POST cfg req) in
  let r := result_of W s (EnsureRoute.POST cfg req) in
  (writes tr = [] /\ number_reads tr = []
   /\ (forall o, hd_error (lookups tr) = Some (DbOk (Some o)) ->
         r = found o /\ List.length tr = 2%nat))
  \/ exists pre s' sid d missing next session,
       tr = (pre ++ trace_of W s' (EnsureRoute.insert_order sid d missing next))%list
       /\ r = result_of W s' (EnsureRoute.insert_order sid d missing next)
       /\ writes pre = [] /\ allocation pre missing next
       /\ number_reads pre <> []
       /\ lookups pre = [DbOk None]
       /\ sessionId_of req = sid
       /\ In (EvRetrieveSession sid (Returned session)) pre
       /\ EnsureRoute.draft session = EnsureRoute.Accepted d
       /\ not_paid session = false.
Proof.
  unfold sessionId_of.
  open EnsureRoute.POST; open EnsureRoute.caught.
  walk.
  all: try (left; split; [reflexivity | split; [reflexivity |]]; simpl;
            intros o0 H0; inversion H0; subst; split; reflexivity).
  all: match goal with
       | |- context [trace_of W ?s0 (EnsureRoute.allocate_number ?a ?b)] =>
           destruct (ensure_allocate_number_run s0 a b)
             as (pre & s' & m & n & Ht & Hr & Hw & Hl & Ha & Hn)
       end.
  all: right; rewrite Ht, Hr.
  all: match goal with
       | |- exists pre0 s0 sid0 d0 m0 n0 ss0, ?l = _ /\ _ =>
           match l with
           | context [EvRetrieveSession _ (Returned ?ss)] =>
           match l with
           | context [(?p0 ++ trace_of _ ?s1 (_ ?sd ?dd ?m ?n))%list] =>
               let p := written_prefix l in
               exists (p ++ p0)%list, s1, sd, dd, m, n, ss
           end end
       end.
  all: simpl; rewrite ?Hl; repeat split; auto.
Qed.

Ltac open_ensure_insert :=
  open EnsureRoute.insert_order; open EnsureRoute.after_insert;
  open EnsureRoute.insert_items; open EnsureRoute.reread;
  open EnsureRoute.caught.

Lemma ensure_insert_order_reads s sid d missing next :
  number_reads (trace_of W s (EnsureRoute.insert_order sid d missing next)) = [].
Proof. open_ensure_insert. walk. all: reflexivity. Qed.

Lemma ensure_insert_order_discipline s sid d missing next :
  let tr := trace_of W s (EnsureRoute.insert_order sid d missing next) in
  order_inserts tr <> []
  /\ insert_discipline
       (EnsureRoute.fullInsertPayload sid d (EnsureRoute.orderNumberPayload missing next))
       (EnsureRoute.minimalInsertPayload sid d (EnsureRoute.orderNumberPayload missing next))
       (order_inserts tr).
Proof.
  open_ensure_insert. walk.
  all: split; [discriminate | simpl; auto].
Qed.

Lemma ensure_insert_failure s sid d missing next p e :
  let tr := trace_of W s (EnsureRoute.insert_order sid d missing next) in
  let r := result_of W s (EnsureRoute.insert_order sid d missing next) in
  last_insert tr = Some (p, DbErr e) ->
  exists retry,
    after_last_insert tr
    = EvSelectOrderBySession AllWithItems sid MaybeSingle retry
        :: fst (after_requery e retry)
    /\ r = snd (after_requery e retry).
Proof.
  open_ensure_insert. walk.
  all: unfold last_insert; simpl; intros H; inversion H; subst.
  all: match goal with
       | |- exists retry, ?l = _ /\ _ =>
           match l with context [EvSelectOrderBySession _ _ _ ?x] => exists x end
       end.
  all: split; reflexivity.
Qed.

Lemma ensure_items_failure s sid d missing next rows e :
  let tr := trace_of W s (EnsureRoute.insert_order sid d missing next) in
  let r := result_of W s (EnsureRoute.insert_order sid d missing next) in
  In (EvInsertOrderItems rows (Some e)) tr ->
  exists p order complete,
    last_insert tr = Some (p, DbOk order)
    /\ after_items_insert tr
       = [EvConsole LogError "Error inserting order_items:" (message e);
          EvSelectOrderById AllWithItems (row_id order) complete]
    /\ r = after_reread (EnsureRoute.subtotalAmount d) order complete.
Proof.
  open_ensure_insert. walk.
  all: simpl; intros H;
    repeat (destruct H as [H | H]; try discriminate H); try contradiction.
  all: inversion H; subst; unfold last_insert; simpl.
  all: match goal with
       | |- exists p order complete, Some (?q, DbOk ?o) = _ /\ ?l = _ /\ _ =>
           match l with context [EvSelectOrderById _ _ ?x] => exists q, o, x end
       end.
  all: repeat split; reflexivity.
Qed.

End Ensure.

(* ================================================================= *)
(** ** How a run comes to its insert *)

Section Reach.

Context {S : Type} (W : Collab S).

Lemma ensure_creation_reached s cfg req session d :
  let tr := trace_of W s (EnsureRoute.POST cfg req) in
  let r := result_of W s (EnsureRoute.POST cfg req) in
  hd_error (lookups tr) = Some (DbOk None) ->
  hd_error (retrieved tr) = Some (Returned session) ->
  not_paid session = false ->
  EnsureRoute.draft session = EnsureRoute.Accepted d ->
  exists pre s' missing next,
    tr = (pre ++ trace_of W s'
                   (EnsureRoute.insert_order (sessionId_of req) d missing next))%list
    /\ r = result_of W s' (EnsureRoute.insert_order (sessionId_of req) d missing next)
    /\ writes pre = [] /\ allocation pre missing next.
Proof.
  unfold sessionId_of.
  open EnsureRoute.POST; open EnsureRoute.caught.
  walk.
  all: intros Hl Hr Hnp Hd; try discriminate Hl; try discriminate Hr.
  all: injection Hr as ->; try congruence.
  all: match goal with
       | H : EnsureRoute.draft _ = EnsureRoute.Accepted ?d0 |- _ =>
           assert (d0 = d) by congruence; subst d0
       end.
  all: match goal with
       | |- context [trace_of W ?s0 (EnsureRoute.allocate_number ?a ?b)] =>
           destruct (ensure_allocate_number_run W s0 a b)
             as (pre & s' & m & n & Ht & Hres & Hw & _ & Ha & _)
       end.
  all: rewrite Ht, Hres.
  all: match goal with
       | |- exists pre0 s0 m0 n0, ?l = _ /\ _ =>
           match l with
           | context [(?p0 ++ trace_of _ ?s1 (_ _ _ ?m ?n))%list] =>
               let p := written_prefix l in exists (p ++ p0)%list, s1, m, n
           end
       end.
  all: simpl; repeat split; auto.
Qed.

Lemma webhook_check_existing_reached s session d items :
  let tr := trace_of W s (WebhookRoute.check_existing session d items) in
  let r := result_of W s (WebhookRoute.check_existing session d items) in
  (forall o, ~ In (DbOk (Some o)) (lookups tr)) ->
  exists pre s' missing next,
    tr = (pre ++ trace_of W s' (WebhookRoute.insert_order session d items missing next))%list
    /\ r = result_of W s' (WebhookRoute.insert_order session d items missing next)
    /\ writes pre = [] /\ allocation pre missing next
    /\ lookups pre <> []
    /\ (forall e, hd_error (lookups pre) = Some (DbErr e) ->
          isMissingColumnError (message e) = true -> number_reads pre = []).
Proof.
  open WebhookRoute.check_existing; open WebhookRoute.skip_existing.
  open WebhookRoute.allocate_number.
  walk.
  all: repeat match goal with
         | H : match ?x with _ => _ end = _ |- _ => destruct x; simpl in H
         end; subst; try discriminate.
  all: intros Hno.
  all: try (exfalso; eapply Hno; simpl; eauto; fail).
  all: match goal with
       | |- exists pre0 s0 m0 n0, ?l = _ /\ _ =>
           match l with context [trace_of _ ?s1 (_ _ _ _ ?m ?n)] =>
           let p := written_prefix l in exists p, s1, m, n end
       end.
  all: unfold allocation; simpl; repeat split; auto; try discriminate.
  all: intros e0 He0 Hm; try injection He0 as <-; congruence.
Qed.

Lemma webhook_creation_reached s cfg req :
  let tr := trace_of W s (WebhookRoute.POST cfg req) in
  let r := result_of W s (WebhookRoute.POST cfg req) in
  lookups tr <> [] ->
  (forall o, ~ In (DbOk (Some o)) (lookups tr)) ->
  exists pre s' ev d items missing next,
    tr = (pre ++ trace_of W s'
                   (WebhookRoute.insert_order (event_session ev) d items missing next))%list
    /\ r = result_of W s'
             (WebhookRoute.insert_order (event_session ev) d items missing next)
    /\ writes pre = [] /\ allocation pre missing next
    /\ hd_error (verified pre) = Some (Returned ev)
    /\ WebhookRoute.draft (event_session ev) = WebhookRoute.Accepted d
    /\ (forall e, hd_error (lookups pre) = Some (DbErr e) ->
          isMissingColumnError (message e) = true -> number_reads pre = []).
Proof.
  open WebhookRoute.POST; open WebhookRoute.completed;
    open WebhookRoute.load_items; open WebhookRoute.rebuild_items;
    open WebhookRoute.caught.
  walk.
  all: intros Hne Hno; try (exfalso; apply Hne; reflexivity).
  all: match goal with
       | |- context [trace_of W ?s0 (WebhookRoute.check_existing ?a ?b ?c)] =>
           destruct (webhook_check_existing_reached s0 a b c Hno)
             as (pre & s' & m & n & Ht & Hr & Hw & Ha & _ & Hskip)
       end.
  all: rewrite Ht, Hr.
  all: match goal with
       | |- exists pre0 s0 ev0 d0 i0 m0 n0, ?l = _ /\ _ =>
           match l with
           | context [EvConstructEvent _ _ _ (Returned ?ev)] =>
           match l with
           | context [(?p0 ++ trace_of _ ?s1 (_ _ ?dd ?ii ?m ?n))%list] =>
               let p := written_prefix l in exists (p ++ p0)%list, s1, ev, dd, ii, m, n
           end end
       end.
  all: simpl; repeat split; auto.
Qed.

End Reach.

(* ================================================================= *)
(** ** The claims *)

Lemma quiet_run_creates_nothing (tr : list Event) :
  writes tr = [] -> number_reads tr = [] -> nothing_created tr = true.
Proof.
  induction tr as [|e tr IH]; [reflexivity|].
  destruct e; simpl; auto; discriminate.
Qed.

(** C1 (as amended).  When the existence check finds an order for the
    session, the ensure route returns that order with [created = false]
    after two calls (the client, the look-up); the webhook acknowledges
    with "Order already processed" and does not hand the order back.
    Neither allocates an order number, inserts an order or inserts
    items. *)
Theorem C1_existing_order_short_circuits :
  forall (S : Type) (W : Collab S) (s : S) (cfg : Config) (o : Row),
    (forall req,
        hd_error (lookups (trace_of W s (EnsureRoute.POST cfg req)))
        = Some (DbOk (Some o)) ->
        result_of W s (EnsureRoute.POST cfg req) = found o
        /\ List.length (trace_of W s (EnsureRoute.POST cfg req)) = 2%nat
        /\ nothing_created (trace_of W s (EnsureRoute.POST cfg req)) = true
        /\ writes (trace_of W s (EnsureRoute.POST cfg req)) = [])
    /\ (forall req,
        In (DbOk (Some o)) (lookups (trace_of W s (WebhookRoute.POST cfg req))) ->
        result_of W s (WebhookRoute.POST cfg req) = acknowledged
        /\ nothing_created (trace_of W s (WebhookRoute.POST cfg req)) = true
        /\ writes (trace_of W s (WebhookRoute.POST cfg req)) = []).
Proof.
  intros S W s cfg o. split; intros req H.
  - destruct (ensure_POST_run W s cfg req)
      as [(Hw & Hn & Hf) | (pre & s' & sid & d & m & n & ss & Ht & _ & _ & _ & _ & Hl & _)].
    + destruct (Hf o H) as [Hr Hlen].
      repeat split; auto using quiet_run_creates_nothing.
    + rewrite Ht, lookups_app, Hl in H. discriminate H.
  - destruct (webhook_POST_run W s cfg req)
      as [(Hw & Hn & Hf) | (pre & s' & ss & d & it & m & n & Ht & _ & _ & _ & Hl & _)].
    + split; [exact (Hf o H)|].
      split; auto using quiet_run_creates_nothing.
    + rewrite Ht, lookups_app in H.
      rewrite (proj1 (webhook_insert_order_reads W s' ss d it m n)), app_nil_r in H.
      destruct (Hl o H).
Qed.

(** C1, the claim as stated fails: with the order of the session in
    the store, the webhook answers with an acknowledgement that does
    not carry the order. *)
Lemma C1_counterexample_webhook_keeps_order_back :
  let o := Sample.stored "pending" 1000 in
  let world := (Sample.tables_with [o], [Sample.delivered Sample.paid; Sample.listed [Sample.kabob]]) in
  Store.select (fst world) AllWithItems MaybeSingle (Store.has_session "sess_123")
  = DbOk (Some o)
  /\ ~ exists sub,
        body (result_of Store.collab world (WebhookRoute.POST Sample.cfg Sample.webhook_request))
        = BEnsured (Some o) false sub.
Proof.
  split; [reflexivity|].
  intros [sub H]. vm_compute in H. discriminate H.
Qed.

(** C1 on the in-memory store holding the order of the session. *)
Lemma C1_witness :
  let o := Sample.stored "pending" 1000 in
  let world := (Sample.tables_with [o], [Sample.delivered Sample.paid; Sample.listed [Sample.kabob]]) in
  (result_of Store.collab world (EnsureRoute.POST Sample.cfg Sample.ensure_request) = found o
   /\ List.length (trace_of Store.collab world (EnsureRoute.POST Sample.cfg Sample.ensure_request)) = 2%nat
   /\ nothing_created (trace_of Store.collab world (EnsureRoute.POST Sample.cfg Sample.ensure_request)) = true
   /\ writes (trace_of Store.collab world (EnsureRoute.POST Sample.cfg Sample.ensure_request)) = [])
  /\ (result_of Store.collab world (WebhookRoute.POST Sample.cfg Sample.webhook_request) = acknowledged
   /\ nothing_created (trace_of Store.collab world (WebhookRoute.POST Sample.cfg Sample.webhook_request)) = true
   /\ writes (trace_of Store.collab world (WebhookRoute.POST Sample.cfg Sample.webhook_request)) = []).
Proof.
  intros o world.
  pose proof (C1_existing_order_short_circuits _ Store.collab world Sample.cfg o) as [He Hw].
  split.
  - apply He. vm_compute. reflexivity.
  - apply Hw. vm_compute. left. reflexivity.
Defined.

Lemma in_writes (e : Event) (tr : list Event) :
  In e tr -> is_write e = true -> In e (writes tr).
Proof. intros H He. apply filter_In. split; assumption. Qed.

Lemma writes_items_inserts (tr : list Event) :
  writes tr = [] -> filter is_items_insert tr = [].
Proof.
  induction tr as [|e tr IH]; [reflexivity|].
  destruct e; simpl; auto; discriminate.
Qed.

Lemma no_write_no_insert (tr : list Event) :
  writes tr = [] -> last_insert tr = None.
Proof.
  intros H. unfold last_insert. rewrite (writes_order_inserts tr H). reflexivity.
Qed.

(** C2 (as amended).  In the ensure route an order insert whose final
    reply is an error is followed by a second look-up of the session;
    an order found then is returned with [created = false]; when the
    look-up fails or finds nothing the insert error is logged and
    answered with status 500 and its message.  The webhook does not
    look again: it logs the insert error and answers 500. *)
Theorem C2_failed_insert_is_requeried_by_ensure :
  forall (S : Type) (W : Collab S) (s : S) (cfg : Config) (p : Payload) (e : DbError),
    (forall req,
        last_insert (trace_of W s (EnsureRoute.POST cfg req)) = Some (p, DbErr e) ->
        hd_error (lookups (trace_of W s (EnsureRoute.POST cfg req))) = Some (DbOk None)
        /\ exists retry,
            after_last_insert (trace_of W s (EnsureRoute.POST cfg req))
            = EvSelectOrderBySession AllWithItems (sessionId_of req) MaybeSingle retry
                :: fst (after_requery e retry)
            /\ result_of W s (EnsureRoute.POST cfg req) = snd (after_requery e retry))
    /\ (forall req,
        last_insert (trace_of W s (WebhookRoute.POST cfg req)) = Some (p, DbErr e) ->
        after_last_insert (trace_of W s (WebhookRoute.POST cfg req))
        = [EvConsole LogError "Error processing webhook:" (message e)]
        /\ result_of W s (WebhookRoute.POST cfg req)
           = json (BError "Failed to process order") 500).
Proof.
  intros S W s cfg p e. split; intros req H.
  - destruct (ensure_POST_run W s cfg req)
      as [(Hw & _) | (pre & s' & sid & d & m & n & ss & Ht & Hr & Hw & _ & _ & Hl & Hs & _)].
    + rewrite (no_write_no_insert _ Hw) in H. discriminate H.
    + pose proof (writes_order_inserts _ Hw) as Hi.
      rewrite Ht, last_insert_app in H by exact Hi.
      rewrite Ht, Hr, lookups_app, Hl, after_last_insert_app by exact Hi.
      split; [reflexivity|]. rewrite Hs.
      exact (ensure_insert_failure W s' sid d m n p e H).
  - destruct (webhook_POST_run W s cfg req)
      as [(Hw & _) | (pre & s' & ss & d & it & m & n & Ht & Hr & Hw & _)].
    + rewrite (no_write_no_insert _ Hw) in H. discriminate H.
    + pose proof (writes_order_inserts _ Hw) as Hi.
      rewrite Ht, last_insert_app in H by exact Hi.
      rewrite Ht, Hr, after_last_insert_app by exact Hi.
      destruct (webhook_insert_failure W s' ss d it m n p e H) as [Hres Haft].
      split; assumption.
Qed.

(** C2, the claim as stated fails: the webhook's insert is refused (a
    concurrent caller inserted the order after the existence check found
    none) and the webhook answers 500 without looking the session up
    again, although the store would now return the order. *)
Lemma C2_counterexample_webhook_does_not_requery :
  let script :=
    [ Sample.delivered Sample.paid;
      EvCreateServerClient (Returned tt);
      Sample.listed [Sample.kabob];
      EvSelectOrderBySession IdAndOrderNumber "" Single (DbErr Sample.no_row);
      EvSelectLastOrderNumber (DbOk None);
      EvInsertOrder [] (DbErr Sample.duplicate);
      EvSelectOrderBySession AllWithItems "" MaybeSingle
        (DbOk (Some (Sample.stored "pending" 1000))) ] in
  let tr := trace_of Replay.collab script (WebhookRoute.POST Sample.cfg Sample.webhook_request) in
  lookups tr = [DbErr Sample.no_row]
  /\ map snd (order_inserts tr) = [DbErr Sample.duplicate]
  /\ lookups (after_last_insert tr) = []
  /\ result_of Replay.collab script (WebhookRoute.POST Sample.cfg Sample.webhook_request)
     = json (BError "Failed to process order") 500.
Proof. vm_compute. repeat split; reflexivity. Qed.

(** C2 on scripted replies: the insert is refused as a duplicate. *)
Lemma C2_witness :
  let script :=
    [ EvCreateServerClient (Returned tt);
      EvSelectOrderBySession AllWithItems "" MaybeSingle (DbOk None);
      Sample.retrieved Sample.paid;
      EvSelectLastOrderNumber (DbOk None);
      EvInsertOrder [] (DbErr Sample.duplicate);
      EvSelectOrderBySession AllWithItems "" MaybeSingle
        (DbOk (Some (Sample.stored "pending" 1000))) ] in
  let wscript :=
    [ Sample.delivered Sample.paid;
      EvCreateServerClient (Returned tt);
      Sample.listed [Sample.kabob];
      EvSelectOrderBySession IdAndOrderNumber "" Single (DbErr Sample.no_row);
      EvSelectLastOrderNumber (DbOk None);
      EvInsertOrder [] (DbErr Sample.duplicate) ] in
  result_of Replay.collab script (EnsureRoute.POST Sample.cfg Sample.ensure_request)
  = found (Sample.stored "pending" 1000)
  /\ result_of Replay.collab wscript (WebhookRoute.POST Sample.cfg Sample.webhook_request)
     = json (BError "Failed to process order") 500.
Proof.
  intros script wscript.
  set (d := match EnsureRoute.draft Sample.paid with
            | EnsureRoute.Accepted d => d
            | EnsureRoute.Rejected _ =>
                EnsureRoute.mkDraft "" "" "" "" "" "" 0 0 0 0 0
            end).
  set (wd := match WebhookRoute.draft Sample.paid with
             | WebhookRoute.Accepted d => d
             | WebhookRoute.Rejected _ =>
                 WebhookRoute.mkDraft "" "" "" None None None 0 0 0 0 0 0
             end).
  split.
  - destruct (C2_failed_insert_is_requeried_by_ensure _ Replay.collab script Sample.cfg
                (EnsureRoute.fullInsertPayload "sess_123" d [("order_number", JInt 1000)])
                Sample.duplicate) as [He _].
    destruct (He Sample.ensure_request) as [_ [retry [Ha Hr]]];
      [vm_compute; reflexivity|].
    vm_compute in Ha. injection Ha as <-. exact Hr.
  - destruct (C2_failed_insert_is_requeried_by_ensure _ Replay.collab wscript Sample.cfg
                (WebhookRoute.with_number (WebhookRoute.fullInsertPayload Sample.paid wd)
                   false (Some 1000))
                Sample.duplicate) as [_ Hw].
    destruct (Hw Sample.webhook_request) as [_ Hr]; [vm_compute; reflexivity|].
    exact Hr.
Defined.

Lemma webhook_unpaid_run {S : Type} (W : Collab S) s cfg req ev :
  hd_error (verified (trace_of W s (WebhookRoute.POST cfg req))) = Some (Returned ev) ->
  event_type ev = "checkout.session.completed" ->
  not_paid (event_session ev) = true ->
  result_of W s (WebhookRoute.POST cfg req) = json (BReceived None) 200
  /\ List.length (trace_of W s (WebhookRoute.POST cfg req)) = 2%nat
  /\ writes (trace_of W s (WebhookRoute.POST cfg req)) = []
  /\ nothing_created (trace_of W s (WebhookRoute.POST cfg req)) = true.
Proof.
  open WebhookRoute.POST; open WebhookRoute.completed; open WebhookRoute.caught.
  walk.
  all: intros H Hty Hnp; try discriminate H.
  all: injection H as <-.
  all: try (repeat split; reflexivity).
  all: try congruence.
  all: match goal with
       | E : (event_type _ =? _)%string = false |- _ =>
           rewrite Hty, String.eqb_refl in E; discriminate E
       end.
Qed.

Lemma ensure_unpaid_run {S : Type} (W : Collab S) s cfg req session :
  hd_error (retrieved (trace_of W s (EnsureRoute.POST cfg req))) = Some (Returned session) ->
  not_paid session = true ->
  result_of W s (EnsureRoute.POST cfg req) = json (BError "Session is not paid") 400
  /\ trace_of W s (EnsureRoute.POST cfg req)
     = [ EvCreateServerClient (Returned tt);
         EvSelectOrderBySession AllWithItems (sessionId_of req) MaybeSingle (DbOk None);
         EvRetrieveSession (sessionId_of req) (Returned session) ].
Proof.
  unfold sessionId_of. open EnsureRoute.POST; open EnsureRoute.caught.
  walk.
  all: intros H Hnp; try discriminate H.
  all: injection H as <-.
  all: try congruence.
  all: match goal with a : unit |- _ => destruct a end.
  all: split; reflexivity.
Qed.

(** C3 (as amended).  For a session whose payment state is present and
    neither [paid] nor [no_payment_required]: the webhook acknowledges
    the event with status 200 after two steps (the verification, a
    warning in the log) and calls the store not at all; the ensure
    route, which gets to the session only when no order exists for it,
    answers status 400 "Session is not paid", having made no write. *)
Theorem C3_unpaid_session_writes_nothing :
  forall (S : Type) (W : Collab S) (s : S) (cfg : Config),
    (forall req ev,
        hd_error (verified (trace_of W s (WebhookRoute.POST cfg req))) = Some (Returned ev) ->
        event_type ev = "checkout.session.completed" ->
        not_paid (event_session ev) = true ->
        result_of W s (WebhookRoute.POST cfg req) = json (BReceived None) 200
        /\ List.length (trace_of W s (WebhookRoute.POST cfg req)) = 2%nat
        /\ writes (trace_of W s (WebhookRoute.POST cfg req)) = []
        /\ nothing_created (trace_of W s (WebhookRoute.POST cfg req)) = true)
    /\ (forall req session,
        hd_error (retrieved (trace_of W s (EnsureRoute.POST cfg req)))
        = Some (Returned session) ->
        not_paid session = true ->
        result_of W s (EnsureRoute.POST cfg req) = json (BError "Session is not paid") 400
        /\ writes (trace_of W s (EnsureRoute.POST cfg req)) = []
        /\ nothing_created (trace_of W s (EnsureRoute.POST cfg req)) = true).
Proof.
  intros S W s cfg. split.
  - intros req ev H Hty Hnp. exact (webhook_unpaid_run W s cfg req ev H Hty Hnp).
  - intros req session H Hnp.
    destruct (ensure_unpaid_run W s cfg req session H Hnp) as [Hr Ht].
    rewrite Hr, Ht. repeat split; reflexivity.
Qed.

(** C3, the claim as stated fails: for an unpaid session the ensure
    route reports the condition to its caller as an error, status 400. *)
Lemma C3_counterexample_ensure_reports_unpaid :
  let world := (Sample.empty_tables true, [Sample.retrieved Sample.unpaid]) in
  not_paid Sample.unpaid = true
  /\ result_of Store.collab world (EnsureRoute.POST Sample.cfg Sample.ensure_request)
     = json (BError "Session is not paid") 400.
Proof. vm_compute. split; reflexivity. Qed.

(** C3 on the in-memory store, for an unpaid session. *)
Lemma C3_witness :
  let world := (Sample.empty_tables true, [Sample.retrieved Sample.unpaid]) in
  let wworld := (Sample.empty_tables true, [Sample.delivered Sample.unpaid]) in
  not_paid Sample.unpaid = true
  /\ result_of Store.collab wworld (WebhookRoute.POST Sample.cfg Sample.webhook_request)
     = json (BReceived None) 200
  /\ writes (trace_of Store.collab wworld (WebhookRoute.POST Sample.cfg Sample.webhook_request)) = []
  /\ writes (trace_of Store.collab world (EnsureRoute.POST Sample.cfg Sample.ensure_request)) = [].
Proof.
  intros world wworld.
  destruct (C3_unpaid_session_writes_nothing _ Store.collab wworld Sample.cfg) as [Hw _].
  destruct (C3_unpaid_session_writes_nothing _ Store.collab world Sample.cfg) as [_ He].
  destruct (Hw Sample.webhook_request
              (mkStripeEvent "checkout.session.completed" Sample.unpaid))
    as (Hr & _ & Hwr & _); try (vm_compute; reflexivity).
  destruct (He Sample.ensure_request Sample.unpaid) as (_ & Hwe & _);
    try (vm_compute; reflexivity).
  repeat split; assumption || (vm_compute; reflexivity).
Defined.

Lemma items_insert_not_before (pre tail : list Event) rows e :
  writes pre = [] ->
  In (EvInsertOrderItems rows (Some e)) (pre ++ tail) ->
  In (EvInsertOrderItems rows (Some e)) tail.
Proof.
  intros Hw H. apply in_app_or in H as [H | H]; [|exact H].
  apply in_writes in H; [|reflexivity]. rewrite Hw in H. destruct H.
Qed.

(** C4 (as amended).  When the insert of the items fails after the
    order was inserted: the ensure route logs the failure, reads the
    order again and answers status 200 with [created = true] and the
    order (as read again or, if that read fails, as inserted); the
    webhook logs the failure and answers status 500 "Failed to process
    order".  In both no write follows the failed insert: the order
    stays. *)
Theorem C4_failed_items_insert_keeps_order :
  forall (S : Type) (W : Collab S) (s : S) (cfg : Config) (rows : list Payload)
         (e : DbError),
    (forall req,
        In (EvInsertOrderItems rows (Some e)) (trace_of W s (EnsureRoute.POST cfg req)) ->
        exists p order complete subtotal,
          last_insert (trace_of W s (EnsureRoute.POST cfg req)) = Some (p, DbOk order)
          /\ after_items_insert (trace_of W s (EnsureRoute.POST cfg req))
             = [ EvConsole LogError "Error inserting order_items:" (message e);
                 EvSelectOrderById AllWithItems (row_id order) complete ]
          /\ result_of W s (EnsureRoute.POST cfg req) = after_reread subtotal order complete
          /\ status (result_of W s (EnsureRoute.POST cfg req)) = 200)
    /\ (forall req,
        In (EvInsertOrderItems rows (Some e)) (trace_of W s (WebhookRoute.POST cfg req)) ->
        result_of W s (WebhookRoute.POST cfg req) = json (BError "Failed to process order") 500
        /\ after_items_insert (trace_of W s (WebhookRoute.POST cfg req))
           = [EvConsole LogError "Error processing webhook:" (message e)]
        /\ exists p order,
            last_insert (trace_of W s (WebhookRoute.POST cfg req)) = Some (p, DbOk order)).
Proof.
  intros S W s cfg rows e. split; intros req H.
  - destruct (ensure_POST_run W s cfg req)
      as [(Hw & _) | (pre & s' & sid & d & m & n & ss & Ht & Hr & Hw & _)].
    + apply in_writes in H; [|reflexivity]. rewrite Hw in H. destruct H.
    + rewrite Ht in H. apply items_insert_not_before in H; [|exact Hw].
      destruct (ensure_items_failure W s' sid d m n rows e H)
        as (p & order & complete & Hl & Ha & Hres).
      exists p, order, complete, (EnsureRoute.subtotalAmount d).
      rewrite Ht, Hr, last_insert_app, after_items_insert_app
        by auto using writes_order_inserts, writes_items_inserts.
      repeat split; try assumption.
      rewrite Hres. destruct complete; reflexivity.
  - destruct (webhook_POST_run W s cfg req)
      as [(Hw & _) | (pre & s' & ss & d & it & m & n & Ht & Hr & Hw & _)].
    + apply in_writes in H; [|reflexivity]. rewrite Hw in H. destruct H.
    + rewrite Ht in H. apply items_insert_not_before in H; [|exact Hw].
      destruct (webhook_items_failure W s' ss d it m n rows e H)
        as (Hres & Ha & _ & p & order & Hl).
      rewrite Ht, Hr, last_insert_app, after_items_insert_app
        by auto using writes_order_inserts, writes_items_inserts.
      repeat split; try assumption. exists p, order. exact Hl.
Qed.

(** C4, the claim as stated fails: in the webhook a failed insert of
    the items, after the order went in, is answered with status 500. *)
Lemma C4_counterexample_webhook_surfaces_items_failure :
  let script :=
    [ Sample.delivered Sample.paid;
      EvCreateServerClient (Returned tt);
      Sample.listed [Sample.kabob];
      EvSelectOrderBySession IdAndOrderNumber "" Single (DbErr Sample.no_row);
      EvSelectLastOrderNumber (DbOk None);
      EvInsertOrder [] (DbOk (Sample.stored "pending" 1000));
      EvInsertOrderItems [] (Some Sample.timeout) ] in
  let tr := trace_of Replay.collab script (WebhookRoute.POST Sample.cfg Sample.webhook_request) in
  map snd (order_inserts tr) = [DbOk (Sample.stored "pending" 1000)]
  /\ map (fun ev => match ev with EvInsertOrderItems _ r => r | _ => None end)
       (filter is_items_insert tr) = [Some Sample.timeout]
  /\ result_of Replay.collab script (WebhookRoute.POST Sample.cfg Sample.webhook_request)
     = json (BError "Failed to process order") 500.
Proof. vm_compute. repeat split; reflexivity. Qed.

(** C4 on scripted replies: the insert of the items times out. *)
Lemma C4_witness :
  let order := Sample.stored "pending" 1000 in
  let script :=
    [ EvCreateServerClient (Returned tt);
      EvSelectOrderBySession AllWithItems "" MaybeSingle (DbOk None);
      Sample.retrieved Sample.paid;
      EvSelectLastOrderNumber (DbOk None);
      EvInsertOrder [] (DbOk order);
      Sample.listed [Sample.kabob];
      EvInsertOrderItems [] (Some Sample.timeout);
      EvSelectOrderById AllWithItems "" (DbErr Sample.timeout) ] in
  let wscript :=
    [ Sample.delivered Sample.paid;
      EvCreateServerClient (Returned tt);
      Sample.listed [Sample.kabob];
      EvSelectOrderBySession IdAndOrderNumber "" Single (DbErr Sample.no_row);
      EvSelectLastOrderNumber (DbOk None);
      EvInsertOrder [] (DbOk order);
      EvInsertOrderItems [] (Some Sample.timeout) ] in
  status (result_of Replay.collab script (EnsureRoute.POST Sample.cfg Sample.ensure_request)) = 200
  /\ result_of Replay.collab wscript (WebhookRoute.POST Sample.cfg Sample.webhook_request)
     = json (BError "Failed to process order") 500.
Proof.
  intros order script wscript. split.
  - destruct (C4_failed_items_insert_keeps_order _ Replay.collab script Sample.cfg
                (EnsureRoute.orderItemsData order [Sample.kabob]) Sample.timeout)
      as [He _].
    destruct (He Sample.ensure_request) as (p & o & c & sub & _ & _ & _ & Hst).
    + vm_compute. do 6 right. left. reflexivity.
    + exact Hst.
  - destruct (C4_failed_items_insert_keeps_order _ Replay.collab wscript Sample.cfg
                (WebhookRoute.orderItemsData order
                   (WebhookRoute.cart_of_line_items [Sample.kabob])) Sample.timeout)
      as [_ Hw].
    destruct (Hw Sample.webhook_request) as (Hr & _).
    + vm_compute. do 6 right. left. reflexivity.
    + exact Hr.
Defined.

Lemma ensure_full_number sid d number :
  field "order_number" (EnsureRoute.fullInsertPayload sid d number)
  = field "order_number" number.
Proof. reflexivity. Qed.

Lemma ensure_minimal_number sid d number :
  field "order_number" (EnsureRoute.minimalInsertPayload sid d number)
  = field "order_number" number.
Proof. reflexivity. Qed.

Lemma webhook_full_number session d missing next :
  field "order_number"
    (WebhookRoute.with_number (WebhookRoute.fullInsertPayload session d) missing next)
  = webhook_number missing next.
Proof.
  unfold WebhookRoute.with_number, WebhookRoute.insertWithNumber,
    WebhookRoute.orderNumberPayload, webhook_number.
  destruct missing, next as [n|]; try reflexivity.
  simpl. destruct (n =? 0); reflexivity.
Qed.

Lemma webhook_minimal_number session d missing next :
  field "order_number"
    (WebhookRoute.with_number (WebhookRoute.minimalInsertPayload session d) missing next)
  = webhook_number missing next.
Proof.
  unfold WebhookRoute.with_number, WebhookRoute.insertWithNumber,
    WebhookRoute.orderNumberPayload, webhook_number.
  destruct missing, next as [n|]; try reflexivity.
  simpl. destruct (n =? 0); reflexivity.
Qed.

Lemma discipline_fields (full minimal : Payload) (v : option JVal)
  (ins : list (Payload * DbResult Row)) :
  field "order_number" full = v ->
  field "order_number" minimal = v ->
  insert_discipline full minimal ins ->
  forall p r, In (p, r) ins -> field "order_number" p = v.
Proof.
  intros Hf Hm Hd p r Hin.
  destruct ins as [|[p1 r1] [|[p2 r2] [|x rest]]]; simpl in *.
  - destruct Hin.
  - destruct Hin as [Hin | []]. injection Hin as <- <-.
    destruct r1; [subst p1 | destruct Hd as [-> _]]; exact Hf.
  - destruct r1; [destruct Hd|]. destruct Hd as (-> & -> & _).
    destruct Hin as [Hin | [Hin | []]]; injection Hin as <- <-; assumption.
  - destruct r1; destruct Hd.
Qed.

Lemma allocation_read_ok pre missing next data :
  allocation pre missing next -> In (DbOk data) (number_reads pre) ->
  missing = false /\ next = Some (next_order_number data).
Proof.
  unfold allocation. intros Ha Hin.
  destruct (number_reads pre) as [|[d|e] [|x rest]]; simpl in *; try tauto.
  - destruct Hin as [Hin | []]. injection Hin as <-. exact Ha.
  - destruct Hin as [Hin | []]. discriminate Hin.
Qed.

Lemma allocation_read_missing pre missing next e :
  allocation pre missing next -> In (DbErr e) (number_reads pre) ->
  isMissingColumnError (message e) = true ->
  missing = true /\ next = None.
Proof.
  unfold allocation. intros Ha Hin He.
  destruct (number_reads pre) as [|[d|e'] [|x rest]]; simpl in *; try tauto.
  - destruct Hin as [Hin | []]. discriminate Hin.
  - destruct Hin as [Hin | []]. injection Hin as <-.
    rewrite He in Ha. exact Ha.
Qed.

Section Numbers.

Context {S : Type} (W : Collab S) (s : S) (cfg : Config).

Lemma ensure_numbers req r :
  In r (number_reads (trace_of W s (EnsureRoute.POST cfg req))) ->
  exists missing next,
    order_inserts (trace_of W s (EnsureRoute.POST cfg req)) <> []
    /\ (forall p x, In (p, x) (order_inserts (trace_of W s (EnsureRoute.POST cfg req))) ->
          field "order_number" p
          = field "order_number" (EnsureRoute.orderNumberPayload missing next))
    /\ (forall data, r = DbOk data ->
          missing = false /\ next = Some (next_order_number data))
    /\ (forall e, r = DbErr e -> isMissingColumnError (message e) = true ->
          missing = true /\ next = None).
Proof.
  intros H.
  destruct (ensure_POST_run W s cfg req)
    as [(_ & Hn & _) | (pre & s' & sid & d & m & n & ss & Ht & _ & Hw & Ha & _)].
  - rewrite Hn in H. destruct H.
  - rewrite Ht, number_reads_app, ensure_insert_order_reads, app_nil_r in H.
    destruct (ensure_insert_order_discipline W s' sid d m n) as [Hne Hd].
    exists m, n. rewrite Ht, order_inserts_app, (writes_order_inserts _ Hw).
    simpl. split; [exact Hne|]. split; [|split].
    + apply (discipline_fields _ _ _ _ (ensure_full_number _ _ _)
               (ensure_minimal_number _ _ _) Hd).
    + intros data ->. exact (allocation_read_ok _ _ _ _ Ha H).
    + intros e -> He. exact (allocation_read_missing _ _ _ _ Ha H He).
Qed.

Lemma webhook_numbers req r :
  In r (number_reads (trace_of W s (WebhookRoute.POST cfg req))) ->
  exists missing next,
    order_inserts (trace_of W s (WebhookRoute.POST cfg req)) <> []
    /\ (forall p x, In (p, x) (order_inserts (trace_of W s (WebhookRoute.POST cfg req))) ->
          field "order_number" p = webhook_number missing next)
    /\ (forall data, r = DbOk data ->
          missing = false /\ next = Some (next_order_number data))
    /\ (forall e, r = DbErr e -> isMissingColumnError (message e) = true ->
          missing = true /\ next = None).
Proof.
  intros H.
  destruct (webhook_POST_run W s cfg req)
    as [(_ & Hn & _) | (pre & s' & ss & d & it & m & n & Ht & _ & Hw & Ha & _)].
  - rewrite Hn in H. destruct H.
  - rewrite Ht, number_reads_app in H.
    rewrite (proj2 (webhook_insert_order_reads W s' ss d it m n)), app_nil_r in H.
    destruct (webhook_insert_order_discipline W s' ss d it m n) as [Hne Hd].
    exists m, n. rewrite Ht, order_inserts_app, (writes_order_inserts _ Hw).
    simpl. split; [exact Hne|]. split; [|split].
    + apply (discipline_fields _ _ _ _ (webhook_full_number _ _ _ _)
               (webhook_minimal_number _ _ _ _) Hd).
    + intros data ->. exact (allocation_read_ok _ _ _ _ Ha H).
    + intros e -> He. exact (allocation_read_missing _ _ _ _ Ha H He).
Qed.

End Numbers.

Lemma store_insert_fresh (t : Store.Tables) (p : Payload) (sid : string) :
  Store.numbered t = false ->
  field "order_number" p = None ->
  field "stripe_session_id" p = Some (JStr sid) ->
  filter (Store.has_session sid) (Store.orders t) = [] ->
  Store.insert_order t p
  = (DbOk (mkRow (Store.new_id t) (("id", JStr (Store.new_id t)) :: p) []),
     Store.mkTables
       (Store.orders t ++ [mkRow (Store.new_id t) (("id", JStr (Store.new_id t)) :: p) []])
       (Store.order_items t) (Store.next_id t + 1) (Store.numbered t)).
Proof.
  intros Hn Hnum Hs Hf. unfold Store.insert_order. rewrite Hnum, Hs.
  assert (He : existsb (Store.has_session sid) (Store.orders t) = false).
  { induction (Store.orders t) as [|r l IH]; [reflexivity|].
    simpl in *. destruct (Store.has_session sid r); [discriminate Hf | exact (IH Hf)]. }
  rewrite He. reflexivity.
Qed.

Lemma store_reread (t' : Store.Tables) (l : list Row) (order : Row) :
  Store.pick Single
    (map (Store.project t' AllWithItems)
       (filter (Store.has_id (row_id order)) (l ++ [order])))
  = DbErr Store.no_single_row
  \/ exists returned,
      Store.pick Single
        (map (Store.project t' AllWithItems)
           (filter (Store.has_id (row_id order)) (l ++ [order])))
      = DbOk (Some returned)
      /\ row_cols returned = row_cols order.
Proof.
  rewrite filter_app. simpl.
  assert (Hself : Store.has_id (row_id order) order = true) by apply String.eqb_refl.
  rewrite Hself.
  destruct (filter (Store.has_id (row_id order)) l) as [|a [|b l']]; simpl.
  - right. eexists. split; reflexivity.
  - left. reflexivity.
  - left. destruct (l' ++ [order])%list; reflexivity.
Qed.

Section EnsureWithoutColumn.

Variables (t : Store.Tables) (cfg : Config) (sid : string) (session : Session)
  (d : EnsureRoute.Draft) (items : list LineItem) (rest : list Event) (x y : string).

Hypothesis Hn : Store.numbered t = false.
Hypothesis Hk : Js.truthy (STRIPE_SECRET_KEY cfg) = true.
Hypothesis Hs : Js.truthy sid = true.
Hypothesis Hf : filter (Store.has_session sid) (Store.orders t) = [].
Hypothesis Hp : not_paid session = false.
Hypothesis Hd : EnsureRoute.draft session = EnsureRoute.Accepted d.

Lemma ensure_creates_without_column :
  let script := EvRetrieveSession x (Returned session)
                :: EvListLineItems y (Returned items) :: rest in
  let run := EnsureRoute.POST cfg (EnsureRoute.mkRequest (Some sid)) in
  let r := result_of Store.collab (t, script) run in
  let t' := fst (state_after Store.collab (t, script) run) in
  status r = 200 /\ created_flag r = Some true
  /\ number_reads (trace_of Store.collab (t, script) run) = [DbErr Store.no_number_column]
  /\ exists order,
      Store.orders t' = (Store.orders t ++ [order])%list
      /\ field "order_number" (row_cols order) = None
      /\ Store.has_session sid order = true
      /\ exists returned subtotal,
          body r = BEnsured (Some returned) true subtotal
          /\ row_cols returned = row_cols order.
Proof.
  intros script run r t'. subst script run r t'.
  open EnsureRoute.POST. rewrite Hk. simpl. rewrite Hs. simpl. rewrite Hf. simpl.
  rewrite Hp, Hd.
  open EnsureRoute.allocate_number. rewrite Hn. simpl.
  open EnsureRoute.insert_order.
  rewrite (store_insert_fresh t
             (EnsureRoute.fullInsertPayload sid d (EnsureRoute.orderNumberPayload true None))
             sid Hn eq_refl eq_refl Hf). simpl.
  open EnsureRoute.after_insert; open EnsureRoute.insert_items; open EnsureRoute.reread.
  set (order := mkRow (Store.new_id t) _ []).
  assert (Hsess : Store.has_session sid order = true) by apply String.eqb_refl.
  destruct (0 <? _)%nat; simpl.
  all: match goal with
       | |- context [Store.pick Single
                       (map (Store.project ?t' AllWithItems)
                          (filter (Store.has_id _) (?l ++ [?o])%list))] =>
           destruct (store_reread t' l o) as [E | (ret & E & Hc)];
           change (row_id o) with (Store.new_id t) in E; rewrite E; simpl
       end.
  all: split; [reflexivity | split; [reflexivity | split; [reflexivity|]]].
  all: eexists; split; [reflexivity | split; [reflexivity | split; [exact Hsess|]]].
  all: do 2 eexists; split; [reflexivity | try reflexivity; try exact Hc].
Qed.

End EnsureWithoutColumn.

Section WebhookWithoutColumn.

Variables (t : Store.Tables) (cfg : Config) (req : WebhookRoute.Request)
  (ev : StripeEvent) (d : WebhookRoute.Draft) (items : list LineItem)
  (rest : list Event) (a b c y : string).

Hypothesis Hn : Store.numbered t = false.
Hypothesis Hk : Js.truthy (STRIPE_SECRET_KEY cfg) = true.
Hypothesis Hw : Js.truthy (STRIPE_WEBHOOK_SECRET cfg) = true.
Hypothesis Hsig : present (WebhookRoute.stripe_signature req) = true.
Hypothesis Hty : event_type ev = "checkout.session.completed".
Hypothesis Hp : not_paid (event_session ev) = false.
Hypothesis Hd : WebhookRoute.draft (event_session ev) = WebhookRoute.Accepted d.
Hypothesis Hcart : meta (event_session ev) "items" = None.
Hypothesis Hf :
  filter (Store.has_session (session_id (event_session ev))) (Store.orders t) = [].

Lemma webhook_creates_without_column :
  let script := EvConstructEvent a b c (Returned ev)
                :: EvListLineItems y (Returned items) :: rest in
  let run := WebhookRoute.POST cfg req in
  let t' := fst (state_after Store.collab (t, script) run) in
  result_of Store.collab (t, script) run = json (BReceived None) 200
  /\ number_reads (trace_of Store.collab (t, script) run) = []
  /\ exists order,
      Store.orders t' = (Store.orders t ++ [order])%list
      /\ field "order_number" (row_cols order) = None
      /\ Store.has_session (session_id (event_session ev)) order = true.
Proof.
  intros script run t'. subst script run t'.
  open WebhookRoute.POST. rewrite Hk, Hw, Hsig. simpl. rewrite Hty. simpl.
  open WebhookRoute.completed. rewrite Hp, Hd. simpl.
  open WebhookRoute.load_items. rewrite Hcart.
  open WebhookRoute.rebuild_items.
  open WebhookRoute.check_existing. rewrite Hn. simpl. rewrite Hf. simpl.
  open WebhookRoute.skip_existing; open WebhookRoute.allocate_number.
  open WebhookRoute.insert_order.
  rewrite (store_insert_fresh t
             (WebhookRoute.with_number
                (WebhookRoute.fullInsertPayload (event_session ev) d) true None)
             (session_id (event_session ev)) Hn eq_refl eq_refl Hf). simpl.
  open WebhookRoute.after_insert; open WebhookRoute.insert_items.
  split; [reflexivity | split; [reflexivity|]].
  eexists. split; [reflexivity | split; [reflexivity | apply String.eqb_refl]].
Qed.

End WebhookWithoutColumn.

Section NumbersWebhook.

Context {S : Type} (W : Collab S) (s : S) (cfg : Config).

Lemma webhook_numbers_unread req e :
  hd_error (lookups (trace_of W s (WebhookRoute.POST cfg req))) = Some (DbErr e) ->
  isMissingColumnError (message e) = true ->
  (forall o, ~ In (DbOk (Some o)) (lookups (trace_of W s (WebhookRoute.POST cfg req)))) ->
  number_reads (trace_of W s (WebhookRoute.POST cfg req)) = []
  /\ order_inserts (trace_of W s (WebhookRoute.POST cfg req)) <> []
  /\ forall p x,
      In (p, x) (order_inserts (trace_of W s (WebhookRoute.POST cfg req))) ->
      field "order_number" p = None.
Proof.
  intros Hl He Hno.
  assert (Hne : lookups (trace_of W s (WebhookRoute.POST cfg req)) <> [])
    by (intros E; rewrite E in Hl; discriminate Hl).
  destruct (webhook_creation_reached W s cfg req Hne Hno)
    as (pre & s' & ev & d & it & m & n & Ht & _ & Hw & Ha & _ & _ & Hskip).
  destruct (webhook_insert_order_reads W s' (event_session ev) d it m n) as [Hlt Hnt].
  rewrite Ht, lookups_app, Hlt, app_nil_r in Hl.
  pose proof (Hskip e Hl He) as Hnr.
  unfold allocation in Ha. rewrite Hnr in Ha. destruct Ha as [-> ->].
  destruct (webhook_insert_order_discipline W s' (event_session ev) d it true None)
    as [Hmade Hd].
  rewrite Ht, number_reads_app, Hnr, Hnt, order_inserts_app, (writes_order_inserts _ Hw).
  simpl. split; [reflexivity|]. split; [exact Hmade|].
  apply (discipline_fields _ _ _ _ (webhook_full_number _ _ _ _)
           (webhook_minimal_number _ _ _ _) Hd).
Qed.

End NumbersWebhook.

(** C5 (as amended).  When the read of the last order number succeeds,
    the next number is 1000 if there is no row, if the row's number is
    null or if it is 0, and the number read plus 1 otherwise, for a
    number below 2^53 in magnitude; every order insert of the run
    carries it (the webhook leaves a number 0 out).  When the numbering
    column is unavailable (the read fails with a missing-column error
    or, in the webhook, the existence check already did and the read is
    skipped), no number is allocated and the order insert is made all
    the same, without an [order_number]; on the in-memory store without
    the column the creation succeeds: the order is stored without a
    number and the route answers 200, the ensure route with the order
    and [created = true]. *)
Theorem C5_order_number_allocation :
  (next_order_number None = 1000
   /\ next_order_number (Some None) = 1000
   /\ next_order_number (Some (Some 0)) = 1000
   /\ forall n, n <> 0 -> - 2 ^ 53 < n < 2 ^ 53 ->
                next_order_number (Some (Some n)) = n + 1)
  /\ (forall (S : Type) (W : Collab S) (s : S) (cfg : Config),
      (forall req data,
          In (DbOk data) (number_reads (trace_of W s (EnsureRoute.POST cfg req))) ->
          order_inserts (trace_of W s (EnsureRoute.POST cfg req)) <> []
          /\ forall p x,
              In (p, x) (order_inserts (trace_of W s (EnsureRoute.POST cfg req))) ->
              field "order_number" p = Some (JInt (next_order_number data)))
      /\ (forall req data,
          In (DbOk data) (number_reads (trace_of W s (WebhookRoute.POST cfg req))) ->
          order_inserts (trace_of W s (WebhookRoute.POST cfg req)) <> []
          /\ forall p x,
              In (p, x) (order_inserts (trace_of W s (WebhookRoute.POST cfg req))) ->
              field "order_number" p
              = if next_order_number data =? 0 then None
                else Some (JInt (next_order_number data)))
      /\ (forall req e,
          In (DbErr e) (number_reads (trace_of W s (EnsureRoute.POST cfg req))) ->
          isMissingColumnError (message e) = true ->
          order_inserts (trace_of W s (EnsureRoute.POST cfg req)) <> []
          /\ forall p x,
              In (p, x) (order_inserts (trace_of W s (EnsureRoute.POST cfg req))) ->
              field "order_number" p = None)
      /\ (forall req e,
          In (DbErr e) (number_reads (trace_of W s (WebhookRoute.POST cfg req))) ->
          isMissingColumnError (message e) = true ->
          order_inserts (trace_of W s (WebhookRoute.POST cfg req)) <> []
          /\ forall p x,
              In (p, x) (order_inserts (trace_of W s (WebhookRoute.POST cfg req))) ->
              field "order_number" p = None)
      /\ (forall req e,
          hd_error (lookups (trace_of W s (WebhookRoute.POST cfg req))) = Some (DbErr e) ->
          isMissingColumnError (message e) = true ->
          (forall o, ~ In (DbOk (Some o))
                        (lookups (trace_of W s (WebhookRoute.POST cfg req)))) ->
          number_reads (trace_of W s (WebhookRoute.POST cfg req)) = []
          /\ order_inserts (trace_of W s (WebhookRoute.POST cfg req)) <> []
          /\ forall p x,
              In (p, x) (order_inserts (trace_of W s (WebhookRoute.POST cfg req))) ->
              field "order_number" p = None))
  /\ (forall (t : Store.Tables) (cfg : Config) (sid : string) (session : Session)
             (d : EnsureRoute.Draft) (items : list LineItem) (rest : list Event)
             (x y : string),
      Store.numbered t = false ->
      Js.truthy (STRIPE_SECRET_KEY cfg) = true ->
      Js.truthy sid = true ->
      filter (Store.has_session sid) (Store.orders t) = [] ->
      not_paid session = false ->
      EnsureRoute.draft session = EnsureRoute.Accepted d ->
      let script := EvRetrieveSession x (Returned session)
                    :: EvListLineItems y (Returned items) :: rest in
      let run := EnsureRoute.POST cfg (EnsureRoute.mkRequest (Some sid)) in
      let r := result_of Store.collab (t, script) run in
      let t' := fst (state_after Store.collab (t, script) run) in
      status r = 200 /\ created_flag r = Some true
      /\ number_reads (trace_of Store.collab (t, script) run)
         = [DbErr Store.no_number_column]
      /\ exists order,
          Store.orders t' = (Store.orders t ++ [order])%list
          /\ field "order_number" (row_cols order) = None
          /\ Store.has_session sid order = true
          /\ exists returned subtotal,
              body r = BEnsured (Some returned) true subtotal
              /\ row_cols returned = row_cols order)
  /\ (forall (t : Store.Tables) (cfg : Config) (req : WebhookRoute.Request)
             (ev : StripeEvent) (d : WebhookRoute.Draft) (items : list LineItem)
             (rest : list Event) (a b c y : string),
      Store.numbered t = false ->
      Js.truthy (STRIPE_SECRET_KEY cfg) = true ->
      Js.truthy (STRIPE_WEBHOOK_SECRET cfg) = true ->
      present (WebhookRoute.stripe_signature req) = true ->
      event_type ev = "checkout.session.completed" ->
      not_paid (event_session ev) = false ->
      WebhookRoute.draft (event_session ev) = WebhookRoute.Accepted d ->
      meta (event_session ev) "items" = None ->
      filter (Store.has_session (session_id (event_session ev))) (Store.orders t) = [] ->
      let script := EvConstructEvent a b c (Returned ev)
                    :: EvListLineItems y (Returned items) :: rest in
      let run := WebhookRoute.POST cfg req in
      let t' := fst (state_after Store.collab (t, script) run) in
      result_of Store.collab (t, script) run = json (BReceived None) 200
      /\ number_reads (trace_of Store.collab (t, script) run) = []
      /\ exists order,
          Store.orders t' = (Store.orders t ++ [order])%list
          /\ field "order_number" (row_cols order) = None
          /\ Store.has_session (session_id (event_session ev)) order = true).
Proof.
  split; [|split; [|split]].
  - repeat split; try reflexivity.
    intros n Hn Hb. unfold next_order_number.
    destruct (Z.eqb_spec n 0); [contradiction | apply add_one_exact; assumption].
  - intros S W s cfg. repeat apply conj.
    + intros req data H.
      destruct (ensure_numbers W s cfg req _ H) as (m & n & Hne & Hf & Hok & _).
      destruct (Hok data eq_refl) as [-> ->]. split; [exact Hne | exact Hf].
    + intros req data H.
      destruct (webhook_numbers W s cfg req _ H) as (m & n & Hne & Hf & Hok & _).
      destruct (Hok data eq_refl) as [-> ->]. split; [exact Hne | exact Hf].
    + intros req e H He.
      destruct (ensure_numbers W s cfg req _ H) as (m & n & Hne & Hf & _ & Hmiss).
      destruct (Hmiss e eq_refl He) as [-> ->]. split; [exact Hne | exact Hf].
    + intros req e H He.
      destruct (webhook_numbers W s cfg req _ H) as (m & n & Hne & Hf & _ & Hmiss).
      destruct (Hmiss e eq_refl He) as [-> ->]. split; [exact Hne | exact Hf].
    + intros req e. apply webhook_numbers_unread.
  - intros t cfg sid session d items rest x y Hn Hk Hs Hf Hp Hd.
    exact (ensure_creates_without_column t cfg sid session d items rest x y
             Hn Hk Hs Hf Hp Hd).
  - intros t cfg req ev d items rest a b c y Hn Hk Hw Hsig Hty Hp Hd Hcart Hf.
    exact (webhook_creates_without_column t cfg req ev d items rest a b c y
             Hn Hk Hw Hsig Hty Hp Hd Hcart Hf).
Qed.

(** C5, the claim as stated fails: the store's last order number is 0,
    a maximum that exists, and the order is inserted with the number
    1000, not 0 + 1.  (And from 2^53 on the sum of a number and 1 is no
    longer the next integer.) *)
Lemma C5_counterexample_zero_is_taken_for_none :
  let world :=
    (Sample.tables_with [Sample.earlier 0],
     [Sample.retrieved Sample.paid; Sample.listed [Sample.kabob]]) in
  let tr := trace_of Store.collab world (EnsureRoute.POST Sample.cfg Sample.ensure_request) in
  number_reads tr = [DbOk (Some (Some 0))]
  /\ map (fun ins => field "order_number" (fst ins)) (order_inserts tr)
     = [Some (JInt 1000)]
  /\ JInt 1000 <> JInt (0 + 1)
  /\ next_order_number (Some (Some (2 ^ 53))) <> 2 ^ 53 + 1.
Proof. vm_compute. repeat split; try reflexivity; discriminate. Qed.

(** C5 on the in-memory store, with and without the numbering column,
    in both routes. *)
Lemma C5_witness :
  let listing := [Sample.retrieved Sample.paid; Sample.listed [Sample.kabob]] in
  let delivery := [Sample.delivered Sample.paid; Sample.listed [Sample.kabob]] in
  let numbered := Sample.tables_with [Sample.earlier 1041] in
  let unnumbered := Sample.empty_tables false in
  let ensure := EnsureRoute.POST Sample.cfg Sample.ensure_request in
  let webhook := WebhookRoute.POST Sample.cfg Sample.webhook_request in
  next_order_number (Some (Some 1041)) = 1042
  /\ map (fun ins => field "order_number" (fst ins))
       (order_inserts (trace_of Store.collab (numbered, listing) ensure))
     = [Some (JInt 1042)]
  /\ map (fun ins => field "order_number" (fst ins))
       (order_inserts (trace_of Store.collab (numbered, delivery) webhook))
     = [Some (JInt 1042)]
  /\ (created_flag (result_of Store.collab (unnumbered, listing) ensure) = Some true
      /\ map (fun r => field "order_number" (row_cols r))
           (Store.orders (fst (state_after Store.collab (unnumbered, listing) ensure)))
         = [None])
  /\ (result_of Store.collab (unnumbered, delivery) webhook = json (BReceived None) 200
      /\ number_reads (trace_of Store.collab (unnumbered, delivery) webhook) = []
      /\ map (fun ins => field "order_number" (fst ins))
           (order_inserts (trace_of Store.collab (unnumbered, delivery) webhook))
         = [None]
      /\ map (fun r => field "order_number" (row_cols r))
           (Store.orders (fst (state_after Store.collab (unnumbered, delivery) webhook)))
         = [None]).
Proof.
  intros listing delivery numbered unnumbered ensure webhook.
  subst ensure webhook.
  destruct C5_order_number_allocation as (Hnext & H & Hens & Hweb).
  destruct Hnext as (_ & _ & _ & Hplus).
  destruct (H _ Store.collab (numbered, listing) Sample.cfg) as (Hok & _).
  destruct (H _ Store.collab (numbered, delivery) Sample.cfg) as (_ & Hwok & _).
  destruct (H _ Store.collab (unnumbered, delivery) Sample.cfg) as (_ & _ & _ & _ & Hskip).
  split; [apply Hplus; lia|].
  split.
  { destruct (Hok Sample.ensure_request (Some (Some 1041))) as [_ Hall].
    - vm_compute. left. reflexivity.
    - destruct (order_inserts _) as [|[p x] [|q l]] eqn:E;
        try (vm_compute in E; discriminate E).
      simpl. rewrite (Hall p x (or_introl eq_refl)).
      rewrite (Hplus 1041) by lia. reflexivity. }
  split.
  { destruct (Hwok Sample.webhook_request (Some (Some 1041))) as [_ Hall].
    - vm_compute. left. reflexivity.
    - destruct (order_inserts _) as [|[p x] [|q l]] eqn:E;
        try (vm_compute in E; discriminate E).
      simpl. rewrite (Hall p x (or_introl eq_refl)).
      rewrite (Hplus 1041) by lia. reflexivity. }
  split.
  { destruct (Hens unnumbered Sample.cfg "sess_123" Sample.paid
                (match EnsureRoute.draft Sample.paid with
                 | EnsureRoute.Accepted d => d
                 | EnsureRoute.Rejected _ => EnsureRoute.mkDraft "" "" "" "" "" "" 0 0 0 0 0
                 end)
                [Sample.kabob] [] "" "")
      as (_ & Hc & _ & order & Ho & Hnum & _); try (vm_compute; reflexivity).
    split; [exact Hc|].
    assert (Ho' : Store.orders
                    (fst (state_after Store.collab (unnumbered, listing)
                            (EnsureRoute.POST Sample.cfg Sample.ensure_request)))
                  = [order]) by exact Ho.
    rewrite Ho'. simpl. rewrite Hnum. reflexivity. }
  destruct (Hweb unnumbered Sample.cfg Sample.webhook_request
              (mkStripeEvent "checkout.session.completed" Sample.paid)
              (match WebhookRoute.draft Sample.paid with
               | WebhookRoute.Accepted d => d
               | WebhookRoute.Rejected _ =>
                   WebhookRoute.mkDraft "" "" "" None None None 0 0 0 0 0 0
               end)
              [Sample.kabob] [] "" "" "" "")
    as (Hr & Hnr & order & Ho & Hnum & _); try (vm_compute; reflexivity).
  split; [exact Hr|]. split; [exact Hnr|].
  destruct (Hskip Sample.webhook_request Store.no_number_column) as (_ & _ & Hall).
  { vm_compute. reflexivity. }
  { vm_compute. reflexivity. }
  { intros o Ho'. vm_compute in Ho'. repeat (destruct Ho' as [Ho' | Ho']; try discriminate Ho').
    exact Ho'. }
  split.
  - destruct (order_inserts _) as [|[p x] [|q l]] eqn:E;
      try (vm_compute in E; discriminate E).
    simpl. rewrite (Hall p x (or_introl eq_refl)). reflexivity.
  - assert (Ho' : Store.orders
                    (fst (state_after Store.collab (unnumbered, delivery)
                            (WebhookRoute.POST Sample.cfg Sample.webhook_request)))
                  = [order]) by exact Ho.
    rewrite Ho'. simpl. rewrite Hnum. reflexivity.
Defined.

Lemma ensure_minimal_strict_subset sid d missing next :
  strict_subset
    (EnsureRoute.minimalInsertPayload sid d (EnsureRoute.orderNumberPayload missing next))
    (EnsureRoute.fullInsertPayload sid d (EnsureRoute.orderNumberPayload missing next)).
Proof.
  split.
  - intros x H. unfold EnsureRoute.minimalInsertPayload in H.
    unfold EnsureRoute.fullInsertPayload.
    apply in_app_iff in H. apply in_app_iff.
    destruct H as [H | H]; [left | right; exact H].
    simpl in *. intuition.
  - exists "customer_first_name". split.
    + simpl. right. left. reflexivity.
    + unfold keys, EnsureRoute.minimalInsertPayload, EnsureRoute.orderNumberPayload.
      destruct next as [n|], missing; simpl; intuition discriminate.
Qed.

Lemma webhook_minimal_strict_subset session d missing next :
  strict_subset
    (WebhookRoute.with_number (WebhookRoute.minimalInsertPayload session d) missing next)
    (WebhookRoute.with_number (WebhookRoute.fullInsertPayload session d) missing next).
Proof.
  unfold WebhookRoute.with_number. split.
  - intros x H.
    destruct (WebhookRoute.insertWithNumber missing next).
    + apply in_app_iff in H. apply in_app_iff.
      destruct H as [H | H]; [left | right; exact H].
      unfold WebhookRoute.minimalInsertPayload in H.
      unfold WebhookRoute.fullInsertPayload. simpl in *. intuition.
    + unfold WebhookRoute.minimalInsertPayload in H.
      unfold WebhookRoute.fullInsertPayload. simpl in *. intuition.
  - exists "customer_first_name". split.
    + destruct (WebhookRoute.insertWithNumber missing next); simpl; right; left; reflexivity.
    + unfold keys, WebhookRoute.minimalInsertPayload, WebhookRoute.orderNumberPayload.
      destruct (WebhookRoute.insertWithNumber missing next);
        destruct next as [n|], missing; simpl;
        try destruct (n =? 0); simpl; intuition discriminate.
Qed.

Lemma after_last_insert_incl (e : Event) (tr : list Event) :
  In e (after_last_insert tr) -> In e tr.
Proof.
  induction tr as [|x tr IH]; simpl; [tauto|].
  destruct (existsb is_order_insert tr).
  - intros H. right. exact (IH H).
  - destruct (is_order_insert x); [intros H; right; exact H | intros []].
Qed.

(** C6.  The heuristic holds of a message exactly when it contains,
    letter case apart, "column" and "does not exist", or "could not
    find", or "schema cache".  A run that comes to create the order (the
    ensure route: its look-up found nothing and the session retrieved
    is paid with an accepted draft; the webhook: its existence check
    ran and found no order) makes an order insert, with the full field
    set first.  A second insert is made exactly when the first reply is
    an error of which the heuristic holds; it is made once, with the
    minimal field set, whose fields are fields of the full set, the
    full set having a column more.  An insert error that remains is
    passed on: the ensure route answers 500 with its message unless the
    second look-up finds the order, the webhook logs it and answers
    500. *)
Theorem C6_full_insert_then_one_minimal_retry :
  (forall msg, isMissingColumnError msg = true <-> Spec.unknown_column msg)
  /\ forall (S : Type) (W : Collab S) (s : S) (cfg : Config),
      (forall req,
          order_inserts (trace_of W s (EnsureRoute.POST cfg req)) = []
          \/ exists sid d missing next,
              let number := EnsureRoute.orderNumberPayload missing next in
              let full := EnsureRoute.fullInsertPayload sid d number in
              let minimal := EnsureRoute.minimalInsertPayload sid d number in
              strict_subset minimal full
              /\ insert_discipline full minimal
                   (order_inserts (trace_of W s (EnsureRoute.POST cfg req))))
      /\ (forall req,
          order_inserts (trace_of W s (WebhookRoute.POST cfg req)) = []
          \/ exists session d missing next,
              let full :=
                WebhookRoute.with_number (WebhookRoute.fullInsertPayload session d)
                  missing next in
              let minimal :=
                WebhookRoute.with_number (WebhookRoute.minimalInsertPayload session d)
                  missing next in
              strict_subset minimal full
              /\ insert_discipline full minimal
                   (order_inserts (trace_of W s (WebhookRoute.POST cfg req))))
      /\ (forall req session d,
          hd_error (lookups (trace_of W s (EnsureRoute.POST cfg req))) = Some (DbOk None) ->
          hd_error (retrieved (trace_of W s (EnsureRoute.POST cfg req)))
          = Some (Returned session) ->
          not_paid session = false ->
          EnsureRoute.draft session = EnsureRoute.Accepted d ->
          exists missing next,
            let number := EnsureRoute.orderNumberPayload missing next in
            order_inserts (trace_of W s (EnsureRoute.POST cfg req)) <> []
            /\ insert_discipline
                 (EnsureRoute.fullInsertPayload (sessionId_of req) d number)
                 (EnsureRoute.minimalInsertPayload (sessionId_of req) d number)
                 (order_inserts (trace_of W s (EnsureRoute.POST cfg req))))
      /\ (forall req,
          lookups (trace_of W s (WebhookRoute.POST cfg req)) <> [] ->
          (forall o, ~ In (DbOk (Some o))
                        (lookups (trace_of W s (WebhookRoute.POST cfg req)))) ->
          exists ev d missing next,
            hd_error (verified (trace_of W s (WebhookRoute.POST cfg req)))
            = Some (Returned ev)
            /\ WebhookRoute.draft (event_session ev) = WebhookRoute.Accepted d
            /\ order_inserts (trace_of W s (WebhookRoute.POST cfg req)) <> []
            /\ insert_discipline
                 (WebhookRoute.with_number
                    (WebhookRoute.fullInsertPayload (event_session ev) d) missing next)
                 (WebhookRoute.with_number
                    (WebhookRoute.minimalInsertPayload (event_session ev) d) missing next)
                 (order_inserts (trace_of W s (WebhookRoute.POST cfg req))))
      /\ (forall req p e,
          last_insert (trace_of W s (EnsureRoute.POST cfg req)) = Some (p, DbErr e) ->
          (exists o, result_of W s (EnsureRoute.POST cfg req) = found o)
          \/ result_of W s (EnsureRoute.POST cfg req)
             = json (BError (Js.or_else (message e) "Failed to ensure order")) 500)
      /\ (forall req p e,
          last_insert (trace_of W s (WebhookRoute.POST cfg req)) = Some (p, DbErr e) ->
          In (EvConsole LogError "Error processing webhook:" (message e))
            (trace_of W s (WebhookRoute.POST cfg req))
          /\ result_of W s (WebhookRoute.POST cfg req)
             = json (BError "Failed to process order") 500).
Proof.
  split; [exact isMissingColumnError_unknown_column|].
  intros S W s cfg. repeat apply conj.
  - intros req.
    destruct (ensure_POST_run W s cfg req)
      as [(Hw & _) | (pre & s' & sid & d & m & n & ss & Ht & _ & Hw & _)].
    + left. exact (writes_order_inserts _ Hw).
    + right. exists sid, d, m, n. split; [apply ensure_minimal_strict_subset|].
      rewrite Ht, order_inserts_app, (writes_order_inserts _ Hw).
      exact (proj2 (ensure_insert_order_discipline W s' sid d m n)).
  - intros req.
    destruct (webhook_POST_run W s cfg req)
      as [(Hw & _) | (pre & s' & ss & d & it & m & n & Ht & _ & Hw & _)].
    + left. exact (writes_order_inserts _ Hw).
    + right. exists ss, d, m, n. split; [apply webhook_minimal_strict_subset|].
      rewrite Ht, order_inserts_app, (writes_order_inserts _ Hw).
      exact (proj2 (webhook_insert_order_discipline W s' ss d it m n)).
  - intros req session d Hl Hr Hnp Hd.
    destruct (ensure_creation_reached W s cfg req session d Hl Hr Hnp Hd)
      as (pre & s' & m & n & Ht & _ & Hw & _).
    exists m, n. simpl.
    rewrite Ht, order_inserts_app, (writes_order_inserts _ Hw).
    exact (ensure_insert_order_discipline W s' (sessionId_of req) d m n).
  - intros req Hne Hno.
    destruct (webhook_creation_reached W s cfg req Hne Hno)
      as (pre & s' & ev & d & it & m & n & Ht & _ & Hw & _ & Hv & Hd & _).
    exists ev, d, m, n.
    rewrite Ht, verified_app, order_inserts_app, (writes_order_inserts _ Hw).
    split; [destruct (verified pre); [discriminate Hv | exact Hv]|].
    split; [exact Hd|].
    exact (webhook_insert_order_discipline W s' (event_session ev) d it m n).
  - intros req p e H.
    destruct (ensure_POST_run W s cfg req)
      as [(Hw & _) | (pre & s' & sid & d & m & n & ss & Ht & Hr & Hw & _)].
    + rewrite (no_write_no_insert _ Hw) in H. discriminate H.
    + rewrite Ht, last_insert_app in H by exact (writes_order_inserts _ Hw).
      destruct (ensure_insert_failure W s' sid d m n p e H) as (retry & _ & Hres).
      rewrite Hr, Hres.
      destruct retry as [[o|]|e']; simpl; eauto.
  - intros req p e H.
    destruct (webhook_POST_run W s cfg req)
      as [(Hw & _) | (pre & s' & ss & d & it & m & n & Ht & Hr & Hw & _)].
    + rewrite (no_write_no_insert _ Hw) in H. discriminate H.
    + pose proof (writes_order_inserts _ Hw) as Hi.
      rewrite Ht, last_insert_app in H by exact Hi.
      destruct (webhook_insert_failure W s' ss d it m n p e H) as [Hres Haft].
      split; [|rewrite Hr; exact Hres].
      rewrite Ht. apply in_or_app. right.
      apply after_last_insert_incl. rewrite Haft. left. reflexivity.
Qed.
(** C6 on scripted replies: a missing column reported in capitals, then
    a time-out, in both routes. *)
Lemma C6_witness :
  let script :=
    [ EvCreateServerClient (Returned tt);
      EvSelectOrderBySession AllWithItems "" MaybeSingle (DbOk None);
      Sample.retrieved Sample.paid;
      EvSelectLastOrderNumber (DbOk None);
      EvInsertOrder [] (DbErr Sample.shouted);
      EvInsertOrder [] (DbErr Sample.timeout);
      EvSelectOrderBySession AllWithItems "" MaybeSingle (DbOk None) ] in
  let wscript :=
    [ Sample.delivered Sample.paid;
      EvCreateServerClient (Returned tt);
      Sample.listed [Sample.kabob];
      EvSelectOrderBySession IdAndOrderNumber "" Single (DbErr Sample.no_row);
      EvSelectLastOrderNumber (DbOk None);
      EvInsertOrder [] (DbErr Sample.shouted);
      EvInsertOrder [] (DbErr Sample.timeout) ] in
  let ensure := EnsureRoute.POST Sample.cfg Sample.ensure_request in
  let webhook := WebhookRoute.POST Sample.cfg Sample.webhook_request in
  Spec.unknown_column (message Sample.shouted)
  /\ ~ Spec.unknown_column (message Sample.timeout)
  /\ (order_inserts (trace_of Replay.collab script ensure) <> []
      /\ map (fun ins => (List.length (fst ins), snd ins))
           (order_inserts (trace_of Replay.collab script ensure))
         = [(13%nat, DbErr Sample.shouted); (8%nat, DbErr Sample.timeout)]
      /\ result_of Replay.collab script ensure
         = json (BError "upstream request timeout") 500)
  /\ (order_inserts (trace_of Replay.collab wscript webhook) <> []
      /\ map (fun ins => (List.length (fst ins), snd ins))
           (order_inserts (trace_of Replay.collab wscript webhook))
         = [(13%nat, DbErr Sample.shouted); (8%nat, DbErr Sample.timeout)]
      /\ result_of Replay.collab wscript webhook
         = json (BError "Failed to process order") 500).
Proof.
  intros script wscript ensure webhook.
  destruct C6_full_insert_then_one_minimal_retry as [Hspec H].
  destruct (H _ Replay.collab script Sample.cfg) as (_ & _ & Hmade & _ & He & _).
  destruct (H _ Replay.collab wscript Sample.cfg) as (_ & _ & _ & Hwmade & _ & Hw).
  split; [apply Hspec; vm_compute; reflexivity|].
  split; [intros Hu; apply Hspec in Hu; vm_compute in Hu; discriminate Hu|].
  split.
  - destruct (Hmade Sample.ensure_request Sample.paid
                (match EnsureRoute.draft Sample.paid with
                 | EnsureRoute.Accepted d => d
                 | EnsureRoute.Rejected _ => EnsureRoute.mkDraft "" "" "" "" "" "" 0 0 0 0 0
                 end))
      as (m & n & Hne & _); try (vm_compute; reflexivity).
    split; [exact Hne|]. split; [vm_compute; reflexivity|].
    destruct (He Sample.ensure_request
                (match last_insert (trace_of Replay.collab script ensure) with
                 | Some (p, _) => p
                 | None => []
                 end)
                Sample.timeout) as [[o Ho] | Hr].
    + vm_compute. reflexivity.
    + vm_compute in Ho. discriminate Ho.
    + exact Hr.
  - destruct (Hwmade Sample.webhook_request) as (ev & d & m & n & _ & _ & Hne & _).
    + vm_compute. discriminate.
    + intros o Ho. vm_compute in Ho. destruct Ho as [Ho | []]. discriminate Ho.
    + split; [exact Hne|]. split; [vm_compute; reflexivity|].
      destruct (Hw Sample.webhook_request
                  (match last_insert (trace_of Replay.collab wscript webhook) with
                   | Some (p, _) => p
                   | None => []
                   end)
                  Sample.timeout) as [_ Hr].
      * vm_compute. reflexivity.
      * exact Hr.
Defined.

Lemma replace_non_digits_filter (s : string) :
  list_ascii_of_string (Js.replace_non_digits s)
  = filter Js.is_digit (list_ascii_of_string s).
Proof.
  induction s as [|c s IH]; [reflexivity|].
  simpl. destruct (Js.is_digit c); simpl; rewrite IH; reflexivity.
Qed.

Lemma ensure_draft_phone session d :
  EnsureRoute.draft session = EnsureRoute.Accepted d ->
  EnsureRoute.customerPhoneDigits d = Js.replace_non_digits (EnsureRoute.customerPhone session)
  /\ (10 <= String.length (EnsureRoute.customerPhoneDigits d))%nat.
Proof.
  unfold EnsureRoute.draft.
  destruct (negb _ || negb _); [discriminate|].
  destruct (Nat.ltb_spec
              (String.length (Js.replace_non_digits (EnsureRoute.customerPhone session))) 10);
    [discriminate|].
  intros Hd. injection Hd as <-. simpl. split; [reflexivity | assumption].
Qed.

(** The phone the webhook works with (line 79). *)
Lemma webhook_draft_phone session d :
  WebhookRoute.draft session = WebhookRoute.Accepted d ->
  WebhookRoute.normalizedCustomerPhone d
  = Js.replace_non_digits (Js.opt_or (meta session "customer_phone") "")
  /\ (10 <= String.length (WebhookRoute.normalizedCustomerPhone d))%nat.
Proof.
  unfold WebhookRoute.draft.
  destruct (meta session "customer_name") as [name|]; [|discriminate].
  destruct (meta session "customer_phone") as [phone|]; [|discriminate].
  destruct (Js.truthy name) eqn:Hn; [|discriminate].
  destruct (Js.truthy phone) eqn:Hp; [|discriminate].
  simpl.
  destruct (Nat.ltb_spec (String.length (Js.replace_non_digits phone)) 10);
    [discriminate|].
  intros Hd. injection Hd as <-. simpl. unfold Js.or_else. rewrite Hp.
  split; [reflexivity | assumption].
Qed.

Lemma ensure_short_phone_run {S : Type} (W : Collab S) s cfg req session :
  hd_error (retrieved (trace_of W s (EnsureRoute.POST cfg req))) = Some (Returned session) ->
  (String.length (Js.replace_non_digits (EnsureRoute.customerPhone session)) < 10)%nat ->
  (exists error, result_of W s (EnsureRoute.POST cfg req) = json (BError error) 400)
  /\ writes (trace_of W s (EnsureRoute.POST cfg req)) = [].
Proof.
  open EnsureRoute.POST; open EnsureRoute.caught.
  walk.
  all: intros H Hlen; try discriminate H.
  all: injection H as <-.
  all: try (split; [eexists; reflexivity | reflexivity]).
  all: match goal with
       | E : EnsureRoute.draft _ = EnsureRoute.Accepted _ |- _ =>
           destruct (ensure_draft_phone _ _ E) as [Heq Hge]; rewrite Heq in Hge; lia
       end.
Qed.

Lemma webhook_short_phone_run {S : Type} (W : Collab S) s cfg req ev :
  hd_error (verified (trace_of W s (WebhookRoute.POST cfg req))) = Some (Returned ev) ->
  event_type ev = "checkout.session.completed" ->
  (String.length
     (Js.replace_non_digits (Js.opt_or (meta (event_session ev) "customer_phone") ""))
   < 10)%nat ->
  result_of W s (WebhookRoute.POST cfg req)
  = (if not_paid (event_session ev) then json (BReceived None) 200
     else json (BError "Failed to process order") 500)
  /\ writes (trace_of W s (WebhookRoute.POST cfg req)) = [].
Proof.
  open WebhookRoute.POST; open WebhookRoute.completed; open WebhookRoute.caught.
  walk.
  all: intros H Hty Hlen; try discriminate H.
  all: injection H as <-.
  all: try match goal with
       | E : not_paid _ = _ |- _ => rewrite E
       end.
  all: try (split; reflexivity).
  all: try match goal with
       | E : (event_type _ =? _)%string = false |- _ =>
           rewrite Hty, String.eqb_refl in E; discriminate E
       end.
  all: match goal with
       | E : WebhookRoute.draft _ = WebhookRoute.Accepted _ |- _ =>
           destruct (webhook_draft_phone _ _ E) as [Heq Hge]; rewrite Heq in Hge; lia
       end.
Qed.

(** C7.  Normalising a phone keeps its digits, in order, and drops
    every other character; "(555) 123-4567" becomes "5551234567".  A
    session whose phone has fewer than 10 digits leads to no write in
    either route: the ensure route answers status 400, the webhook
    status 500 (or, for an unpaid session, its plain acknowledgement). *)
Theorem C7_phone_digits_required :
  Js.replace_non_digits "(555) 123-4567" = "5551234567"
  /\ (forall phone,
        list_ascii_of_string (Js.replace_non_digits phone)
        = filter Js.is_digit (list_ascii_of_string phone))
  /\ forall (S : Type) (W : Collab S) (s : S) (cfg : Config),
      (forall req session,
          hd_error (retrieved (trace_of W s (EnsureRoute.POST cfg req)))
          = Some (Returned session) ->
          (String.length (Js.replace_non_digits (EnsureRoute.customerPhone session))
           < 10)%nat ->
          (exists error,
              result_of W s (EnsureRoute.POST cfg req) = json (BError error) 400)
          /\ writes (trace_of W s (EnsureRoute.POST cfg req)) = [])
      /\ (forall req ev,
          hd_error (verified (trace_of W s (WebhookRoute.POST cfg req)))
          = Some (Returned ev) ->
          event_type ev = "checkout.session.completed" ->
          (String.length
             (Js.replace_non_digits
                (Js.opt_or (meta (event_session ev) "customer_phone") ""))
           < 10)%nat ->
          result_of W s (WebhookRoute.POST cfg req)
          = (if not_paid (event_session ev) then json (BReceived None) 200
             else json (BError "Failed to process order") 500)
          /\ writes (trace_of W s (WebhookRoute.POST cfg req)) = []).
Proof.
  split; [reflexivity|]. split; [exact replace_non_digits_filter|].
  intros S W s cfg. split.
  - intros req session. apply ensure_short_phone_run.
  - intros req ev. apply webhook_short_phone_run.
Qed.

(** C7 on the in-memory store, for a phone of seven digits. *)
Lemma C7_witness :
  let world := (Sample.empty_tables true, [Sample.retrieved Sample.short_phone]) in
  let wworld := (Sample.empty_tables true, [Sample.delivered Sample.short_phone]) in
  Js.replace_non_digits (EnsureRoute.customerPhone Sample.short_phone) = "5551212"
  /\ result_of Store.collab world (EnsureRoute.POST Sample.cfg Sample.ensure_request)
     = json (BError "Invalid customer_phone on session") 400
  /\ writes (trace_of Store.collab world (EnsureRoute.POST Sample.cfg Sample.ensure_request)) = []
  /\ result_of Store.collab wworld (WebhookRoute.POST Sample.cfg Sample.webhook_request)
     = json (BError "Failed to process order") 500
  /\ writes (trace_of Store.collab wworld (WebhookRoute.POST Sample.cfg Sample.webhook_request)) = [].
Proof.
  intros world wworld.
  destruct C7_phone_digits_required as (_ & _ & H).
  destruct (H _ Store.collab world Sample.cfg) as [He _].
  destruct (H _ Store.collab wworld Sample.cfg) as [_ Hw].
  destruct (He Sample.ensure_request Sample.short_phone) as [_ Hwe];
    try (vm_compute; reflexivity).
  { vm_compute. lia. }
  destruct (Hw Sample.webhook_request
              (mkStripeEvent "checkout.session.completed" Sample.short_phone))
    as [Hr Hww]; try (vm_compute; reflexivity).
  { vm_compute. lia. }
  repeat split; try assumption; vm_compute; reflexivity.
Defined.




Lemma tip_of_spec (v : option string) :
  Num.isFinite (WebhookRoute.tip_of v) = true
  /\ (0 <=? WebhookRoute.tip_of v)%float = true.
Proof.
  unfold WebhookRoute.tip_of.
  match goal with
  | |- context [if ?c then _ else _] => destruct c eqn:Hc
  end.
  - apply andb_true_iff in Hc. exact Hc.
  - split; reflexivity.
Qed.

Lemma tax_of_finite (v : option string) :
  Num.isFinite (WebhookRoute.tax_of v) = true.
Proof.
  unfold WebhookRoute.tax_of.
  match goal with
  | |- context [if ?c then _ else _] => destruct c eqn:Hc
  end; [exact Hc | reflexivity].
Qed.

Lemma amount_of_finite (v : option string) :
  Num.isFinite (EnsureRoute.amount_of v) = true.
Proof.
  unfold EnsureRoute.amount_of.
  match goal with
  | |- context [if ?c then _ else _] => destruct c eqn:Hc
  end; [exact Hc | reflexivity].
Qed.

(** C9 (as amended).  In a draft the webhook accepts, [tipAmount], the
    tip written to the order and [tipPercent] are finite and not below
    zero, whatever the metadata holds; [taxAmount] is finite, its sign
    is the metadata's.  In a draft the ensure route accepts the three
    amounts are finite.  A value that does not read as a number counts
    as 0 in both. *)
Theorem C9_amounts_finite_webhook_tips_not_negative :
  forall (session : Session),
    (forall d,
        WebhookRoute.draft session = WebhookRoute.Accepted d ->
        ((0 <=? WebhookRoute.tipAmount d)%float = true
         /\ (0 <=? WebhookRoute.normalizedTipAmount d)%float = true
         /\ (0 <=? WebhookRoute.tipPercent d)%float = true)
        /\ (Num.isFinite (WebhookRoute.taxAmount d) = true
            /\ Num.isFinite (WebhookRoute.normalizedTipAmount d) = true
            /\ Num.isFinite (WebhookRoute.tipPercent d) = true)
        /\ (field "tip_amount" (WebhookRoute.fullInsertPayload session d)
            = Some (JNum (WebhookRoute.normalizedTipAmount d))
            /\ field "tip_percent" (WebhookRoute.fullInsertPayload session d)
               = Some (JNum (WebhookRoute.tipPercent d))
            /\ field "tax_amount" (WebhookRoute.fullInsertPayload session d)
               = Some (JNum (WebhookRoute.taxAmount d))))
    /\ (forall d,
        EnsureRoute.draft session = EnsureRoute.Accepted d ->
        Num.isFinite (EnsureRoute.taxAmount d) = true
        /\ Num.isFinite (EnsureRoute.tipAmount d) = true
        /\ Num.isFinite (EnsureRoute.tipPercent d) = true)
    /\ (forall text,
        Num.isFinite (Num.parseFloat text) = false ->
        WebhookRoute.tax_of (Some text) = 0%float
        /\ WebhookRoute.tip_of (Some text) = 0%float
        /\ EnsureRoute.amount_of (Some text) = 0%float).
Proof.
  intros session. split; [|split].
  - intros d. unfold WebhookRoute.draft.
    destruct (meta session "customer_name") as [name|]; [|discriminate].
    destruct (meta session "customer_phone") as [phone|]; [|discriminate].
    destruct (negb _ || negb _); [discriminate|].
    destruct (_ <? _)%nat; [discriminate|].
    intros H. injection H as <-.
    destruct (tip_of_spec (meta session "tip_amount")) as [Hfa Hpa].
    destruct (tip_of_spec (meta session "tip_percent")) as [Hfp Hpp].
    pose proof (tax_of_finite (meta session "tax")) as Hft.
    assert (Hn : Num.isFinite
                   (if (0 <? WebhookRoute.tip_of (meta session "tip_amount"))%float
                    then WebhookRoute.tip_of (meta session "tip_amount") else 0%float) = true
                 /\ (0 <=? (if (0 <? WebhookRoute.tip_of (meta session "tip_amount"))%float
                            then WebhookRoute.tip_of (meta session "tip_amount")
                            else 0%float))%float = true).
    { destruct (0 <? WebhookRoute.tip_of (meta session "tip_amount"))%float;
        split; assumption || reflexivity. }
    destruct Hn as [Hfn Hpn].
    unfold WebhookRoute.fullInsertPayload, WebhookRoute.finite_or_null. simpl.
    rewrite Hfn, Hfp.
    repeat split; assumption || reflexivity.
  - intros d. unfold EnsureRoute.draft.
    destruct (negb _ || negb _); [discriminate|].
    destruct (_ <? _)%nat; [discriminate|].
    intros H. injection H as <-. simpl.
    repeat split; apply amount_of_finite.
  - intros text Hnf.
    unfold WebhookRoute.tax_of, WebhookRoute.tip_of, EnsureRoute.amount_of.
    destruct (Js.truthy text); [rewrite Hnf|]; repeat split; reflexivity.
Qed.

(** C9, the claim as stated fails: metadata with a negative tax gives a
    draft that is accepted and an order row with a negative
    [tax_amount]. *)
Lemma C9_counterexample_negative_tax_is_persisted :
  let world :=
    (Sample.empty_tables true,
     [Sample.delivered Sample.negative_tax; Sample.listed [Sample.kabob]]) in
  let rows :=
    Store.orders (fst (state_after Store.collab world
                         (WebhookRoute.POST Sample.cfg Sample.webhook_request))) in
  map (fun r => field "tax_amount" (row_cols r)) rows = [Some (JNum (-1.5)%float)]
  /\ (-1.5 <? 0)%float = true.
Proof. vm_compute. split; reflexivity. Qed.

(** C9 on a session with a negative tip and a tip percent that is no
    number. *)
Lemma C9_witness :
  let session :=
    Sample.session_with "paid"
      [ ("customer_name", "Jo Lee"); ("customer_phone", "555-111-2222");
        ("tip_amount", "-5"); ("tip_percent", "abc"); ("tax", "1.50") ] in
  let d := match WebhookRoute.draft session with
           | WebhookRoute.Accepted d => d
           | WebhookRoute.Rejected _ =>
               WebhookRoute.mkDraft "" "" "" None None None 0 0 0 0 0 0
           end in
  WebhookRoute.draft session = WebhookRoute.Accepted d
  /\ (0 <=? WebhookRoute.normalizedTipAmount d)%float = true
  /\ (0 <=? WebhookRoute.tipPercent d)%float = true
  /\ field "tip_amount" (WebhookRoute.fullInsertPayload session d) = Some (JNum 0%float).
Proof.
  intros session d.
  assert (Hd : WebhookRoute.draft session = WebhookRoute.Accepted d)
    by (vm_compute; reflexivity).
  destruct (C9_amounts_finite_webhook_tips_not_negative session) as [Hw _].
  destruct (Hw d Hd) as ((_ & Hn & Hp) & _ & (Hf & _)).
  split; [exact Hd|]. split; [exact Hn|]. split; [exact Hp|].
  rewrite Hf. vm_compute. reflexivity.
Defined.

Lemma field_set_field (k : string) (v : JVal) (p : Payload) :
  field k (Store.set_field k v p) = Some v.
Proof.
  induction p as [|[k' v'] p IH]; simpl.
  - rewrite String.eqb_refl. reflexivity.
  - destruct (String.eqb k k') eqn:E; simpl.
    + rewrite String.eqb_refl. reflexivity.
    + rewrite E. exact IH.
Qed.

Lemma status_after_assign (status : string) (r : Row) :
  Store.status_of (Store.assign [("status", JStr status)] r) = Some (JStr status)
  /\ row_id (Store.assign [("status", JStr status)] r) = row_id r.
Proof.
  split; [|reflexivity].
  unfold Store.status_of, Store.assign. simpl. apply field_set_field.
Qed.

Lemma status_valid_truthy (status : string) :
  In status StatusRoute.VALID_STATUSES ->
  Js.truthy status = true /\ StatusRoute.is_valid status = true.
Proof.
  intros H. simpl in H.
  destruct H as [<- | [<- | [<- | [<- | []]]]]; split; reflexivity.
Qed.

Lemma status_invalid (status : string) :
  ~ In status StatusRoute.VALID_STATUSES -> StatusRoute.is_valid status = false.
Proof.
  intros H. unfold StatusRoute.is_valid.
  destruct (existsb (String.eqb status) StatusRoute.VALID_STATUSES) eqn:E; [|reflexivity].
  apply existsb_exists in E as (x & Hx & Heq).
  apply String.eqb_eq in Heq. subst x. contradiction.
Qed.

(** C10.  On the in-memory store, for an order found under the id of
    the request, whatever its status, and for each of the four values
    [pending], [preparing], [ready], [completed]: [PATCH] answers status
    200 with the order carrying the value asked for, the stored order
    carries that value afterwards, and the other orders are untouched.
    Against any store, the only write [PATCH] makes for such a value is
    the update of [status] to it, and for any other body it makes no
    call to the store: it answers 400, or 500 when the body does not
    parse. *)
Theorem C10_status_update_accepts_any_transition :
  (forall (t : Store.Tables) (script : list Event) (id : string) (o : Row)
          (target : string),
      filter (Store.has_id id) (Store.orders t) = [o] ->
      In target StatusRoute.VALID_STATUSES ->
      let req := StatusRoute.mkRequest id (Returned (StatusRoute.StatusString target)) in
      let updated := Store.assign [("status", JStr target)] o in
      result_of Store.collab (t, script) (StatusRoute.PATCH req) = json (BOrder updated) 200
      /\ Store.status_of updated = Some (JStr target)
      /\ Store.orders (fst (state_after Store.collab (t, script) (StatusRoute.PATCH req)))
         = map (fun x => if Store.has_id id x
                         then Store.assign [("status", JStr target)] x else x)
             (Store.orders t)
      /\ writes (trace_of Store.collab (t, script) (StatusRoute.PATCH req))
         = [EvUpdateOrder id [("status", JStr target)] (DbOk updated)])
  /\ (forall (S : Type) (W : Collab S) (s : S) (id target : string),
      In target StatusRoute.VALID_STATUSES ->
      let req := StatusRoute.mkRequest id (Returned (StatusRoute.StatusString target)) in
      forall e, In e (writes (trace_of W s (StatusRoute.PATCH req))) ->
                exists r, e = EvUpdateOrder id [("status", JStr target)] r)
  /\ (forall (S : Type) (W : Collab S) (s : S) (id : string)
             (parsed : Thrown StatusRoute.StatusField),
      (forall target, In target StatusRoute.VALID_STATUSES ->
                      parsed <> Returned (StatusRoute.StatusString target)) ->
      let req := StatusRoute.mkRequest id parsed in
      writes (trace_of W s (StatusRoute.PATCH req)) = []
      /\ match parsed with
         | Returned _ =>
             result_of W s (StatusRoute.PATCH req) = StatusRoute.invalid
             /\ trace_of W s (StatusRoute.PATCH req) = []
         | Threw msg =>
             status (result_of W s (StatusRoute.PATCH req)) = 500
             /\ trace_of W s (StatusRoute.PATCH req)
                = [EvConsole LogError "Error updating order:" msg]
         end).
Proof.
  split; [|split].
  - intros t script id o target Ho Hin req updated.
    destruct (status_valid_truthy target Hin) as [Ht Hv].
    destruct (status_after_assign target o) as [Hs _].
    subst req updated.
    open StatusRoute.PATCH. rewrite Ht, Hv. simpl.
    open StatusRoute.update.
    unfold Store.select. simpl. rewrite Ho. simpl.
    unfold Store.update_order. rewrite Ho. simpl.
    repeat split. exact Hs.
  - intros S W s id target Hin req e.
    destruct (status_valid_truthy target Hin) as [Ht Hv].
    subst req. open StatusRoute.PATCH. rewrite Ht, Hv. simpl.
    open StatusRoute.update; open StatusRoute.caught.
    walk.
    all: simpl; intros H; pick_event H.
    all: eexists; symmetry; exact H.
  - intros S W s id parsed Hbad req. subst req.
    open StatusRoute.PATCH; open StatusRoute.caught.
    destruct parsed as [[status | | truthy] | msg]; simpl.
    + assert (Hv : StatusRoute.is_valid status = false).
      { apply status_invalid. intros Hin. exact (Hbad status Hin eq_refl). }
      rewrite Hv, orb_true_r. simpl. repeat split.
    + repeat split.
    + repeat split.
    + walk. repeat split.
Qed.

(** C10 on the in-memory store: a completed order set back to pending,
    and a status that is not one of the four. *)
Lemma C10_witness :
  let o := Sample.stored "completed" 1000 in
  let world := (Sample.tables_with [Sample.earlier 999; o], @nil Event) in
  let req := StatusRoute.mkRequest "order-1" (Returned (StatusRoute.StatusString "pending")) in
  let bad := StatusRoute.mkRequest "order-1" (Returned (StatusRoute.StatusString "cancelled")) in
  Store.status_of o = Some (JStr "completed")
  /\ status (result_of Store.collab world (StatusRoute.PATCH req)) = 200
  /\ map Store.status_of
       (Store.orders (fst (state_after Store.collab world (StatusRoute.PATCH req))))
     = [Some (JStr "completed"); Some (JStr "pending")]
  /\ result_of Store.collab world (StatusRoute.PATCH bad) = StatusRoute.invalid
  /\ writes (trace_of Store.collab world (StatusRoute.PATCH bad)) = [].
Proof.
  intros o world req bad.
  destruct C10_status_update_accepts_any_transition as (Hok & _ & Hbad).
  destruct (Hok (fst world) [] "order-1" o "pending") as (Hr & _ & Hst & _).
  { vm_compute. reflexivity. }
  { simpl. tauto. }
  destruct (Hbad _ Store.collab world "order-1"
              (Returned (StatusRoute.StatusString "cancelled"))) as (Hw & Hi & _).
  { intros target Hin H. injection H as <-. simpl in Hin.
    repeat (destruct Hin as [Hin | Hin]; [discriminate Hin|]). exact Hin. }
  split; [reflexivity|]. split; [exact (f_equal status Hr)|].
  split; [exact (f_equal (map Store.status_of) Hst)|].
  split; [exact Hi | exact Hw].
Defined.

(* ================================================================= *)
(** ** More properties of the routes *)

Lemma inserted_orders_app (a b : list Event) :
  inserted_orders (a ++ b) = (inserted_orders a ++ inserted_orders b)%list.
Proof.
  induction a as [|e a IH]; [reflexivity|].
  destruct e; simpl; try exact IH.
  destruct r; simpl; rewrite IH; reflexivity.
Qed.

Lemma item_rows_inserted_app (a b : list Event) :
  item_rows_inserted (a ++ b) = (item_rows_inserted a ++ item_rows_inserted b)%list.
Proof.
  induction a as [|e a IH]; [reflexivity|].
  destruct e; simpl; try exact IH.
  rewrite IH, app_assoc. reflexivity.
Qed.

Lemma quiet_prefix (tr : list Event) :
  writes tr = [] -> inserted_orders tr = [] /\ item_rows_inserted tr = [].
Proof.
  induction tr as [|e tr IH]; [split; reflexivity|].
  destruct e; simpl; auto; discriminate.
Qed.

Ltac open_ensure_tail :=
  open EnsureRoute.insert_order; open EnsureRoute.after_insert;
  open EnsureRoute.insert_items; open EnsureRoute.reread;
  open EnsureRoute.caught.

Ltac open_webhook_tail :=
  open WebhookRoute.insert_order; open WebhookRoute.after_insert;
  open WebhookRoute.insert_items; open WebhookRoute.caught.

Section EnsureOutcome.

Context {S : Type} (W : Collab S).

Lemma ensure_insert_order_outcome s sid d missing next :
  let tr := trace_of W s (EnsureRoute.insert_order sid d missing next) in
  let r := result_of W s (EnsureRoute.insert_order sid d missing next) in
  match created_flag r with
  | Some true =>
      status r = 200
      /\ exists p order, last_insert tr = Some (p, DbOk order) /\ inserted_orders tr = [order]
  | Some false =>
      status r = 200 /\ inserted_orders tr = []
      /\ exists o, r = found o /\ In (DbOk (Some o)) (lookups tr)
  | None => status r = 500
  end.
Proof.
  open_ensure_tail. walk.
  all: unfold created_flag, last_insert; simpl; repeat split; eauto.
  all: eexists; split; [reflexivity | left; reflexivity].
Qed.

End EnsureOutcome.

Lemma ensure_allocate_number_quiet {S : Type} (W : Collab S) s sid d :
  exists pre s' missing next,
    trace_of W s (EnsureRoute.allocate_number sid d)
    = (pre ++ trace_of W s' (EnsureRoute.insert_order sid d missing next))%list
    /\ result_of W s (EnsureRoute.allocate_number sid d)
       = result_of W s' (EnsureRoute.insert_order sid d missing next)
    /\ writes pre = [] /\ lookups pre = [] /\ retrieved pre = [].
Proof.
  open EnsureRoute.allocate_number. walk.
  all: match goal with
       | |- exists pre s' missing' next, ?l = _ /\ _ =>
           match l with context [trace_of _ ?s0 (_ _ _ ?m ?n)] =>
           let p := written_prefix l in exists p, s0, m, n end
       end.
  all: repeat split; reflexivity.
Qed.

Section EnsurePaths.

Context {S : Type} (W : Collab S) (s : S) (cfg : Config) (req : EnsureRoute.Request).

(** The ensure route either ends without a write, handing back the
    order the existence check found or an error, or comes to its insert
    with the draft of the session it retrieved. *)
Lemma ensure_POST_paths :
  let tr := trace_of W s (EnsureRoute.POST cfg req) in
  let r := result_of W s (EnsureRoute.POST cfg req) in
  (writes tr = []
   /\ ((exists o, r = found o /\ lookups tr = [DbOk (Some o)])
       \/ (created_flag r = None /\ (status r = 400 \/ status r = 500))))
  \/ exists pre s' d missing next session,
       tr = (pre ++ trace_of W s'
                      (EnsureRoute.insert_order (sessionId_of req) d missing next))%list
       /\ r = result_of W s' (EnsureRoute.insert_order (sessionId_of req) d missing next)
       /\ writes pre = []
       /\ lookups pre = [DbOk None]
       /\ retrieved pre = [Returned session]
       /\ EnsureRoute.draft session = EnsureRoute.Accepted d
       /\ not_paid session = false
       /\ Js.truthy (sessionId_of req) = true.
Proof.
  unfold sessionId_of.
  open EnsureRoute.POST; open EnsureRoute.caught.
  walk.
  all: try (left; split; [reflexivity|]; unfold created_flag; simpl;
            first [ left; eexists; split; reflexivity
                  | right; split; [reflexivity | tauto] ]).
  all: match goal with
       | |- context [trace_of W ?s0 (EnsureRoute.allocate_number ?a ?b)] =>
           destruct (ensure_allocate_number_quiet W s0 a b)
             as (pre & s' & m & n & Ht & Hr & Hw & Hl & Hv)
       end.
  all: right; rewrite Ht, Hr.
  all: match goal with
       | |- exists pre0 s0 d0 m0 n0 ss0, ?l = _ /\ _ =>
           match l with
           | context [EvRetrieveSession _ (Returned ?ss)] =>
           match l with
           | context [(?p0 ++ trace_of _ ?s1 (_ _ ?dd ?m ?n))%list] =>
               let p := written_prefix l in
               exists (p ++ p0)%list, s1, dd, m, n, ss
           end end
       end.
  all: simpl; rewrite ?Hl, ?Hv; repeat split; auto.
  all: apply negb_false_iff; assumption.
Qed.

End EnsurePaths.

Section EnsureOutcomeWhole.

Context {S : Type} (W : Collab S) (s : S) (cfg : Config) (req : EnsureRoute.Request).

(** X1.  The [created] flag of the ensure route tells what this very
    run did: [created = true] is answered only when the store confirmed
    an order insert of this run; [created = false] only when no order
    insert of the run went through and a look-up returned the order
    handed back; any other reply is an error, status 400 or 500. *)
Theorem ensure_created_flag_is_truthful :
  let tr := trace_of W s (EnsureRoute.POST cfg req) in
  let r := result_of W s (EnsureRoute.POST cfg req) in
  match created_flag r with
  | Some true =>
      status r = 200
      /\ exists p order, last_insert tr = Some (p, DbOk order) /\ inserted_orders tr = [order]
  | Some false =>
      status r = 200 /\ inserted_orders tr = []
      /\ exists o, r = found o /\ In (DbOk (Some o)) (lookups tr)
  | None => status r = 400 \/ status r = 500
  end.
Proof.
  intros tr r. subst tr r.
  destruct (ensure_POST_paths W s cfg req)
    as [(Hw & [(o & Hr & Hl) | (Hc & Hst)])
       | (pre & s' & d & m & n & ss & Ht & Hr & Hw & Hl & _)].
  - rewrite Hr, Hl. unfold created_flag. simpl. repeat split.
    + exact (proj1 (quiet_prefix _ Hw)).
    + exists o. split; [reflexivity | left; reflexivity].
  - rewrite Hc. exact Hst.
  - pose proof (ensure_insert_order_outcome W s' (sessionId_of req) d m n) as H.
    simpl in H. rewrite Ht, Hr.
    rewrite last_insert_app, inserted_orders_app, lookups_app
      by exact (writes_order_inserts _ Hw).
    rewrite (proj1 (quiet_prefix _ Hw)), Hl. simpl.
    destruct (created_flag _) as [[|]|].
    + exact H.
    + destruct H as (H1 & H2 & o & H3 & H4). repeat split; auto.
      exists o. split; [exact H3 | right; exact H4].
    + right. exact H.
Qed.

End EnsureOutcomeWhole.

Lemma retrieved_app (a b : list Event) :
  retrieved (a ++ b) = (retrieved a ++ retrieved b)%list.
Proof.
  induction a as [|e a IH]; [reflexivity|].
  destruct e; simpl; rewrite IH; reflexivity.
Qed.

Section WebhookPaths.

Context {S : Type} (W : Collab S).

Lemma webhook_allocate_number_quiet s session d items missing :
  exists pre s' missing' next,
    trace_of W s (WebhookRoute.allocate_number session d items missing)
    = (pre ++ trace_of W s' (WebhookRoute.insert_order session d items missing' next))%list
    /\ result_of W s (WebhookRoute.allocate_number session d items missing)
       = result_of W s' (WebhookRoute.insert_order session d items missing' next)
    /\ writes pre = [] /\ verified pre = [].
Proof.
  open WebhookRoute.allocate_number.
  destruct missing; simpl.
  - exists [], s, true, None. repeat split.
  - walk.
    all: match goal with
         | |- exists pre s' missing' next, ?l = _ /\ _ =>
             match l with context [trace_of _ ?s0 (?f _ _ _ ?m ?n)] =>
             let p := written_prefix l in exists p, s0, m, n end
         end.
    all: repeat split; reflexivity.
Qed.

Lemma webhook_check_existing_quiet s session d items :
  let tr := trace_of W s (WebhookRoute.check_existing session d items) in
  let r := result_of W s (WebhookRoute.check_existing session d items) in
  (r = acknowledged /\ writes tr = [] /\ verified tr = [])
  \/ exists pre s' missing next,
       tr = (pre ++ trace_of W s' (WebhookRoute.insert_order session d items missing next))%list
       /\ r = result_of W s' (WebhookRoute.insert_order session d items missing next)
       /\ writes pre = [] /\ verified pre = [].
Proof.
  open WebhookRoute.check_existing; open WebhookRoute.skip_existing.
  walk.
  all: try (left; repeat split; reflexivity).
  all: right.
  all: match goal with
       | |- context [trace_of W ?s0 (WebhookRoute.allocate_number ?a ?b ?c ?m)] =>
           destruct (webhook_allocate_number_quiet s0 a b c m)
             as (pre & s' & m' & n & -> & -> & Hw & Hv)
       end.
  all: match goal with
       | |- exists pre0 s0 m0 n0, ?l = _ /\ _ =>
           match l with context [(?p0 ++ trace_of _ ?s1 (_ _ _ _ ?m ?n))%list] =>
           let p := written_prefix l in exists (p ++ p0)%list, s1, m, n end
       end.
  all: simpl; repeat split; auto.
Qed.

(** The webhook either ends without a write or comes to its insert with
    the draft of the session of the event it verified. *)
Lemma webhook_POST_paths s cfg req :
  let tr := trace_of W s (WebhookRoute.POST cfg req) in
  let r := result_of W s (WebhookRoute.POST cfg req) in
  writes tr = []
  \/ exists pre s' ev d items missing next,
       tr = (pre ++ trace_of W s'
                      (WebhookRoute.insert_order (event_session ev) d items missing next))%list
       /\ r = result_of W s'
                (WebhookRoute.insert_order (event_session ev) d items missing next)
       /\ writes pre = []
       /\ verified pre = [Returned ev]
       /\ event_type ev = "checkout.session.completed"
       /\ WebhookRoute.draft (event_session ev) = WebhookRoute.Accepted d
       /\ not_paid (event_session ev) = false.
Proof.
  open WebhookRoute.POST; open WebhookRoute.completed;
    open WebhookRoute.load_items; open WebhookRoute.rebuild_items;
    open WebhookRoute.caught.
  walk.
  all: try (left; reflexivity).
  all: match goal with
       | |- context [trace_of W ?s0 (WebhookRoute.check_existing ?a ?b ?c)] =>
           destruct (webhook_check_existing_quiet s0 a b c)
             as [(Hr & Hw & Hv) | (pre & s' & m & n & Ht & Hr & Hw & Hv)]
       end.
  all: try (left; simpl; exact Hw).
  all: right; rewrite Ht, Hr.
  all: match goal with
       | |- exists pre0 s0 ev0 d0 i0 m0 n0, ?l = _ /\ _ =>
           match l with
           | context [EvConstructEvent _ _ _ (Returned ?ev)] =>
           match l with
           | context [(?p0 ++ trace_of _ ?s1 (_ _ ?dd ?ii ?m ?n))%list] =>
               let p := written_prefix l in exists (p ++ p0)%list, s1, ev, dd, ii, m, n
           end end
       end.
  all: simpl; rewrite ?Hv; repeat split; auto.
  all: apply String.eqb_eq; assumption.
Qed.

End WebhookPaths.

Lemma discipline_members (full minimal : Payload) (ins : list (Payload * DbResult Row)) :
  insert_discipline full minimal ins ->
  forall p x, In (p, x) ins -> p = full \/ p = minimal.
Proof.
  intros Hd p x Hin.
  destruct ins as [|[p1 r1] [|[p2 r2] [|y rest]]]; simpl in *.
  - destruct Hin.
  - destruct Hin as [Hin | []]. injection Hin as <- <-.
    left. destruct r1; [exact Hd | exact (proj1 Hd)].
  - destruct r1; [destruct Hd|]. destruct Hd as (-> & -> & _).
    destruct Hin as [Hin | [Hin | []]]; injection Hin as <- <-; auto.
  - destruct r1; destruct Hd.
Qed.

Lemma field_app_present (k : string) (v : JVal) (a b : Payload) :
  field k a = Some v -> field k (a ++ b)%list = Some v.
Proof.
  induction a as [|[k' v'] a IH]; simpl; [discriminate|].
  destruct (String.eqb k k'); [auto | exact IH].
Qed.

Lemma with_number_field (k : string) (v : JVal) (base : Payload) missing next :
  field k base = Some v ->
  field k (WebhookRoute.with_number base missing next) = Some v.
Proof.
  intros H. unfold WebhookRoute.with_number.
  destruct (WebhookRoute.insertWithNumber missing next);
    [apply field_app_present|]; exact H.
Qed.

Lemma with_number_field_absent (k : string) (base : Payload) missing next :
  field k base = None -> k <> "order_number" ->
  field k (WebhookRoute.with_number base missing next) = None.
Proof.
  intros H Hk. unfold WebhookRoute.with_number, WebhookRoute.orderNumberPayload.
  destruct (WebhookRoute.insertWithNumber missing next); [|exact H].
  induction base as [|[k' v'] base IH]; simpl in *.
  - destruct next as [n|]; [|reflexivity].
    destruct (missing || (n =? 0)); [reflexivity|]. simpl.
    destruct (String.eqb_spec k "order_number"); [contradiction | reflexivity].
  - destruct (String.eqb k k'); [discriminate | exact (IH H)].
Qed.

Lemma all_digits_replace (s : string) :
  all_digits (Js.replace_non_digits s) = true.
Proof.
  unfold all_digits. induction s as [|c s IH]; [reflexivity|].
  simpl. destruct (Js.is_digit c) eqn:E; [|exact IH].
  simpl. rewrite E. exact IH.
Qed.

Lemma slice0_length (n : nat) (s : string) :
  (String.length (Js.slice0 n s) <= n)%nat.
Proof.
  unfold Js.slice0. revert s.
  induction n as [|n IH]; intros [|c s]; simpl; try lia.
  specialize (IH s). lia.
Qed.

Lemma truthy_not_empty (s : string) : Js.truthy s = true <-> s <> "".
Proof. destruct s; unfold Js.truthy; split; congruence. Qed.

Lemma ensure_draft_facts session d :
  EnsureRoute.draft session = EnsureRoute.Accepted d ->
  EnsureRoute.customerName d <> ""
  /\ all_digits (EnsureRoute.customerPhoneDigits d) = true
  /\ (10 <= String.length (EnsureRoute.customerPhoneDigits d))%nat
  /\ (String.length (EnsureRoute.comments d) <= 400)%nat.
Proof.
  intros H. destruct (ensure_draft_phone _ _ H) as [Hp Hlen].
  revert H. unfold EnsureRoute.draft.
  match goal with
  | |- context [negb (Js.truthy ?n) || _] => destruct (Js.truthy n) eqn:Hn
  end; [|discriminate].
  destruct (negb _ || negb _); [discriminate|].
  destruct (_ <? _)%nat; [discriminate|].
  intros H. injection H as <-. simpl in *.
  split; [apply truthy_not_empty; exact Hn|].
  split; [apply all_digits_replace|].
  split; [exact Hlen | apply slice0_length].
Qed.

Lemma webhook_draft_facts session d :
  WebhookRoute.draft session = WebhookRoute.Accepted d ->
  WebhookRoute.customer_name d <> ""
  /\ WebhookRoute.derivedFirstName d <> ""
  /\ all_digits (WebhookRoute.normalizedCustomerPhone d) = true
  /\ (10 <= String.length (WebhookRoute.normalizedCustomerPhone d))%nat
  /\ match WebhookRoute.comments d with
     | Some c => (String.length c <= 400)%nat
     | None => True
     end.
Proof.
  intros H. destruct (webhook_draft_phone _ _ H) as [Hp Hlen].
  revert H. unfold WebhookRoute.draft.
  destruct (meta session "customer_name") as [name|]; [|discriminate].
  destruct (meta session "customer_phone") as [phone|]; [|discriminate].
  destruct (Js.truthy name) eqn:Hn; [|discriminate].
  destruct (Js.truthy phone) eqn:Hph; [|discriminate].
  simpl. destruct (_ <? _)%nat; [discriminate|].
  intros H. injection H as <-. simpl in *.
  split; [apply truthy_not_empty; exact Hn|].
  split.
  { unfold WebhookRoute.first_truthy.
    destruct (present (meta session "customer_first_name")) eqn:Hf.
    - destruct (meta session "customer_first_name") as [f|]; [|discriminate Hf].
      apply truthy_not_empty. exact Hf.
    - destruct (Js.truthy (match filter Js.truthy (Js.split_space name) with
                           | p :: _ => p | [] => "" end)) eqn:Hq.
      + apply truthy_not_empty. exact Hq.
      + apply truthy_not_empty. exact Hn. }
  split; [apply all_digits_replace|].
  split; [exact Hlen|].
  destruct (meta session "comments") as [c|]; [|exact I].
  destruct (Js.truthy c); [apply slice0_length | exact I].
Qed.

Section InsertsFromDraft.

Context {S : Type} (W : Collab S) (s : S) (cfg : Config).

Lemma ensure_inserts_from_draft req p x :
  In (p, x) (order_inserts (trace_of W s (EnsureRoute.POST cfg req))) ->
  exists session d missing next,
    hd_error (retrieved (trace_of W s (EnsureRoute.POST cfg req))) = Some (Returned session)
    /\ not_paid session = false
    /\ EnsureRoute.draft session = EnsureRoute.Accepted d
    /\ sessionId_of req <> ""
    /\ (p = EnsureRoute.fullInsertPayload (sessionId_of req) d
              (EnsureRoute.orderNumberPayload missing next)
        \/ p = EnsureRoute.minimalInsertPayload (sessionId_of req) d
                 (EnsureRoute.orderNumberPayload missing next)).
Proof.
  intros H.
  destruct (ensure_POST_paths W s cfg req)
    as [(Hw & _) | (pre & s' & d & m & n & ss & Ht & _ & Hw & _ & Hv & Hd & Hnp & Hs)].
  - rewrite (writes_order_inserts _ Hw) in H. destruct H.
  - rewrite Ht, order_inserts_app, (writes_order_inserts _ Hw) in H. simpl in H.
    exists ss, d, m, n.
    rewrite Ht, retrieved_app, Hv. simpl.
    repeat split; auto.
    + apply truthy_not_empty. exact Hs.
    + exact (discipline_members _ _ _
               (proj2 (ensure_insert_order_discipline W s' _ d m n)) p x H).
Qed.

Lemma webhook_inserts_from_draft req p x :
  In (p, x) (order_inserts (trace_of W s (WebhookRoute.POST cfg req))) ->
  exists ev d missing next,
    hd_error (verified (trace_of W s (WebhookRoute.POST cfg req))) = Some (Returned ev)
    /\ event_type ev = "checkout.session.completed"
    /\ not_paid (event_session ev) = false
    /\ WebhookRoute.draft (event_session ev) = WebhookRoute.Accepted d
    /\ (p = WebhookRoute.with_number
              (WebhookRoute.fullInsertPayload (event_session ev) d) missing next
        \/ p = WebhookRoute.with_number
                 (WebhookRoute.minimalInsertPayload (event_session ev) d) missing next).
Proof.
  intros H.
  destruct (webhook_POST_paths W s cfg req)
    as [Hw | (pre & s' & ev & d & it & m & n & Ht & _ & Hw & Hv & Hty & Hd & Hnp)].
  - rewrite (writes_order_inserts _ Hw) in H. destruct H.
  - rewrite Ht, order_inserts_app, (writes_order_inserts _ Hw) in H. simpl in H.
    exists ev, d, m, n.
    rewrite Ht, verified_app, Hv. simpl.
    repeat split; auto.
    exact (discipline_members _ _ _
             (proj2 (webhook_insert_order_discipline W s' _ d it m n)) p x H).
Qed.

End InsertsFromDraft.

(** X2.  Every order either route inserts is inserted with the status
    [pending] and under the session id it was asked for: the
    [sessionId] of the ensure request, which is not empty; the id of the
    session of the verified [checkout.session.completed] event of the
    webhook. *)
Theorem orders_inserted_pending_under_their_session :
  forall (S : Type) (W : Collab S) (s : S) (cfg : Config),
    (forall req p x,
        In (p, x) (order_inserts (trace_of W s (EnsureRoute.POST cfg req))) ->
        field "status" p = Some (JStr "pending")
        /\ field "stripe_session_id" p = Some (JStr (sessionId_of req))
        /\ sessionId_of req <> "")
    /\ (forall req p x,
        In (p, x) (order_inserts (trace_of W s (WebhookRoute.POST cfg req))) ->
        field "status" p = Some (JStr "pending")
        /\ exists ev,
            hd_error (verified (trace_of W s (WebhookRoute.POST cfg req)))
            = Some (Returned ev)
            /\ event_type ev = "checkout.session.completed"
            /\ field "stripe_session_id" p = Some (JStr (session_id (event_session ev)))).
Proof.
  intros S W s cfg. split; intros req p x H.
  - destruct (ensure_inserts_from_draft W s cfg req p x H)
      as (ss & d & m & n & _ & _ & _ & Hs & [-> | ->]);
      repeat split; auto.
  - destruct (webhook_inserts_from_draft W s cfg req p x H)
      as (ev & d & m & n & Hv & Hty & _ & _ & [-> | ->]).
    + split; [apply with_number_field; reflexivity|].
      exists ev. repeat split; auto. apply with_number_field. reflexivity.
    + split; [apply with_number_field; reflexivity|].
      exists ev. repeat split; auto. apply with_number_field. reflexivity.
Qed.

(** X3.  Every order either route inserts carries a customer name that
    is not empty and a phone made of digits only, ten or more. *)
Theorem orders_inserted_with_name_and_phone_digits :
  forall (S : Type) (W : Collab S) (s : S) (cfg : Config),
    (forall req p x,
        In (p, x) (order_inserts (trace_of W s (EnsureRoute.POST cfg req))) ->
        exists name digits,
          field "customer_name" p = Some (JStr name) /\ name <> ""
          /\ field "customer_phone" p = Some (JStr digits)
          /\ all_digits digits = true /\ (10 <= String.length digits)%nat)
    /\ (forall req p x,
        In (p, x) (order_inserts (trace_of W s (WebhookRoute.POST cfg req))) ->
        exists name digits,
          field "customer_name" p = Some (JStr name) /\ name <> ""
          /\ field "customer_phone" p = Some (JStr digits)
          /\ all_digits digits = true /\ (10 <= String.length digits)%nat).
Proof.
  intros S W s cfg. split; intros req p x H.
  - destruct (ensure_inserts_from_draft W s cfg req p x H)
      as (ss & d & m & n & _ & _ & Hd & _ & Hp).
    destruct (ensure_draft_facts _ _ Hd) as (Hn & Hdig & Hlen & _).
    exists (EnsureRoute.customerName d), (EnsureRoute.customerPhoneDigits d).
    destruct Hp as [-> | ->]; repeat split; auto.
  - destruct (webhook_inserts_from_draft W s cfg req p x H)
      as (ev & d & m & n & _ & _ & _ & Hd & Hp).
    destruct (webhook_draft_facts _ _ Hd) as (Hn & _ & Hdig & Hlen & _).
    exists (WebhookRoute.customer_name d), (WebhookRoute.normalizedCustomerPhone d).
    destruct Hp as [-> | ->]; repeat split; auto; apply with_number_field; reflexivity.
Qed.

(** X4.  The comments an order is inserted with are at most 400
    characters long: the [comments] column of an insert of either route
    is absent, null or a string of length 400 at most. *)
Theorem orders_inserted_with_bounded_comments :
  forall (S : Type) (W : Collab S) (s : S) (cfg : Config),
    (forall req p x,
        In (p, x) (order_inserts (trace_of W s (EnsureRoute.POST cfg req))) ->
        field "comments" p = None \/ field "comments" p = Some JNull
        \/ exists c, field "comments" p = Some (JStr c) /\ (String.length c <= 400)%nat)
    /\ (forall req p x,
        In (p, x) (order_inserts (trace_of W s (WebhookRoute.POST cfg req))) ->
        field "comments" p = None \/ field "comments" p = Some JNull
        \/ exists c, field "comments" p = Some (JStr c) /\ (String.length c <= 400)%nat).
Proof.
  intros S W s cfg. split; intros req p x H.
  - destruct (ensure_inserts_from_draft W s cfg req p x H)
      as (ss & d & m & n & _ & _ & Hd & _ & Hp).
    destruct (ensure_draft_facts _ _ Hd) as (_ & _ & _ & Hc).
    destruct Hp as [-> | ->].
    + right. unfold EnsureRoute.fullInsertPayload. simpl. unfold str_or_null.
      destruct (Js.truthy (EnsureRoute.comments d)); [right; eauto | left; reflexivity].
    + left. destruct n as [n|], m; reflexivity.
  - destruct (webhook_inserts_from_draft W s cfg req p x H)
      as (ev & d & m & n & _ & _ & _ & Hd & Hp).
    destruct (webhook_draft_facts _ _ Hd) as (_ & _ & _ & _ & Hc).
    destruct Hp as [-> | ->].
    + right. destruct (WebhookRoute.comments d) as [c|] eqn:E.
      * right. exists c. split; [|exact Hc].
        apply with_number_field. unfold WebhookRoute.fullInsertPayload. simpl.
        rewrite E. reflexivity.
      * left. apply with_number_field. unfold WebhookRoute.fullInsertPayload. simpl.
        rewrite E. reflexivity.
    + left. apply with_number_field_absent; [reflexivity | discriminate].
Qed.

Lemma purchased_name (li : LineItem) :
  is_purchased li = true ->
  Js.toLowerCase (Js.opt_or (li_description li) "Item") <> "sales tax"
  /\ Js.toLowerCase (Js.opt_or (li_description li) "Item") <> "tip".
Proof.
  unfold is_purchased, Js.opt_or, Js.or_else.
  destruct (li_description li) as [[|c s]|]; unfold Js.truthy.
  - intros _. split; discriminate.
  - intros H. apply andb_true_iff in H as [H1 H2].
    apply negb_true_iff in H1, H2.
    split; apply String.eqb_neq; assumption.
  - intros _. split; discriminate.
Qed.

Lemma ensure_row_facts (order : Row) (items : list LineItem) (row : Payload) :
  In row (EnsureRoute.orderItemsData order items) ->
  field "order_id" row = Some (JStr (row_id order))
  /\ exists li,
      In li items /\ is_purchased li = true
      /\ field "menu_item_id" row = Some (JStr (li_id li))
      /\ field "menu_item_name" row = Some (JStr (Js.opt_or (li_description li) "Item"))
      /\ field "quantity" row = Some (JInt (quantity_of li)).
Proof.
  unfold EnsureRoute.orderItemsData. intros H.
  apply in_map_iff in H as (li & <- & Hli).
  apply filter_In in Hli as [Hin Hp].
  split; [reflexivity|]. exists li. repeat split; assumption.
Qed.

Lemma webhook_row_facts (order : Row) (cart : list CartItem) (row : Payload) :
  In row (WebhookRoute.orderItemsData order cart) ->
  field "order_id" row = Some (JStr (row_id order))
  /\ exists item, In item cart /\ field "quantity" row = Some (JInt (ci_quantity item)).
Proof.
  unfold WebhookRoute.orderItemsData. intros H.
  apply in_flat_map in H as (item & Hin & Hrow).
  unfold WebhookRoute.item_rows in Hrow.
  destruct Hrow as [<- | Hrow].
  - split; [reflexivity|]. exists item. split; [exact Hin | reflexivity].
  - apply in_map_iff in Hrow as (addon & <- & _).
    split; [reflexivity|]. exists item. split; [exact Hin | reflexivity].
Qed.

Section ItemRows.

Context {S : Type} (W : Collab S).

Lemma ensure_insert_order_rows s sid d missing next row :
  let tr := trace_of W s (EnsureRoute.insert_order sid d missing next) in
  In row (item_rows_inserted tr) ->
  exists order items,
    inserted_orders tr = [order] /\ In row (EnsureRoute.orderItemsData order items).
Proof.
  open_ensure_tail. walk.
  all: simpl; try tauto.
  all: rewrite app_nil_r; intros H; do 2 eexists; split; [reflexivity | exact H].
Qed.

Lemma webhook_insert_order_rows s session d cart missing next row :
  let tr := trace_of W s (WebhookRoute.insert_order session d cart missing next) in
  In row (item_rows_inserted tr) ->
  exists order,
    inserted_orders tr = [order] /\ In row (WebhookRoute.orderItemsData order cart).
Proof.
  open_webhook_tail. walk.
  all: simpl; try tauto.
  all: rewrite app_nil_r; intros H; eexists; split; [reflexivity | exact H].
Qed.

Lemma ensure_rows_of_run s cfg req row :
  In row (item_rows_inserted (trace_of W s (EnsureRoute.POST cfg req))) ->
  exists order items,
    inserted_orders (trace_of W s (EnsureRoute.POST cfg req)) = [order]
    /\ In row (EnsureRoute.orderItemsData order items).
Proof.
  intros H.
  destruct (ensure_POST_paths W s cfg req)
    as [(Hw & _) | (pre & s' & d & m & n & ss & Ht & _ & Hw & _)].
  - rewrite (proj2 (quiet_prefix _ Hw)) in H. destruct H.
  - destruct (quiet_prefix _ Hw) as [Hi Hr].
    rewrite Ht, item_rows_inserted_app, Hr in H.
    rewrite Ht, inserted_orders_app, Hi.
    exact (ensure_insert_order_rows s' _ d m n row H).
Qed.

Lemma webhook_rows_of_run s cfg req row :
  In row (item_rows_inserted (trace_of W s (WebhookRoute.POST cfg req))) ->
  exists order cart,
    inserted_orders (trace_of W s (WebhookRoute.POST cfg req)) = [order]
    /\ In row (WebhookRoute.orderItemsData order cart).
Proof.
  intros H.
  destruct (webhook_POST_paths W s cfg req)
    as [Hw | (pre & s' & ev & d & it & m & n & Ht & _ & Hw & _)].
  - rewrite (proj2 (quiet_prefix _ Hw)) in H. destruct H.
  - destruct (quiet_prefix _ Hw) as [Hi Hr].
    rewrite Ht, item_rows_inserted_app, Hr in H.
    rewrite Ht, inserted_orders_app, Hi.
    destruct (webhook_insert_order_rows s' _ d it m n row H) as (order & Ho & Hin).
    exists order, it. split; assumption.
Qed.

End ItemRows.

(** X5.  Items are inserted only for an order the store confirmed in the
    same run, one order at most, and every item row carries the id of
    that order in [order_id]. *)
Theorem item_rows_point_to_the_inserted_order :
  forall (S : Type) (W : Collab S) (s : S) (cfg : Config),
    (forall req row,
        In row (item_rows_inserted (trace_of W s (EnsureRoute.POST cfg req))) ->
        exists order,
          inserted_orders (trace_of W s (EnsureRoute.POST cfg req)) = [order]
          /\ field "order_id" row = Some (JStr (row_id order)))
    /\ (forall req row,
        In row (item_rows_inserted (trace_of W s (WebhookRoute.POST cfg req))) ->
        exists order,
          inserted_orders (trace_of W s (WebhookRoute.POST cfg req)) = [order]
          /\ field "order_id" row = Some (JStr (row_id order))).
Proof.
  intros S W s cfg. split; intros req row H.
  - destruct (ensure_rows_of_run W s cfg req row H) as (order & items & Ho & Hin).
    exists order. split; [exact Ho | exact (proj1 (ensure_row_facts _ _ _ Hin))].
  - destruct (webhook_rows_of_run W s cfg req row H) as (order & cart & Ho & Hin).
    exists order. split; [exact Ho | exact (proj1 (webhook_row_facts _ _ _ Hin))].
Qed.

Lemma rebuilt_cart_rows (order : Row) (items : list LineItem) :
  WebhookRoute.orderItemsData order (WebhookRoute.cart_of_line_items items)
  = map (fun li =>
           [ ("order_id", JStr (row_id order));
             ("menu_item_id", JStr (li_id li));
             ("menu_item_name", JStr (Js.opt_or (li_description li) "Item"));
             ("quantity", JInt (quantity_of li));
             ("price", JNum (unit_price li)) ])
      (filter is_purchased items).
Proof.
  unfold WebhookRoute.orderItemsData, WebhookRoute.cart_of_line_items.
  induction (filter is_purchased items) as [|li l IH]; [reflexivity|].
  simpl. rewrite IH. reflexivity.
Qed.

(** X6.  The provider's lines for sales tax and tip do not become
    items.  No item row the ensure route inserts is named "sales tax" or
    "tip", in any letter case, and it inserts one row for each other
    line; the cart the webhook rebuilds from the provider's lines gives
    the same rows. *)
Theorem tax_and_tip_lines_are_not_items :
  (forall (S : Type) (W : Collab S) (s : S) (cfg : Config) req row,
      In row (item_rows_inserted (trace_of W s (EnsureRoute.POST cfg req))) ->
      exists name,
        field "menu_item_name" row = Some (JStr name)
        /\ Js.toLowerCase name <> "sales tax" /\ Js.toLowerCase name <> "tip")
  /\ (forall order items,
        List.length (EnsureRoute.orderItemsData order items)
        = List.length (filter is_purchased items)
        /\ WebhookRoute.orderItemsData order (WebhookRoute.cart_of_line_items items)
           = EnsureRoute.orderItemsData order items).
Proof.
  split.
  - intros S W s cfg req row H.
    destruct (ensure_rows_of_run W s cfg req row H) as (order & items & _ & Hin).
    destruct (ensure_row_facts _ _ _ Hin) as (_ & li & _ & Hp & _ & Hname & _).
    destruct (purchased_name li Hp) as [H1 H2].
    exists (Js.opt_or (li_description li) "Item"). repeat split; assumption.
  - intros order items. split.
    + unfold EnsureRoute.orderItemsData. apply length_map.
    + apply rebuilt_cart_rows.
Qed.


(** X8.  The webhook calls the store and asks the provider for line
    items only for an event whose signature it verified, of type
    [checkout.session.completed], whose session is not unpaid and gives
    an accepted draft; key, secret and signature are then all there. *)
Theorem webhook_acts_only_on_verified_completed_events :
  forall (S : Type) (W : Collab S) (s : S) (cfg : Config) req e,
    In e (trace_of W s (WebhookRoute.POST cfg req)) ->
    is_store_call e || is_provider_call e = true ->
    Js.truthy (STRIPE_SECRET_KEY cfg) = true
    /\ Js.truthy (STRIPE_WEBHOOK_SECRET cfg) = true
    /\ present (WebhookRoute.stripe_signature req) = true
    /\ exists ev d,
        hd_error (verified (trace_of W s (WebhookRoute.POST cfg req))) = Some (Returned ev)
        /\ event_type ev = "checkout.session.completed"
        /\ not_paid (event_session ev) = false
        /\ WebhookRoute.draft (event_session ev) = WebhookRoute.Accepted d.
Proof.
  intros S W s cfg req e.
  open WebhookRoute.POST; open WebhookRoute.completed; open WebhookRoute.caught.
  walk.
  all: intros H He.
  all: try (pick_event H; subst e; discriminate He).
  all: apply orb_false_iff in Heqb as [Hk Hs].
  all: apply negb_false_iff in Hk, Hs, Heqb0.
  all: repeat split; auto.
  all: do 2 eexists; repeat split; eauto.
  all: apply String.eqb_eq; assumption.
Qed.

(** X9.  The ensure route writes to the store only when its existence
    check found no order and the session it retrieved is not unpaid and
    gives an accepted draft. *)
Theorem ensure_writes_only_for_a_paid_new_session :
  forall (S : Type) (W : Collab S) (s : S) (cfg : Config) req e,
    In e (writes (trace_of W s (EnsureRoute.POST cfg req))) ->
    hd_error (lookups (trace_of W s (EnsureRoute.POST cfg req))) = Some (DbOk None)
    /\ exists session d,
        hd_error (retrieved (trace_of W s (EnsureRoute.POST cfg req)))
        = Some (Returned session)
        /\ not_paid session = false
        /\ EnsureRoute.draft session = EnsureRoute.Accepted d.
Proof.
  intros S W s cfg req e H.
  destruct (ensure_POST_paths W s cfg req)
    as [(Hw & _) | (pre & s' & d & m & n & ss & Ht & _ & Hw & Hl & Hv & Hd & Hnp & _)].
  - rewrite Hw in H. destruct H.
  - rewrite Ht, lookups_app, retrieved_app, Hl, Hv. simpl.
    split; [reflexivity|]. exists ss, d. repeat split; assumption.
Qed.

Lemma is_valid_in (status : string) :
  StatusRoute.is_valid status = true -> In status StatusRoute.VALID_STATUSES.
Proof.
  unfold StatusRoute.is_valid. intros H.
  apply existsb_exists in H as (x & Hx & Heq).
  apply String.eqb_eq in Heq. subst x. exact Hx.
Qed.

(** X10.  What [PATCH] answers and what it wrote: status 200 only when
    the store confirmed the update of [status] to one of the four
    values, the reply being the row the store returned; status 404 and
    status 400 without any write; status 500 with no write or with the
    one update the store refused, whose message is the reply. *)
Theorem patch_outcomes :
  forall (S : Type) (W : Collab S) (s : S) (req : StatusRoute.Request),
    let tr := trace_of W s (StatusRoute.PATCH req) in
    let r := result_of W s (StatusRoute.PATCH req) in
    (status r = 200
     /\ exists target data,
         StatusRoute.parsed req = Returned (StatusRoute.StatusString target)
         /\ In target StatusRoute.VALID_STATUSES
         /\ writes tr = [EvUpdateOrder (StatusRoute.id req) [("status", JStr target)] (DbOk data)]
         /\ body r = BOrder data)
    \/ (r = json (BError "Order not found") 404 /\ writes tr = [])
    \/ (r = StatusRoute.invalid /\ tr = [])
    \/ (status r = 500
        /\ (writes tr = []
            \/ exists p e,
                writes tr = [EvUpdateOrder (StatusRoute.id req) p (DbErr e)]
                /\ body r = BError (Js.or_else (message e) "Failed to update order"))).
Proof.
  intros S W s req.
  open StatusRoute.PATCH; open StatusRoute.update; open StatusRoute.caught.
  destruct (StatusRoute.parsed req) as [[status | | truthy] | msg] eqn:Hp; simpl.
  - destruct (negb (Js.truthy status) || negb (StatusRoute.is_valid status)) eqn:Hv; simpl.
    + right. right. left. split; reflexivity.
    + apply orb_false_iff in Hv as [_ Hv]. apply negb_false_iff in Hv.
      walk.
      * left. split; [reflexivity|]. exists status, data0.
        repeat split. apply is_valid_in. exact Hv.
      * do 3 right. split; [reflexivity|]. right. do 2 eexists. split; reflexivity.
      * right. left. split; reflexivity.
      * right. left. split; reflexivity.
      * do 3 right. split; [reflexivity | left; reflexivity].
  - right. right. left. split; reflexivity.
  - right. right. left. split; reflexivity.
  - walk. do 3 right. split; [reflexivity | left; reflexivity].
Qed.

(** X11.  On the in-memory store, [PATCH] for an id no order has answers
    404 and leaves the tables as they were, whatever status is asked
    for. *)
Theorem patch_unknown_order_changes_nothing :
  forall (t : Store.Tables) (script : list Event) (id target : string),
    filter (Store.has_id id) (Store.orders t) = [] ->
    let req := StatusRoute.mkRequest id (Returned (StatusRoute.StatusString target)) in
    fst (state_after Store.collab (t, script) (StatusRoute.PATCH req)) = t
    /\ (In target StatusRoute.VALID_STATUSES ->
        result_of Store.collab (t, script) (StatusRoute.PATCH req)
        = json (BError "Order not found") 404).
Proof.
  intros t script id target Hno req. subst req.
  open StatusRoute.PATCH.
  destruct (negb (Js.truthy target) || negb (StatusRoute.is_valid target)) eqn:Hv; simpl.
  - split; [reflexivity|]. intros Hin.
    destruct (status_valid_truthy target Hin) as [Ht Hok].
    rewrite Ht, Hok in Hv. discriminate Hv.
  - open StatusRoute.update. unfold Store.select. simpl. rewrite Hno. simpl.
    split; [reflexivity | intros _; reflexivity].
Qed.

Lemma timingSafeEqual_eq (a b : string) :
  AdminRoute.timingSafeEqual a b = true <-> a = b.
Proof.
  revert b. induction a as [|x a IH]; intros [|y b]; simpl;
    try (split; [discriminate | discriminate]); [tauto|].
  rewrite andb_true_iff, Ascii.eqb_eq, IH.
  split; [intros [-> ->]; reflexivity | intros H; injection H; auto].
Qed.

Lemma safeEqual_eq (a b : string) : AdminRoute.safeEqual a b = true <-> a = b.
Proof.
  unfold AdminRoute.safeEqual.
  destruct (Nat.eqb_spec (String.length a) (String.length b)) as [_ | Hne]; simpl.
  - apply timingSafeEqual_eq.
  - split; [discriminate | intros ->; contradiction].
Qed.

(** X12.  The admin check lets in exactly the password configured:
    [ok] is answered, with status 200, if and only if [ADMIN_PASSWORD]
    is set, not empty, and the password sent is that very string.
    Without a configured password the answer is status 400, never
    [ok]; otherwise a refusal is status 401. *)
Theorem admin_password_is_exact :
  forall (configured password : option string),
    (AdminRoute.ok (AdminRoute.POST configured password) = true
     <-> exists pw, configured = Some pw /\ password = Some pw /\ pw <> "")
    /\ (AdminRoute.ok (AdminRoute.POST configured password) = true ->
        AdminRoute.http (AdminRoute.POST configured password) = 200)
    /\ (AdminRoute.ok (AdminRoute.POST configured password) = false ->
        AdminRoute.http (AdminRoute.POST configured password)
        = match AdminRoute.getAdminPassword configured with
          | Threw _ => 400
          | Returned _ => 401
          end).
Proof.
  intros configured password. unfold AdminRoute.POST.
  destruct (AdminRoute.getAdminPassword configured) as [expected|msg] eqn:Hg.
  - assert (Hc : configured = Some expected /\ expected <> "").
    { unfold AdminRoute.getAdminPassword in Hg.
      destruct configured as [pw|]; [|discriminate].
      destruct (Js.truthy pw) eqn:Ht; [|discriminate].
      injection Hg as <-. split; [reflexivity | apply truthy_not_empty; exact Ht]. }
    destruct Hc as [-> Hne].
    set (p := match password with Some p => p | None => "" end).
    destruct (negb (Js.truthy p) || negb (AdminRoute.safeEqual p expected)) eqn:Hchk; simpl.
    + split; [|split; [discriminate | reflexivity]].
      split; [discriminate|]. intros (pw & Hpw & -> & _). injection Hpw as <-.
      subst p. apply orb_true_iff in Hchk as [Hchk | Hchk];
        apply negb_true_iff in Hchk.
      * apply truthy_not_empty in Hne. congruence.
      * assert (AdminRoute.safeEqual expected expected = true)
          by (apply safeEqual_eq; reflexivity). congruence.
    + split; [|split; [reflexivity | discriminate]].
      split; [|reflexivity]. intros _.
      apply orb_false_iff in Hchk as [Ht Heq].
      apply negb_false_iff in Ht, Heq. apply safeEqual_eq in Heq.
      exists expected. subst p. destruct password as [q|].
      * subst q. repeat split; auto.
      * subst expected. contradiction.
  - simpl. split; [|split; [discriminate | reflexivity]].
    split; [discriminate|]. intros (pw & -> & _ & Hne).
    unfold AdminRoute.getAdminPassword in Hg.
    apply truthy_not_empty in Hne. rewrite Hne in Hg. discriminate Hg.
Qed.

(** Running a handler on the in-memory store: a call replayed from the
    script is named with the script that is left; an insert or update
    is named with the tables it leaves. *)
Ltac store_step :=
  match goal with
  | |- context [Replay.next ?sc ?c] =>
      let r := fresh "reply" in
      let sc' := fresh "script" in
      destruct (Replay.next sc c) as [r sc']; simpl in r; simpl
  | |- context [Store.insert_order ?t ?p] =>
      let r := fresh "reply" in
      let t' := fresh "t" in
      destruct (Store.insert_order t p) as [r t'] eqn:?; simpl
  | |- context [if Store.numbered ?t then _ else _] =>
      destruct (Store.numbered t) eqn:?; simpl
  | |- context [Store.update_order ?t ?i ?p] =>
      let r := fresh "reply" in
      let t' := fresh "t" in
      destruct (Store.update_order t i p) as [r t'] eqn:?; simpl
  end.

Ltac store_walk := repeat (first [store_step | branch_step]).

Lemma store_pick_none (rows : list Row) (f : Row -> Row) :
  Store.pick MaybeSingle (map f rows) = DbOk None -> rows = [].
Proof.
  destruct rows as [|r [|r' l]]; simpl; [reflexivity | discriminate | discriminate].
Qed.

Lemma store_insert_ok (t t' : Store.Tables) (p : Payload) (order : Row) :
  Store.insert_order t p = (DbOk order, t') ->
  Store.orders t' = (Store.orders t ++ [order])%list
  /\ Store.order_items t' = Store.order_items t
  /\ row_cols order = ("id", JStr (row_id order)) :: p.
Proof.
  unfold Store.insert_order.
  destruct (field "order_number" p) as [v|]; destruct (Store.numbered t);
    try discriminate;
    destruct (field "stripe_session_id" p) as [[| sid | |]|];
    try destruct (existsb (Store.has_session sid) (Store.orders t));
    try discriminate;
    intros H; injection H as <- <-; repeat split.
Qed.

Lemma store_insert_failed (t t' : Store.Tables) (p : Payload) (e : DbError) :
  Store.insert_order t p = (DbErr e, t') -> t' = t.
Proof.
  unfold Store.insert_order.
  destruct (field "order_number" p) as [v|]; destruct (Store.numbered t);
    try (intros H; injection H as _ <-; reflexivity);
    destruct (field "stripe_session_id" p) as [[| sid | |]|];
    try destruct (existsb (Store.has_session sid) (Store.orders t));
    try discriminate;
    intros H; injection H as _ <-; reflexivity.
Qed.

Lemma store_created (t t' : Store.Tables) (p : Payload) (order : Row)
  (sid digits : string) :
  Store.insert_order t p = (DbOk order, t') ->
  field "stripe_session_id" p = Some (JStr sid) ->
  field "customer_phone" p = Some (JStr digits) ->
  Store.has_session sid order = true
  /\ Store.orders t' = (Store.orders t ++ [order])%list
  /\ LookupRoute.phone_of order = Some digits.
Proof.
  intros H Hf Hp. destruct (store_insert_ok _ _ _ _ H) as (Ho & _ & Hc).
  unfold Store.has_session, LookupRoute.phone_of. rewrite Hc. simpl.
  rewrite Hf, Hp. repeat split; [apply String.eqb_refl | exact Ho].
Qed.

Section EnsureOnStore.

Variables (t : Store.Tables) (script : list Event) (cfg : Config)
          (req : EnsureRoute.Request).

Lemma ensure_creates_on_store :
  created_flag (result_of Store.collab (t, script) (EnsureRoute.POST cfg req)) = Some true ->
  Js.truthy (STRIPE_SECRET_KEY cfg) = true
  /\ Js.truthy (sessionId_of req) = true
  /\ filter (Store.has_session (sessionId_of req)) (Store.orders t) = []
  /\ exists order digits,
      Store.has_session (sessionId_of req) order = true
      /\ Store.orders (fst (state_after Store.collab (t, script) (EnsureRoute.POST cfg req)))
         = (Store.orders t ++ [order])%list
      /\ LookupRoute.phone_of order = Some digits
      /\ all_digits digits = true
      /\ (10 <= String.length digits)%nat.
Proof.
  unfold sessionId_of.
  open EnsureRoute.POST; open EnsureRoute.allocate_number; open EnsureRoute.insert_order;
    open EnsureRoute.after_insert; open EnsureRoute.insert_items; open EnsureRoute.reread;
    open EnsureRoute.caught.
  store_walk.
  all: unfold created_flag; simpl; intros Hc; try discriminate Hc.
  all: apply negb_false_iff in Heqb, Heqb0.
  all: repeat match goal with
         | H : Store.insert_order _ _ = (DbErr _, _) |- _ =>
             apply store_insert_failed in H; subst
         end.
  all: match goal with
       | H : Store.pick MaybeSingle _ = DbOk None |- _ => apply store_pick_none in H
       end.
  all: match goal with
       | H : Store.insert_order _ (_ _ ?d _) = (DbOk ?o, _) |- _ =>
           destruct (store_created _ _ _ _
                       (match EnsureRoute.sessionId req with Some x => x | None => "" end)
                       (EnsureRoute.customerPhoneDigits d)
                       H eq_refl eq_refl) as (Hs & Ho & Hp)
       end.
  all: match goal with
       | H : EnsureRoute.draft _ = EnsureRoute.Accepted _ |- _ =>
           destruct (ensure_draft_facts _ _ H) as (_ & Hdig & Hlen & _)
       end.
  all: repeat split; auto.
  all: do 2 eexists; repeat split; eauto.
Qed.

(** The ensure route on a store that holds one order for the session. *)
Lemma ensure_on_stored_session (order : Row) :
  Js.truthy (STRIPE_SECRET_KEY cfg) = true ->
  Js.truthy (sessionId_of req) = true ->
  filter (Store.has_session (sessionId_of req)) (Store.orders t) = [order] ->
  result_of Store.collab (t, script) (EnsureRoute.POST cfg req)
  = found (Store.project t AllWithItems order)
  /\ state_after Store.collab (t, script) (EnsureRoute.POST cfg req) = (t, script).
Proof.
  unfold sessionId_of. intros Hk Hs Hf.
  open EnsureRoute.POST. rewrite Hk, Hs. simpl. rewrite Hf. simpl.
  split; reflexivity.
Qed.

End EnsureOnStore.

(** What a run of the ensure route that answers [created = true] on the
    in-memory store leaves behind. *)
Lemma ensure_leaves_one_order :
  forall (t : Store.Tables) (script : list Event) (cfg : Config)
         (req : EnsureRoute.Request),
    created_flag (result_of Store.collab (t, script) (EnsureRoute.POST cfg req)) = Some true ->
    let t1 := fst (state_after Store.collab (t, script) (EnsureRoute.POST cfg req)) in
    Js.truthy (STRIPE_SECRET_KEY cfg) = true
    /\ Js.truthy (sessionId_of req) = true
    /\ exists order digits,
        Store.orders t1 = (Store.orders t ++ [order])%list
        /\ filter (Store.has_session (sessionId_of req)) (Store.orders t1) = [order]
        /\ LookupRoute.phone_of order = Some digits
        /\ all_digits digits = true
        /\ (10 <= String.length digits)%nat.
Proof.
  intros t script cfg req Hc t1.
  destruct (ensure_creates_on_store t script cfg req Hc)
    as (Hk & Hs & Hf & order & digits & Ho & Ht1 & Hp & Hd & Hl).
  fold t1 in Ht1. repeat split; try assumption.
  exists order, digits. repeat split; try assumption.
  rewrite Ht1, filter_app, Hf. simpl. rewrite Ho. reflexivity.
Qed.

(** X13.  Calling the ensure route twice on the in-memory store: when
    the first call answers [created = true], the store holds one order
    more, the only one of the session, and any later call for the
    session answers that order with [created = false] and leaves the
    tables as they are. *)
Theorem ensure_twice_creates_once :
  forall (t : Store.Tables) (script later : list Event) (cfg : Config)
         (req : EnsureRoute.Request),
    created_flag (result_of Store.collab (t, script) (EnsureRoute.POST cfg req)) = Some true ->
    let t1 := fst (state_after Store.collab (t, script) (EnsureRoute.POST cfg req)) in
    exists order,
      Store.orders t1 = (Store.orders t ++ [order])%list
      /\ filter (Store.has_session (sessionId_of req)) (Store.orders t1) = [order]
      /\ result_of Store.collab (t1, later) (EnsureRoute.POST cfg req)
         = found (Store.project t1 AllWithItems order)
      /\ fst (state_after Store.collab (t1, later) (EnsureRoute.POST cfg req)) = t1.
Proof.
  intros t script later cfg req Hc t1.
  destruct (ensure_leaves_one_order t script cfg req Hc)
    as (Hk & Hs & order & digits & Ht1 & Hf1 & _).
  fold t1 in Ht1, Hf1. exists order.
  destruct (ensure_on_stored_session t1 later cfg req order Hk Hs Hf1) as [Hr Hst].
  repeat split; try assumption. rewrite Hst. reflexivity.
Qed.

Lemma webhook_check_existing_on_store (t : Store.Tables) (order : Row)
  (script : list Event) session d items :
  filter (Store.has_session (session_id session)) (Store.orders t) = [order] ->
  state_after Store.collab (t, script) (WebhookRoute.check_existing session d items)
  = (t, script)
  /\ result_of Store.collab (t, script) (WebhookRoute.check_existing session d items)
     = json (BReceived (Some "Order already processed")) 200
  /\ writes (trace_of Store.collab (t, script) (WebhookRoute.check_existing session d items))
     = [].
Proof.
  intros Hf.
  open WebhookRoute.check_existing; open WebhookRoute.skip_existing.
  destruct (Store.numbered t) eqn:Hn; simpl; rewrite ?Hf; simpl; repeat split.
Qed.

(** X14.  The webhook on the in-memory store, for a verified event
    whose session already has its one order there: nothing is written
    and the tables stay as they are. *)
Theorem webhook_keeps_a_stored_session :
  forall (t : Store.Tables) (script : list Event) (cfg : Config)
         (req : WebhookRoute.Request) (ev : StripeEvent) (order : Row),
    hd_error (verified (trace_of Store.collab (t, script) (WebhookRoute.POST cfg req)))
    = Some (Returned ev) ->
    filter (Store.has_session (session_id (event_session ev))) (Store.orders t) = [order] ->
    fst (state_after Store.collab (t, script) (WebhookRoute.POST cfg req)) = t
    /\ writes (trace_of Store.collab (t, script) (WebhookRoute.POST cfg req)) = []
    /\ (status (result_of Store.collab (t, script) (WebhookRoute.POST cfg req)) <> 500 ->
        result_of Store.collab (t, script) (WebhookRoute.POST cfg req) = acknowledged
        \/ result_of Store.collab (t, script) (WebhookRoute.POST cfg req)
           = json (BReceived None) 200).
Proof.
  intros t script cfg req ev order.
  open WebhookRoute.POST; open WebhookRoute.completed;
    open WebhookRoute.load_items; open WebhookRoute.rebuild_items;
    open WebhookRoute.caught.
  store_walk.
  all: intros Hv Hf; try discriminate Hv.
  all: injection Hv as ->.
  all: try match goal with
       | |- context [trace_of _ (?t0, ?s0) (WebhookRoute.check_existing ?a ?b ?c)] =>
           destruct (webhook_check_existing_on_store t0 order s0 a b c Hf)
             as (Hst & Hr & Hw); rewrite ?Hst, ?Hr, ?filter_app, ?Hw
       end.
  all: simpl.
  all: split; [reflexivity | split; [reflexivity|]].
  all: intros Hs.
  all: first [left; reflexivity | right; reflexivity | exfalso; apply Hs; reflexivity].
Qed.

(** X16.  The tracking route never writes and asks the store once at
    most: without a [sessionId] it answers 400 and calls nothing; when
    the client cannot be made or the select fails it answers 500; or it
    answers what the one select by session id returned. *)
Theorem tracking_reads_once_and_never_writes :
  forall (S : Type) (W : Collab S) (s : S) (sessionId : option string),
  let tr := trace_of W s (SessionRoute.GET sessionId) in
  let r := result_of W s (SessionRoute.GET sessionId) in
  writes tr = []
  /\ (r = SessionRoute.Failed "sessionId is required" 400 /\ tr = []
      \/ present sessionId = true
         /\ ((exists msg, r = SessionRoute.Failed msg 500 /\ lookups tr = [])
             \/ (exists e msg, r = SessionRoute.Failed msg 500 /\ lookups tr = [DbErr e])
             \/ (exists order, r = SessionRoute.Found order /\ lookups tr = [DbOk order]))).
Proof.
  intros S W s sessionId.
  unfold SessionRoute.GET, SessionRoute.caught.
  walk.
  all: split; [reflexivity|].
  all: try (left; split; reflexivity).
  all: apply negb_false_iff in Heqb.
  all: right; split; [exact Heqb|].
  - right; right. eexists; split; reflexivity.
  - right; left. do 2 eexists; split; reflexivity.
  - left. eexists; split; reflexivity.
Qed.

(** X15.  An order the ensure route created on the in-memory store is
    what the tracking route then answers for the same session id, with
    the items stored for it. *)
Theorem tracking_finds_the_order_ensure_created :
  forall (t : Store.Tables) (script later : list Event) (cfg : Config)
         (req : EnsureRoute.Request),
    created_flag (result_of Store.collab (t, script) (EnsureRoute.POST cfg req)) = Some true ->
    let t1 := fst (state_after Store.collab (t, script) (EnsureRoute.POST cfg req)) in
    exists order,
      Store.orders t1 = (Store.orders t ++ [order])%list
      /\ result_of Store.collab (t1, later) (SessionRoute.GET (EnsureRoute.sessionId req))
         = SessionRoute.Found (Some (Store.project t1 AllWithItems order)).
Proof.
  intros t script later cfg req Hc t1.
  destruct (ensure_leaves_one_order t script cfg req Hc)
    as (_ & Hs & order & digits & Ht1 & Hf1 & _).
  fold t1 in Ht1, Hf1. exists order. split; [exact Ht1|].
  unfold sessionId_of in Hs, Hf1. unfold SessionRoute.GET.
  destruct (EnsureRoute.sessionId req) as [sid|]; [|discriminate Hs].
  simpl. rewrite Hs. simpl. rewrite Hf1. reflexivity.
Qed.

Lemma replace_non_digits_empty (s : string) :
  Js.truthy (Js.replace_non_digits s) = true -> Js.truthy s = true.
Proof. destruct s; [discriminate | reflexivity]. Qed.

Lemma replace_non_digits_idem (s : string) :
  all_digits s = true -> Js.replace_non_digits s = s.
Proof.
  unfold all_digits. induction s as [|c s IH]; [reflexivity|].
  simpl. intros H. apply andb_true_iff in H as [Hc Hs].
  rewrite Hc, (IH Hs). reflexivity.
Qed.

Section Lookup.

Variable w : LookupRoute.World.

(** X17.  A lookup by phone: the store is asked for the digits of the
    phone, the pattern search follows only an exact search that found
    nothing, and every order answered passes the age test. *)
Theorem lookup_by_phone_answers_recent_orders :
  forall (request : LookupRoute.Request) (queries : list LookupRoute.Query)
         (rows : list Row),
    present (LookupRoute.orderId request) = false ->
    LookupRoute.GET w request = (queries, LookupRoute.Orders rows) ->
    let digits :=
      Js.replace_non_digits
        (match LookupRoute.phone request with Some s => s | None => "" end) in
    present (LookupRoute.phone request) = true
    /\ Forall (fun r => LookupRoute.recent w r = true) rows
    /\ (queries = [LookupRoute.ByPhone digits]
        /\ LookupRoute.reply w (LookupRoute.ByPhone digits)
           <> DbOk []
        \/ queries = [LookupRoute.ByPhone digits; LookupRoute.ByPhoneLike digits]
           /\ LookupRoute.reply w (LookupRoute.ByPhone digits) = DbOk []).
Proof.
  intros request queries rows Ho. unfold LookupRoute.GET. rewrite Ho.
  destruct (present (LookupRoute.phone request)); simpl; [|discriminate].
  destruct (LookupRoute.createServerClient w); [|discriminate].
  set (digits := Js.replace_non_digits _).
  destruct (LookupRoute.reply w (LookupRoute.ByPhone digits)) as [[|r l]|e] eqn:E;
    simpl.
  - destruct (LookupRoute.reply w (LookupRoute.ByPhoneLike digits)) as [l|e];
      simpl; [|discriminate].
    intros H. injection H as <- <-. split; [reflexivity|].
    split; [|right; split; reflexivity].
    apply Forall_forall. intros x Hx. apply filter_In in Hx. apply Hx.
  - intros H. injection H as <- <-. split; [reflexivity|].
    split; [|left; split; [reflexivity | discriminate]].
    apply Forall_forall. intros x Hx.
    change (In x (filter (LookupRoute.recent w) (r :: l))) in Hx.
    apply filter_In in Hx. apply Hx.
  - discriminate.
Qed.

(** X18.  A lookup by order id makes one select, by that id; the phone
    of the request plays no part and no order is left out for its
    age. *)
Theorem lookup_by_id_ignores_phone_and_age :
  forall (request : LookupRoute.Request) (id : string),
    LookupRoute.orderId request = Some id ->
    Js.truthy id = true ->
    LookupRoute.GET w request
    = LookupRoute.GET w (LookupRoute.mkRequest None (Some id))
    /\ (forall rows,
          LookupRoute.createServerClient w = Returned tt ->
          LookupRoute.reply w (LookupRoute.ById id) = DbOk rows ->
          LookupRoute.GET w request = ([LookupRoute.ById id], LookupRoute.Orders rows)).
Proof.
  intros request id Ho Hid. unfold LookupRoute.GET. rewrite Ho. simpl. rewrite Hid.
  rewrite andb_false_r. simpl. split; [reflexivity|].
  intros rows Hc Hr. rewrite Hc, Hr. reflexivity.
Qed.

End Lookup.

Lemma includes_empty (s : string) : Js.includes "" s = true.
Proof. destruct s; reflexivity. Qed.

Section LookupInMemory.

Variables (t : Store.Tables) (recent : Row -> bool).


Lemma lookup_exact_hit (order : Row) (digits phone : string) :
  In order (Store.orders t) ->
  LookupRoute.phone_of order = Some digits ->
  (10 <= String.length digits)%nat ->
  Js.replace_non_digits phone = digits ->
  recent (Store.project t AllWithItems order) = true ->
  exists rows,
    LookupRoute.GET
      (LookupRoute.mkWorld (Returned tt) (LookupRoute.in_memory t) recent)
      (LookupRoute.mkRequest (Some phone) None)
    = ([LookupRoute.ByPhone digits], LookupRoute.Orders rows)
    /\ In (Store.project t AllWithItems order) rows.
Proof.
  intros Hin Hp Hlen Hd Hrec.
  assert (Ht : Js.truthy phone = true).
  { apply replace_non_digits_empty. rewrite Hd.
    destruct digits; [simpl in Hlen; lia | reflexivity]. }
  assert (Hhit : In (Store.project t AllWithItems order)
                   (map (Store.project t AllWithItems)
                      (filter (LookupRoute.matches (LookupRoute.ByPhone digits))
                         (Store.orders t)))).
  { apply in_map, filter_In. split; [exact Hin|].
    simpl. rewrite Hp. apply String.eqb_refl. }
  unfold LookupRoute.GET. simpl. rewrite Ht. simpl. rewrite Hd.
  unfold LookupRoute.in_memory.
  destruct (map _ _) as [|r l] eqn:E; [destruct Hhit|].
  exists (filter recent (r :: l)). split; [reflexivity|].
  apply filter_In. split; [exact Hhit | exact Hrec].
Qed.

End LookupInMemory.

(** X19.  An order the ensure route created on the in-memory store is
    found by a lookup with the customer's phone however it is
    punctuated, by the exact search alone, provided it passes the age
    test. *)
Theorem lookup_finds_the_order_ensure_created :
  forall (t : Store.Tables) (script : list Event) (cfg : Config)
         (req : EnsureRoute.Request) (recent : Row -> bool),
    created_flag (result_of Store.collab (t, script) (EnsureRoute.POST cfg req)) = Some true ->
    let t1 := fst (state_after Store.collab (t, script) (EnsureRoute.POST cfg req)) in
    let w := LookupRoute.mkWorld (Returned tt) (LookupRoute.in_memory t1) recent in
    exists order digits,
      Store.orders t1 = (Store.orders t ++ [order])%list
      /\ LookupRoute.phone_of order = Some digits
      /\ forall phone,
           Js.replace_non_digits phone = digits ->
           recent (Store.project t1 AllWithItems order) = true ->
           exists rows,
             LookupRoute.GET w (LookupRoute.mkRequest (Some phone) None)
             = ([LookupRoute.ByPhone digits], LookupRoute.Orders rows)
             /\ In (Store.project t1 AllWithItems order) rows.
Proof.
  intros t script cfg req recent Hc t1 w.
  destruct (ensure_leaves_one_order t script cfg req Hc)
    as (_ & _ & order & digits & Ht1 & _ & Hp & _ & Hlen).
  fold t1 in Ht1. exists order, digits.
  split; [exact Ht1|]. split; [exact Hp|].
  intros phone Hd Hrec.
  apply (lookup_exact_hit t1 recent order digits phone); try assumption.
  rewrite Ht1. apply in_or_app. right. left. reflexivity.
Qed.

(** X20.  A lookup with a phone that holds no digit, on the in-memory
    store where no order has an empty phone: the exact search finds
    nothing, the pattern search is for the empty pattern, and the reply
    lists every order with a phone that passes the age test. *)
Theorem lookup_without_digits_lists_all_recent_orders :
  forall (t : Store.Tables) (recent : Row -> bool) (phone : string),
    Js.truthy phone = true ->
    Js.replace_non_digits phone = "" ->
    (forall r, In r (Store.orders t) -> LookupRoute.phone_of r <> Some "") ->
    LookupRoute.GET
      (LookupRoute.mkWorld (Returned tt) (LookupRoute.in_memory t) recent)
      (LookupRoute.mkRequest (Some phone) None)
    = ([LookupRoute.ByPhone ""; LookupRoute.ByPhoneLike ""],
       LookupRoute.Orders
         (filter recent
            (map (Store.project t AllWithItems)
               (filter (fun r => match LookupRoute.phone_of r with
                                 | Some _ => true | None => false end)
                  (Store.orders t))))).
Proof.
  intros t recent phone Ht Hd Hne.
  assert (Hexact : filter (LookupRoute.matches (LookupRoute.ByPhone "")) (Store.orders t)
                   = []).
  { induction (Store.orders t) as [|r l IH]; [reflexivity|].
    simpl. destruct (LookupRoute.phone_of r) as [s|] eqn:E.
    - destruct (String.eqb_spec s "") as [->|_].
      + exfalso. exact (Hne r (or_introl eq_refl) E).
      + apply IH. intros x Hx. apply Hne. right. exact Hx.
    - apply IH. intros x Hx. apply Hne. right. exact Hx. }
  assert (Hlike : filter (LookupRoute.matches (LookupRoute.ByPhoneLike "")) (Store.orders t)
                  = filter (fun r => match LookupRoute.phone_of r with
                                     | Some _ => true | None => false end)
                      (Store.orders t)).
  { apply filter_ext. intros r. simpl.
    destruct (LookupRoute.phone_of r); [apply includes_empty | reflexivity]. }
  unfold LookupRoute.GET. simpl. rewrite Ht. simpl. rewrite Hd.
  unfold LookupRoute.in_memory. rewrite Hexact, Hlike. reflexivity.
Qed.


(** X22.  When creating the store's client throws, each handler ends
    in its [catch]: the store is not called and the reply has status
    500, with the message of the error except in the webhook. *)
Theorem without_a_client_no_store_call :
  forall (S : Type) (W : Collab S) (s : S) (msg : string),
    (forall cfg req,
        hd_error (clients (trace_of W s (EnsureRoute.POST cfg req))) = Some (Threw msg) ->
        filter is_store_call (trace_of W s (EnsureRoute.POST cfg req)) = []
        /\ result_of W s (EnsureRoute.POST cfg req)
           = json (BError (Js.or_else msg "Failed to ensure order")) 500)
    /\ (forall cfg req,
        hd_error (clients (trace_of W s (WebhookRoute.POST cfg req))) = Some (Threw msg) ->
        filter is_store_call (trace_of W s (WebhookRoute.POST cfg req)) = []
        /\ result_of W s (WebhookRoute.POST cfg req)
           = json (BError "Failed to process order") 500)
    /\ (forall req,
        hd_error (clients (trace_of W s (StatusRoute.PATCH req))) = Some (Threw msg) ->
        filter is_store_call (trace_of W s (StatusRoute.PATCH req)) = []
        /\ result_of W s (StatusRoute.PATCH req)
           = json (BError (Js.or_else msg "Failed to update order")) 500)
    /\ (forall sessionId,
        hd_error (clients (trace_of W s (SessionRoute.GET sessionId))) = Some (Threw msg) ->
        filter is_store_call (trace_of W s (SessionRoute.GET sessionId)) = []
        /\ result_of W s (SessionRoute.GET sessionId)
           = SessionRoute.Failed (Js.or_else msg "Failed to fetch order by session") 500).
Proof.
  intros S W s msg.
  split; [|split; [|split]].
  - intros cfg req.
    open EnsureRoute.POST; open EnsureRoute.caught.
    walk.
    all: intros H; try discriminate H.
    all: injection H as ->; split; reflexivity.
  - intros cfg req.
    open WebhookRoute.POST; open WebhookRoute.completed; open WebhookRoute.caught.
    walk.
    all: intros H; try discriminate H.
    all: injection H as ->; split; reflexivity.
  - intros req.
    open StatusRoute.PATCH; open StatusRoute.update; open StatusRoute.caught.
    walk.
    all: intros H; try discriminate H.
    all: injection H as ->; split; reflexivity.
  - intros sessionId.
    unfold SessionRoute.GET, SessionRoute.caught.
    walk.
    all: intros H; try discriminate H.
    all: injection H as ->; split; reflexivity.
Qed.

Lemma lower_char_idem (c : ascii) : Js.lower_char (Js.lower_char c) = Js.lower_char c.
Proof.
  destruct c as [[] [] [] [] [] [] [] []]; reflexivity.
Qed.

Lemma toLowerCase_idem (s : string) : Js.toLowerCase (Js.toLowerCase s) = Js.toLowerCase s.
Proof.
  induction s as [|c s IH]; [reflexivity|].
  simpl. rewrite lower_char_idem, IH. reflexivity.
Qed.

(** X23.  The test for a missing column looks at the message without
    regard to letter case, and holds of every message that has
    [could not find] or [schema cache] anywhere in it, or both
    [column] and, later, [does not exist]. *)
Theorem missing_column_test_is_case_blind :
  (forall msg, isMissingColumnError (Js.toLowerCase msg) = isMissingColumnError msg)
  /\ (forall a b, isMissingColumnError (a ++ "could not find" ++ b) = true)
  /\ (forall a b, isMissingColumnError (a ++ "schema cache" ++ b) = true)
  /\ (forall a b c,
        isMissingColumnError (a ++ "column" ++ b ++ "does not exist" ++ c) = true).
Proof.
  assert (Hne : forall a n b, n <> "" -> Js.truthy (a ++ n ++ b) = true).
  { intros a n b Hn. destruct a; [|reflexivity]. destruct n; [contradiction | reflexivity]. }
  repeat split.
  - intros msg. unfold isMissingColumnError. rewrite toLowerCase_idem.
    destruct msg; reflexivity.
  - intros a b. unfold isMissingColumnError.
    rewrite Hne by discriminate. simpl negb. cbv iota.
    rewrite !toLowerCase_app.
    change (Js.toLowerCase "could not find") with "could not find".
    rewrite includes_app. apply orb_true_iff. left. apply orb_true_r.
  - intros a b. unfold isMissingColumnError.
    rewrite Hne by discriminate. simpl negb. cbv iota.
    rewrite !toLowerCase_app.
    change (Js.toLowerCase "schema cache") with "schema cache".
    rewrite includes_app. apply orb_true_r.
  - intros a b c. unfold isMissingColumnError.
    rewrite Hne by discriminate. simpl negb. cbv iota.
    rewrite !toLowerCase_app.
    change (Js.toLowerCase "column") with "column".
    change (Js.toLowerCase "does not exist") with "does not exist".
    rewrite includes_app.
    replace (Js.toLowerCase a ++ "column" ++ Js.toLowerCase b ++ "does not exist"
             ++ Js.toLowerCase c)
      with ((Js.toLowerCase a ++ "column" ++ Js.toLowerCase b) ++ "does not exist"
            ++ Js.toLowerCase c).
    + rewrite includes_app. reflexivity.
    + rewrite !string_app_assoc. reflexivity.
Qed.

(* ================================================================= *)
(** ** The properties on the scenarios *)

(** The first entry of a list computed from a run. *)
Ltac first_pair l p x E :=
  destruct l as [|[p x] ?] eqn:E; [vm_compute in E; discriminate E|].

Ltac first_one l x E :=
  destruct l as [|x ?] eqn:E; [vm_compute in E; discriminate E|].

Lemma orders_inserted_pending_under_their_session_witness :
  (exists p x,
      hd_error (order_inserts
                  (trace_of Store.collab Scenario.fresh
                     (EnsureRoute.POST Sample.cfg Sample.ensure_request))) = Some (p, x)
      /\ field "status" p = Some (JStr "pending")
      /\ field "stripe_session_id" p = Some (JStr "sess_123"))
  /\ (exists p x,
      hd_error (order_inserts
                  (trace_of Store.collab Scenario.delivery
                     (WebhookRoute.POST Sample.cfg Sample.webhook_request))) = Some (p, x)
      /\ field "status" p = Some (JStr "pending")).
Proof.
  split.
  - first_pair (order_inserts (trace_of Store.collab Scenario.fresh
                                 (EnsureRoute.POST Sample.cfg Sample.ensure_request))) p x E.
    exists p, x. split; [reflexivity|].
    destruct (proj1 (orders_inserted_pending_under_their_session
                       _ Store.collab Scenario.fresh Sample.cfg)
                Sample.ensure_request p x) as (H1 & H2 & _).
    { rewrite E. left. reflexivity. }
    split; [exact H1 | exact H2].
  - first_pair (order_inserts (trace_of Store.collab Scenario.delivery
                                 (WebhookRoute.POST Sample.cfg Sample.webhook_request))) p x E.
    exists p, x. split; [reflexivity|].
    destruct (proj2 (orders_inserted_pending_under_their_session
                       _ Store.collab Scenario.delivery Sample.cfg)
                Sample.webhook_request p x) as (H1 & _).
    { rewrite E. left. reflexivity. }
    exact H1.
Defined.

Lemma orders_inserted_with_name_and_phone_digits_witness :
  (exists p x,
      hd_error (order_inserts
                  (trace_of Store.collab Scenario.fresh
                     (EnsureRoute.POST Sample.cfg Sample.ensure_request))) = Some (p, x)
      /\ exists name digits,
          field "customer_name" p = Some (JStr name) /\ name <> ""
          /\ field "customer_phone" p = Some (JStr digits)
          /\ all_digits digits = true /\ (10 <= String.length digits)%nat)
  /\ (exists p x,
      hd_error (order_inserts
                  (trace_of Store.collab Scenario.delivery
                     (WebhookRoute.POST Sample.cfg Sample.webhook_request))) = Some (p, x)
      /\ exists name digits,
          field "customer_name" p = Some (JStr name) /\ name <> ""
          /\ field "customer_phone" p = Some (JStr digits)
          /\ all_digits digits = true /\ (10 <= String.length digits)%nat).
Proof.
  split.
  - first_pair (order_inserts (trace_of Store.collab Scenario.fresh
                                 (EnsureRoute.POST Sample.cfg Sample.ensure_request))) p x E.
    exists p, x. split; [reflexivity|].
    apply (proj1 (orders_inserted_with_name_and_phone_digits
                    _ Store.collab Scenario.fresh Sample.cfg)
             Sample.ensure_request p x).
    rewrite E. left. reflexivity.
  - first_pair (order_inserts (trace_of Store.collab Scenario.delivery
                                 (WebhookRoute.POST Sample.cfg Sample.webhook_request))) p x E.
    exists p, x. split; [reflexivity|].
    apply (proj2 (orders_inserted_with_name_and_phone_digits
                    _ Store.collab Scenario.delivery Sample.cfg)
             Sample.webhook_request p x).
    rewrite E. left. reflexivity.
Defined.

Lemma orders_inserted_with_bounded_comments_witness :
  (exists p x,
      hd_error (order_inserts
                  (trace_of Store.collab Scenario.fresh
                     (EnsureRoute.POST Sample.cfg Sample.ensure_request))) = Some (p, x)
      /\ (field "comments" p = None \/ field "comments" p = Some JNull
          \/ exists c, field "comments" p = Some (JStr c) /\ (String.length c <= 400)%nat))
  /\ (exists p x,
      hd_error (order_inserts
                  (trace_of Store.collab Scenario.delivery
                     (WebhookRoute.POST Sample.cfg Sample.webhook_request))) = Some (p, x)
      /\ (field "comments" p = None \/ field "comments" p = Some JNull
          \/ exists c, field "comments" p = Some (JStr c) /\ (String.length c <= 400)%nat)).
Proof.
  split.
  - first_pair (order_inserts (trace_of Store.collab Scenario.fresh
                                 (EnsureRoute.POST Sample.cfg Sample.ensure_request))) p x E.
    exists p, x. split; [reflexivity|].
    apply (proj1 (orders_inserted_with_bounded_comments
                    _ Store.collab Scenario.fresh Sample.cfg)
             Sample.ensure_request p x).
    rewrite E. left. reflexivity.
  - first_pair (order_inserts (trace_of Store.collab Scenario.delivery
                                 (WebhookRoute.POST Sample.cfg Sample.webhook_request))) p x E.
    exists p, x. split; [reflexivity|].
    apply (proj2 (orders_inserted_with_bounded_comments
                    _ Store.collab Scenario.delivery Sample.cfg)
             Sample.webhook_request p x).
    rewrite E. left. reflexivity.
Defined.

Lemma item_rows_point_to_the_inserted_order_witness :
  (exists row order,
      hd_error (item_rows_inserted
                  (trace_of Store.collab Scenario.fresh
                     (EnsureRoute.POST Sample.cfg Sample.ensure_request))) = Some row
      /\ inserted_orders (trace_of Store.collab Scenario.fresh
                            (EnsureRoute.POST Sample.cfg Sample.ensure_request)) = [order]
      /\ field "order_id" row = Some (JStr (row_id order)))
  /\ (exists row order,
      hd_error (item_rows_inserted
                  (trace_of Store.collab Scenario.delivery
                     (WebhookRoute.POST Sample.cfg Sample.webhook_request))) = Some row
      /\ inserted_orders (trace_of Store.collab Scenario.delivery
                            (WebhookRoute.POST Sample.cfg Sample.webhook_request)) = [order]
      /\ field "order_id" row = Some (JStr (row_id order))).
Proof.
  split.
  - first_one (item_rows_inserted (trace_of Store.collab Scenario.fresh
                                     (EnsureRoute.POST Sample.cfg Sample.ensure_request)))
              row E.
    destruct (proj1 (item_rows_point_to_the_inserted_order
                       _ Store.collab Scenario.fresh Sample.cfg)
                Sample.ensure_request row) as (order & Ho & Hr).
    { rewrite E. left. reflexivity. }
    exists row, order. repeat split; assumption.
  - first_one (item_rows_inserted (trace_of Store.collab Scenario.delivery
                                     (WebhookRoute.POST Sample.cfg Sample.webhook_request)))
              row E.
    destruct (proj2 (item_rows_point_to_the_inserted_order
                       _ Store.collab Scenario.delivery Sample.cfg)
                Sample.webhook_request row) as (order & Ho & Hr).
    { rewrite E. left. reflexivity. }
    exists row, order. repeat split; assumption.
Defined.

Lemma tax_and_tip_lines_are_not_items_witness :
  List.length (item_rows_inserted
                 (trace_of Store.collab Scenario.fresh
                    (EnsureRoute.POST Sample.cfg Sample.ensure_request))) = 1%nat
  /\ exists row name,
      hd_error (item_rows_inserted
                  (trace_of Store.collab Scenario.fresh
                     (EnsureRoute.POST Sample.cfg Sample.ensure_request))) = Some row
      /\ field "menu_item_name" row = Some (JStr name)
      /\ Js.toLowerCase name <> "sales tax" /\ Js.toLowerCase name <> "tip".
Proof.
  split; [vm_compute; reflexivity|].
  first_one (item_rows_inserted (trace_of Store.collab Scenario.fresh
                                   (EnsureRoute.POST Sample.cfg Sample.ensure_request)))
            row E.
  destruct (proj1 tax_and_tip_lines_are_not_items
              _ Store.collab Scenario.fresh Sample.cfg Sample.ensure_request row)
    as (name & Hn & H1 & H2).
  { rewrite E. left. reflexivity. }
  exists row, name. repeat split; assumption.
Defined.


Lemma webhook_acts_only_on_verified_completed_events_witness :
  exists e ev d,
    hd_error (filter is_store_call
                (trace_of Store.collab Scenario.delivery
                   (WebhookRoute.POST Sample.cfg Sample.webhook_request))) = Some e
    /\ hd_error (verified (trace_of Store.collab Scenario.delivery
                             (WebhookRoute.POST Sample.cfg Sample.webhook_request)))
       = Some (Returned ev)
    /\ event_type ev = "checkout.session.completed"
    /\ not_paid (event_session ev) = false
    /\ WebhookRoute.draft (event_session ev) = WebhookRoute.Accepted d.
Proof.
  first_one (filter is_store_call
               (trace_of Store.collab Scenario.delivery
                  (WebhookRoute.POST Sample.cfg Sample.webhook_request))) e E.
  assert (Hin : In e (filter is_store_call
                        (trace_of Store.collab Scenario.delivery
                           (WebhookRoute.POST Sample.cfg Sample.webhook_request))))
    by (rewrite E; left; reflexivity).
  apply filter_In in Hin as [Hin He].
  destruct (webhook_acts_only_on_verified_completed_events
              _ Store.collab Scenario.delivery Sample.cfg Sample.webhook_request e Hin)
    as (_ & _ & _ & ev & d & Hv & Ht & Hp & Hd).
  { rewrite He. reflexivity. }
  exists e, ev, d. repeat split; assumption.
Defined.

Lemma ensure_writes_only_for_a_paid_new_session_witness :
  exists e session d,
    hd_error (writes (trace_of Store.collab Scenario.fresh
                        (EnsureRoute.POST Sample.cfg Sample.ensure_request))) = Some e
    /\ hd_error (lookups (trace_of Store.collab Scenario.fresh
                            (EnsureRoute.POST Sample.cfg Sample.ensure_request)))
       = Some (DbOk None)
    /\ hd_error (retrieved (trace_of Store.collab Scenario.fresh
                              (EnsureRoute.POST Sample.cfg Sample.ensure_request)))
       = Some (Returned session)
    /\ not_paid session = false
    /\ EnsureRoute.draft session = EnsureRoute.Accepted d.
Proof.
  first_one (writes (trace_of Store.collab Scenario.fresh
                       (EnsureRoute.POST Sample.cfg Sample.ensure_request))) e E.
  destruct (ensure_writes_only_for_a_paid_new_session
              _ Store.collab Scenario.fresh Sample.cfg Sample.ensure_request e)
    as (Hl & session & d & Hr & Hp & Hd).
  { rewrite E. left. reflexivity. }
  exists e, session, d. repeat split; assumption.
Defined.

Lemma patch_unknown_order_changes_nothing_witness :
  let req := StatusRoute.mkRequest "order-9" (Returned (StatusRoute.StatusString "ready")) in
  fst (state_after Store.collab (Scenario.settled, []) (StatusRoute.PATCH req))
  = Scenario.settled
  /\ result_of Store.collab (Scenario.settled, []) (StatusRoute.PATCH req)
     = json (BError "Order not found") 404.
Proof.
  intros req.
  destruct (patch_unknown_order_changes_nothing Scenario.settled [] "order-9" "ready")
    as [Hst Hr].
  { vm_compute. reflexivity. }
  split; [exact Hst|]. apply Hr. simpl. right. right. left. reflexivity.
Defined.

Lemma admin_password_is_exact_witness :
  AdminRoute.ok (AdminRoute.POST (Some "s3cret") (Some "s3cret")) = true
  /\ AdminRoute.http (AdminRoute.POST (Some "s3cret") (Some "s3cret")) = 200
  /\ AdminRoute.http (AdminRoute.POST (Some "s3cret") (Some "secret")) = 401
  /\ AdminRoute.http (AdminRoute.POST None (Some "secret")) = 400.
Proof.
  destruct (admin_password_is_exact (Some "s3cret") (Some "s3cret")) as (Hiff & Hok & _).
  destruct (admin_password_is_exact (Some "s3cret") (Some "secret")) as (_ & _ & Hno).
  destruct (admin_password_is_exact None (Some "secret")) as (_ & _ & Hnone).
  assert (H : AdminRoute.ok (AdminRoute.POST (Some "s3cret") (Some "s3cret")) = true).
  { apply Hiff. exists "s3cret".
    split; [reflexivity | split; [reflexivity | discriminate]]. }
  split; [exact H|]. split; [exact (Hok H)|].
  split; [apply Hno; vm_compute; reflexivity | apply Hnone; vm_compute; reflexivity].
Defined.

Lemma ensure_twice_creates_once_witness :
  let t1 := fst (state_after Store.collab Scenario.fresh
                   (EnsureRoute.POST Sample.cfg Sample.ensure_request)) in
  exists order,
    Store.orders t1 = [order]
    /\ result_of Store.collab (t1, []) (EnsureRoute.POST Sample.cfg Sample.ensure_request)
       = found (Store.project t1 AllWithItems order)
    /\ fst (state_after Store.collab (t1, [])
              (EnsureRoute.POST Sample.cfg Sample.ensure_request)) = t1.
Proof.
  intros t1.
  destruct (ensure_twice_creates_once (fst Scenario.fresh) (snd Scenario.fresh) []
              Sample.cfg Sample.ensure_request)
    as (order & Ho & _ & Hr & Hst).
  { vm_compute. reflexivity. }
  exists order. split; [exact Ho|]. split; [exact Hr | exact Hst].
Defined.

Lemma webhook_keeps_a_stored_session_witness :
  let world := (Scenario.settled, [Sample.delivered Sample.paid; Sample.listed [Sample.kabob]]) in
  fst (state_after Store.collab world (WebhookRoute.POST Sample.cfg Sample.webhook_request))
  = Scenario.settled
  /\ writes (trace_of Store.collab world (WebhookRoute.POST Sample.cfg Sample.webhook_request))
     = []
  /\ result_of Store.collab world (WebhookRoute.POST Sample.cfg Sample.webhook_request)
     = acknowledged.
Proof.
  intros world.
  destruct (webhook_keeps_a_stored_session Scenario.settled [Sample.delivered Sample.paid; Sample.listed [Sample.kabob]]
              Sample.cfg Sample.webhook_request
              (mkStripeEvent "checkout.session.completed" Sample.paid)
              (Sample.stored "pending" 1000))
    as (Hst & Hw & Hr).
  { vm_compute. reflexivity. }
  { vm_compute. reflexivity. }
  split; [exact Hst|]. split; [exact Hw|].
  destruct Hr as [Hr | Hr].
  - vm_compute. discriminate.
  - exact Hr.
  - exfalso. revert Hr. vm_compute. discriminate.
Defined.

Lemma tracking_finds_the_order_ensure_created_witness :
  let t1 := fst (state_after Store.collab Scenario.fresh
                   (EnsureRoute.POST Sample.cfg Sample.ensure_request)) in
  exists order,
    Store.orders t1 = [order]
    /\ result_of Store.collab (t1, []) (SessionRoute.GET (Some "sess_123"))
       = SessionRoute.Found (Some (Store.project t1 AllWithItems order)).
Proof.
  intros t1.
  destruct (tracking_finds_the_order_ensure_created (fst Scenario.fresh)
              (snd Scenario.fresh) [] Sample.cfg Sample.ensure_request)
    as (order & Ho & Hr).
  { vm_compute. reflexivity. }
  exists order. split; [exact Ho | exact Hr].
Defined.

Lemma lookup_by_phone_answers_recent_orders_witness :
  let w := Scenario.lookup_world Scenario.settled in
  let request := LookupRoute.mkRequest (Some "(555) 111-2222") None in
  fst (LookupRoute.GET w request) = [LookupRoute.ByPhone "5551112222"]
  /\ exists rows,
      snd (LookupRoute.GET w request) = LookupRoute.Orders rows
      /\ Forall (fun r => LookupRoute.recent w r = true) rows.
Proof.
  intros w request.
  destruct (LookupRoute.GET w request) as [queries [rows|e st]] eqn:E;
    [|vm_compute in E; discriminate E].
  destruct (lookup_by_phone_answers_recent_orders w request queries rows)
    as (_ & Hall & [[Hq _] | [Hq Hnone]]).
  { reflexivity. }
  { exact E. }
  - split; [exact Hq|]. exists rows. split; [reflexivity | exact Hall].
  - exfalso. revert Hnone. vm_compute. discriminate.
Defined.

Lemma lookup_by_id_ignores_phone_and_age_witness :
  let w := Scenario.lookup_world Scenario.settled in
  LookupRoute.GET w (LookupRoute.mkRequest (Some "000") (Some "order-1"))
  = ([LookupRoute.ById "order-1"], LookupRoute.Orders [Sample.stored "pending" 1000]).
Proof.
  intros w.
  destruct (lookup_by_id_ignores_phone_and_age w
              (LookupRoute.mkRequest (Some "000") (Some "order-1")) "order-1")
    as [_ Hr].
  { reflexivity. }
  { reflexivity. }
  apply Hr; vm_compute; reflexivity.
Defined.

Lemma lookup_finds_the_order_ensure_created_witness :
  let t1 := fst (state_after Store.collab Scenario.fresh
                   (EnsureRoute.POST Sample.cfg Sample.ensure_request)) in
  exists order rows,
    Store.orders t1 = [order]
    /\ LookupRoute.GET (Scenario.lookup_world t1)
         (LookupRoute.mkRequest (Some "555.111.2222") None)
       = ([LookupRoute.ByPhone "5551112222"], LookupRoute.Orders rows)
    /\ In (Store.project t1 AllWithItems order) rows.
Proof.
  intros t1.
  destruct (lookup_finds_the_order_ensure_created (fst Scenario.fresh)
              (snd Scenario.fresh) Sample.cfg Sample.ensure_request (fun _ => true))
    as (order & digits & Ho & Hp & Hfind).
  { vm_compute. reflexivity. }
  fold t1 in Ho, Hp, Hfind.
  assert (Hd : digits = "5551112222").
  { assert (E : Store.orders t1 = [order]) by exact Ho.
    vm_compute in E. injection E as <-. vm_compute in Hp. injection Hp as <-. reflexivity. }
  subst digits.
  destruct (Hfind "555.111.2222") as (rows & Hg & Hin).
  { vm_compute. reflexivity. }
  { reflexivity. }
  exists order, rows. split; [exact Ho|]. split; [exact Hg | exact Hin].
Defined.

Lemma lookup_without_digits_lists_all_recent_orders_witness :
  LookupRoute.GET (Scenario.lookup_world Scenario.settled)
    (LookupRoute.mkRequest (Some "n/a") None)
  = ([LookupRoute.ByPhone ""; LookupRoute.ByPhoneLike ""],
     LookupRoute.Orders [Sample.earlier 999; Sample.stored "pending" 1000]).
Proof.
  apply (lookup_without_digits_lists_all_recent_orders Scenario.settled (fun _ => true) "n/a").
  - reflexivity.
  - reflexivity.
  - intros r Hr. simpl in Hr. destruct Hr as [<- | [<- | []]]; vm_compute; discriminate.
Defined.

Lemma without_a_client_no_store_call_witness :
  let down := [EvCreateServerClient (Threw "SUPABASE_URL is required")] in
  (filter is_store_call
     (trace_of Replay.collab down (EnsureRoute.POST Sample.cfg Sample.ensure_request)) = []
   /\ status (result_of Replay.collab down
                (EnsureRoute.POST Sample.cfg Sample.ensure_request)) = 500)
  /\ (filter is_store_call
        (trace_of Replay.collab (Sample.delivered Sample.paid :: down)
           (WebhookRoute.POST Sample.cfg Sample.webhook_request)) = []
      /\ status (result_of Replay.collab (Sample.delivered Sample.paid :: down)
                   (WebhookRoute.POST Sample.cfg Sample.webhook_request)) = 500)
  /\ (filter is_store_call
        (trace_of Replay.collab down
           (StatusRoute.PATCH
              (StatusRoute.mkRequest "order-1"
                 (Returned (StatusRoute.StatusString "ready"))))) = []
      /\ status (result_of Replay.collab down
                   (StatusRoute.PATCH
                      (StatusRoute.mkRequest "order-1"
                         (Returned (StatusRoute.StatusString "ready"))))) = 500)
  /\ filter is_store_call
       (trace_of Replay.collab down (SessionRoute.GET (Some "sess_123"))) = [].
Proof.
  intros down.
  destruct (without_a_client_no_store_call _ Replay.collab down "SUPABASE_URL is required")
    as (He & _ & Hp & Hs).
  destruct (without_a_client_no_store_call _ Replay.collab
              (Sample.delivered Sample.paid :: down) "SUPABASE_URL is required")
    as (_ & Hw & _).
  destruct (He Sample.cfg Sample.ensure_request) as [He1 He2]; [reflexivity|].
  destruct (Hw Sample.cfg Sample.webhook_request) as [Hw1 Hw2]; [reflexivity|].
  destruct (Hp (StatusRoute.mkRequest "order-1"
                  (Returned (StatusRoute.StatusString "ready")))) as [Hp1 Hp2];
    [reflexivity|].
  destruct (Hs (Some "sess_123")) as [Hs1 Hs2]; [reflexivity|].
  rewrite He2, Hw2, Hp2. repeat split; assumption.
Defined.
